(** * Weekly report tracker: state model, store and report renderer

A shallow embedding of [src/models.py], [src/data_manager.py] and
[src/report_generator.py], followed by the properties proved about
them.

Conventions of the embedding.
- A Python [str] is a [string]; [int] is [Z]; [Optional[T]] is
  [option T]; a [list] is a [list].
- A Python [dict] is an association list kept in insertion order with
  pairwise distinct keys ([Dict]): iteration order is observable in
  [auto_detect_project] and in the report.
- [str.lower] is a parameter [lower] of every definition that calls
  it; [Py.lower_ascii] is its restriction to ASCII text, used to
  evaluate examples.
- The clock is an argument: [now] for [datetime.now()], [today] for
  [date.today()].
- A [date] is represented by its proleptic Gregorian ordinal
  ([date.toordinal]); Python orders dates as it orders their
  ordinals and does date arithmetic on ordinals.
- Code that can raise returns an [outcome]. *)

From Stdlib Require Import ZArith List String Ascii Bool Lia Sorted Permutation.
From Stdlib Require Import OrderedTypeEx.
Import ListNotations.

Set Warnings "-register-all".

Local Open Scope string_scope.
Local Open Scope list_scope.
Local Open Scope Z_scope.

(** ** Python primitives *)

Module Py.

(** [sub in s] on strings: [sub] occurs in [s] as a contiguous run. *)
Fixpoint contains (sub s : string) {struct s} : bool :=
  String.prefix sub s ||
  match s with
  | EmptyString => false
  | String _ s' => contains sub s'
  end.

(** [s.split(sep)[0]] for a one-character separator: the text before
    its first occurrence, all of [s] when it does not occur. *)
Fixpoint split_first (sep : ascii) (s : string) : string :=
  match s with
  | EmptyString => EmptyString
  | String c s' =>
      if Ascii.eqb c sep then EmptyString else String c (split_first sep s')
  end.

(** [s[:n]] *)
Definition slice_to (n : nat) (s : string) : string := String.substring 0 n s.

(** [x in l] for a list of strings. *)
Definition mem (x : string) (l : list string) : bool :=
  existsb (String.eqb x) l.

(** [o or ""] *)
Definition or_empty (o : option string) : string :=
  match o with
  | Some s => s
  | None => ""
  end.

(** [str.lower] on ASCII text. *)
Definition lower_char (c : ascii) : ascii :=
  let n := nat_of_ascii c in
  if (Nat.leb 65 n && Nat.leb n 90)%bool then ascii_of_nat (n + 32) else c.

Fixpoint lower_ascii (s : string) : string :=
  match s with
  | EmptyString => EmptyString
  | String c s' => String (lower_char c) (lower_ascii s')
  end.

(** [s.add(x)] on a set of strings, kept as the list of its elements in
    the order in which they came in. *)
Definition set_add (x : string) (s : list string) : list string :=
  if mem x s then s else s ++ [x].

(** [s[n:]] *)
Fixpoint slice_from (n : nat) (s : string) : string :=
  match n, s with
  | O, _ => s
  | S n', String _ s' => slice_from n' s'
  | S _, EmptyString => EmptyString
  end.

(** [s.endswith(suffix)] *)
Definition endswith (suffix s : string) : bool :=
  Nat.leb (String.length suffix) (String.length s) &&
  String.eqb (slice_from (String.length s - String.length suffix) s) suffix.

(** [s.split(sep)] for a one-character separator. *)
Fixpoint split (sep : ascii) (s : string) : list string :=
  match s with
  | EmptyString => [EmptyString]
  | String c s' =>
      if Ascii.eqb c sep then EmptyString :: split sep s'
      else
        match split sep s' with
        | [] => [String c EmptyString]
        | part :: parts => String c part :: parts
        end
  end.

End Py.

(** ** Dictionaries in insertion order *)

(** The keys of a dictionary: a type with a test of equality. *)
Class Key (K : Type) := {
  key_eqb : K -> K -> bool;
  key_eqb_eq : forall x y, key_eqb x y = true <-> x = y
}.

#[export] Instance string_key : Key string :=
  {| key_eqb := String.eqb; key_eqb_eq := String.eqb_eq |}.

#[export] Instance date_key : Key Z :=
  {| key_eqb := Z.eqb; key_eqb_eq := Z.eqb_eq |}.

Module Dict.
Section Dict.
Context {K V : Type} `{Key K}.

Definition t := list (K * V).

Fixpoint get (k : K) (d : t) : option V :=
  match d with
  | [] => None
  | (k', v) :: d' => if key_eqb k k' then Some v else get k d'
  end.

(** [k in d] *)
Definition mem (k : K) (d : t) : bool :=
  match get k d with Some _ => true | None => false end.

(** [d[k] = v]: an existing key keeps its place, a new one goes last. *)
Fixpoint set (k : K) (v : V) (d : t) : t :=
  match d with
  | [] => [(k, v)]
  | (k', v') :: d' =>
      if key_eqb k k' then (k', v) :: d' else (k', v') :: set k v d'
  end.

(** [del d[k]] for a key that is present. *)
Fixpoint del (k : K) (d : t) : t :=
  match d with
  | [] => []
  | (k', v') :: d' => if key_eqb k k' then d' else (k', v') :: del k d'
  end.

Definition keys (d : t) : list K := map fst d.

(** [if k not in d: d[k] = v] *)
Definition setdefault (k : K) (v : V) (d : t) : t :=
  if mem k d then d else set k v d.

(** An update in place of the value stored under [k], as
    [d[k].append(x)] or [d[k]['total_time'] += n] do. *)
Definition modify (k : K) (f : V -> V) (d : t) : t :=
  match get k d with
  | Some v => set k (f v) d
  | None => d
  end.

(** The loop that files every item of a list under its key:
    [for x in l: if key(x) not in d: d[key(x)] = init], followed by an
    update of [d[key(x)]] with [x]. *)
Definition grouped {X} (key : X -> K) (init : V) (upd : X -> V -> V)
    (l : list X) (d0 : t) : t :=
  fold_left (fun d x => modify (key x) (upd x) (setdefault (key x) init d)) l d0.

(** The keys met so far, each at the place where it was met first. *)
Definition seen_from (l : list K) (ks : list K) : list K :=
  fold_left (fun seen x => if existsb (key_eqb x) seen then seen else seen ++ [x])
            l ks.

End Dict.
Arguments t : clear implicits.
End Dict.

(** ** Errors *)

Inductive exn :=
| JSONDecodeError | KeyError | ValueError | TypeError | AttributeError
| OverflowError.

(** The result of running code that can raise. [Untyped] marks a value
    that Python accepts without a check but that has no counterpart in
    the typed records below (for instance a number stored in
    [current_ticket]); nothing is proved about such runs. *)
Inductive outcome (A : Type) :=
| Returns (a : A)
| Raises (e : exn)
| Untyped.
Arguments Returns {A} a.
Arguments Raises {A} e.
Arguments Untyped {A}.

Definition bind {A B} (m : outcome A) (f : A -> outcome B) : outcome B :=
  match m with
  | Returns a => f a
  | Raises e => Raises e
  | Untyped => Untyped
  end.

Declare Scope outcome_scope.
Delimit Scope outcome_scope with outcome.
Notation "x <- m ;; k" := (bind m (fun x => k))
  (at level 61, m at next level, right associativity) : outcome_scope.
Local Open Scope outcome_scope.

Fixpoint mapM {A B} (f : A -> outcome B) (l : list A) : outcome (list B) :=
  match l with
  | [] => Returns []
  | a :: l' => b <- f a ;; bs <- mapM f l' ;; Returns (b :: bs)
  end.

(** ** Calendar dates and naive datetimes *)

Module Date.

(** A date is its ordinal: day 1 is 0001-01-01, a Monday. *)
Definition t := Z.

Definition MINORDINAL : Z := 1.
Definition MAXORDINAL : Z := 3652059.   (* 9999-12-31 *)

Definition is_leap (y : Z) : bool :=
  (y mod 4 =? 0) && (negb (y mod 100 =? 0) || (y mod 400 =? 0)).

Definition DAYS_IN_MONTH : list Z :=
  [0; 31; 28; 31; 30; 31; 30; 31; 31; 30; 31; 30; 31].

Definition DAYS_BEFORE_MONTH : list Z :=
  [0; 0; 31; 59; 90; 120; 151; 181; 212; 243; 273; 304; 334].

Definition days_in_month (y m : Z) : Z :=
  if (m =? 2) && is_leap y then 29 else nth (Z.to_nat m) DAYS_IN_MONTH 0.

Definition days_before_year (year : Z) : Z :=
  let y := year - 1 in y * 365 + y / 4 - y / 100 + y / 400.

Definition days_before_month (y m : Z) : Z :=
  nth (Z.to_nat m) DAYS_BEFORE_MONTH 0 +
  (if (2 <? m) && is_leap y then 1 else 0).

Definition ymd2ord (y m d : Z) : t :=
  days_before_year y + days_before_month y m + d.

(** [date.fromordinal], as (year, month, day). *)
Definition ord2ymd (ordinal : t) : Z * Z * Z :=
  let n := ordinal - 1 in
  let n400 := n / 146097 in
  let n := n mod 146097 in
  let n100 := n / 36524 in
  let n := n mod 36524 in
  let n4 := n / 1461 in
  let n := n mod 1461 in
  let n1 := n / 365 in
  let n := n mod 365 in
  let year := n400 * 400 + 1 + n100 * 100 + n4 * 4 + n1 in
  if (n1 =? 4) || (n100 =? 4) then (year - 1, 12, 31)
  else
    let leapyear := (n1 =? 3) && (negb (n4 =? 24) || (n100 =? 3)) in
    let month := Z.shiftr (n + 50) 5 in
    let preceding :=
      nth (Z.to_nat month) DAYS_BEFORE_MONTH 0 +
      (if (2 <? month) && leapyear then 1 else 0) in
    if n <? preceding then
      let month := month - 1 in
      let preceding :=
        preceding - (nth (Z.to_nat month) DAYS_IN_MONTH 0 +
                     (if (month =? 2) && leapyear then 1 else 0)) in
      (year, month, n - preceding + 1)
    else (year, month, n - preceding + 1).

(** [d.weekday()]: Monday is 0, Sunday is 6. *)
Definition weekday (d : t) : Z := (d + 6) mod 7.

(** [timedelta(days=n)]: the day count is limited to nine digits. *)
Definition timedelta (days : Z) : outcome Z :=
  if Z.abs days <=? 999999999 then Returns days else Raises OverflowError.

(** [d + delta]: the result has to be a date of the years 1..9999. *)
Definition add (d : t) (delta : Z) : outcome t :=
  let o := d + delta in
  if (0 <? o) && (o <=? MAXORDINAL) then Returns o else Raises OverflowError.

(** [d - delta] is [d + (-delta)]. *)
Definition sub (d : t) (delta : Z) : outcome t := add d (- delta).

End Date.

Module Fmt.

Definition digit (d : Z) : ascii := ascii_of_nat (48 + Z.to_nat d).

Definition digit_val (c : ascii) : option Z :=
  let n := nat_of_ascii c in
  if (Nat.leb 48 n && Nat.leb n 57)%bool then Some (Z.of_nat n - 48) else None.

(** The [w] low-order decimal digits of [n], most significant first:
    [%0wd] for [0 <= n < 10^w]. *)
Fixpoint digits (w : nat) (n : Z) : string :=
  match w with
  | O => EmptyString
  | S w' => String (digit ((n / 10 ^ Z.of_nat w') mod 10)) (digits w' n)
  end.

(** Reads exactly [w] decimal digits. *)
Fixpoint read_digits (w : nat) (acc : Z) (s : string) : option (Z * string) :=
  match w with
  | O => Some (acc, s)
  | S w' =>
      match s with
      | EmptyString => None
      | String c s' =>
          match digit_val c with
          | Some d => read_digits w' (10 * acc + d) s'
          | None => None
          end
      end
  end.

Definition read_char (c : ascii) (s : string) : option string :=
  match s with
  | String c' s' => if Ascii.eqb c' c then Some s' else None
  | EmptyString => None
  end.

(** [str(n)] for an integer. *)
Fixpoint nat_digits (fuel : nat) (n : Z) (acc : string) : string :=
  match fuel with
  | O => acc
  | S fuel' =>
      let acc' := String (digit (n mod 10)) acc in
      if n / 10 =? 0 then acc' else nat_digits fuel' (n / 10) acc'
  end.

Definition str (n : Z) : string :=
  if n <? 0
  then String "-" (nat_digits (S (Z.to_nat (Z.log2 (- n)))) (- n) EmptyString)
  else nat_digits (S (Z.to_nat (Z.log2 n))) n EmptyString.

End Fmt.

Module Datetime.

Record t := mk {
  year : Z; month : Z; day : Z;
  hour : Z; minute : Z; second : Z; microsecond : Z
}.

(** The range check of the [datetime] constructor: every [datetime]
    object satisfies it. *)
Definition valid_date (y m d : Z) : bool :=
  (1 <=? y) && (y <=? 9999) && (1 <=? m) && (m <=? 12) &&
  (1 <=? d) && (d <=? Date.days_in_month y m).

Definition valid_time (h mi s us : Z) : bool :=
  (0 <=? h) && (h <=? 23) && (0 <=? mi) && (mi <=? 59) &&
  (0 <=? s) && (s <=? 59) && (0 <=? us) && (us <=? 999999).

Definition valid (dt : t) : bool :=
  valid_date (year dt) (month dt) (day dt) &&
  valid_time (hour dt) (minute dt) (second dt) (microsecond dt).

(** [dt.date()] *)
Definition date (dt : t) : Date.t :=
  Date.ymd2ord (year dt) (month dt) (day dt).

(** [dt.isoformat()] of a naive datetime:
    [YYYY-MM-DDTHH:MM:SS], then [.ffffff] when the microseconds are
    not zero. *)
Definition isoformat (dt : t) : string :=
  (Fmt.digits 4 (year dt) ++ "-" ++ Fmt.digits 2 (month dt) ++ "-" ++
   Fmt.digits 2 (day dt) ++ "T" ++ Fmt.digits 2 (hour dt) ++ ":" ++
   Fmt.digits 2 (minute dt) ++ ":" ++ Fmt.digits 2 (second dt) ++
   (if (microsecond dt =? 0)%Z then "" else "." ++ Fmt.digits 6 (microsecond dt)))%string.

Definition obind {A B} (o : option A) (f : A -> option B) : option B :=
  match o with Some a => f a | None => None end.

(** The fields of a text of the shape that [isoformat] writes. *)
Definition parse_iso (s : string) : option t :=
  obind (Fmt.read_digits 4 0 s) (fun '(y, s) =>
  obind (Fmt.read_char "-" s) (fun s =>
  obind (Fmt.read_digits 2 0 s) (fun '(mo, s) =>
  obind (Fmt.read_char "-" s) (fun s =>
  obind (Fmt.read_digits 2 0 s) (fun '(d, s) =>
  obind (Fmt.read_char "T" s) (fun s =>
  obind (Fmt.read_digits 2 0 s) (fun '(h, s) =>
  obind (Fmt.read_char ":" s) (fun s =>
  obind (Fmt.read_digits 2 0 s) (fun '(mi, s) =>
  obind (Fmt.read_char ":" s) (fun s =>
  obind (Fmt.read_digits 2 0 s) (fun '(se, s) =>
  match s with
  | EmptyString => Some (mk y mo d h mi se 0)
  | _ =>
      obind (Fmt.read_char "." s) (fun s =>
      obind (Fmt.read_digits 6 0 s) (fun '(us, s) =>
      match s with
      | EmptyString => Some (mk y mo d h mi se us)
      | _ => None
      end))
  end))))))))))).

(** [datetime.fromisoformat(s)] on the texts that [isoformat] writes
    for naive datetimes: fields out of range raise [ValueError]. The
    other spellings of ISO 8601 that the library reads, which vary with
    its version (an hour of 24 among them), are left [Untyped]. *)
Definition fromisoformat (s : string) : outcome t :=
  match parse_iso s with
  | Some dt =>
      if hour dt =? 24 then Untyped
      else if valid dt then Returns dt else Raises ValueError
  | None => Untyped
  end.

(** One way of reading a number at the head of a text, when there is
    one: [w] digits with a value from [lo] to [hi]. *)
Definition number (w : nat) (lo hi : Z) (s : string) : list (Z * string) :=
  match Fmt.read_digits w 0 s with
  | Some (n, rest) => if (lo <=? n) && (n <=? hi) then [(n, rest)] else []
  | None => []
  end.

(** The ways in which [%m] reads a month, in the order in which the
    format tries them: [1[0-2]], [0[1-9]], [[1-9]]. *)
Definition read_month (s : string) : list (Z * string) :=
  number 2 10 12 s ++ number 2 1 9 s ++ number 1 1 9 s.

(** The ways in which [%d] reads a day: [3[01]], [[12]\d], [0[1-9]],
    [[1-9]], and a space before [[1-9]]. *)
Definition read_day (s : string) : list (Z * string) :=
  number 2 30 31 s ++ number 2 10 29 s ++ number 2 1 9 s ++ number 1 1 9 s ++
  match s with
  | String " " s' => number 1 1 9 s'
  | _ => []
  end.

(** [datetime.strptime(s, "%Y%m%d").date()]: four digits for the year,
    then the first way of reading a month and a day; nothing may remain
    of the text, and the date has to exist. *)
Definition strptime_Ymd (s : string) : outcome Date.t :=
  match Fmt.read_digits 4 0 s with
  | Some (y, s1) =>
      match
        flat_map (fun ms => map (fun dr => (fst ms, fst dr, snd dr))
                                (read_day (snd ms)))
                 (read_month s1)
      with
      | (m, d, EmptyString) :: _ =>
          if valid_date y m d then Returns (Date.ymd2ord y m d)
          else Raises ValueError
      | _ => Raises ValueError
      end
  | None => Raises ValueError
  end.

End Datetime.

(** ** Python values read from and written to the state file *)

(** The objects that [json.load] builds and [json.dump] writes. Numbers
    with a fractional part do not occur in a state file that the program
    wrote and are left out. A [PDict] lists its items in insertion
    order. *)
Inductive pyval :=
| PNone
| PBool (b : bool)
| PInt (n : Z)
| PStr (s : string)
| PList (l : list pyval)
| PDict (d : list (string * pyval)).

Module Obj.

(** [data.get(k, default)]: only a dict has [get]. *)
Definition get (data : pyval) (k : string) (default : pyval) : outcome pyval :=
  match data with
  | PDict d =>
      Returns (match Dict.get k d with Some v => v | None => default end)
  | _ => Raises AttributeError
  end.

(** [data[k]] with a string key: a missing key of a dict is a
    [KeyError]; a list or a string wants an integer index and the
    other values cannot be subscripted, a [TypeError] for both. *)
Definition getitem (data : pyval) (k : string) : outcome pyval :=
  match data with
  | PDict d =>
      match Dict.get k d with
      | Some v => Returns v
      | None => Raises KeyError
      end
  | _ => Raises TypeError
  end.

(** Truth value of an object. *)
Definition truthy (v : pyval) : bool :=
  match v with
  | PNone => false
  | PBool b => b
  | PInt n => negb (n =? 0)
  | PStr s => negb (String.eqb s "")
  | PList l => match l with [] => false | _ => true end
  | PDict d => match d with [] => false | _ => true end
  end.

Fixpoint chars (s : string) : list pyval :=
  match s with
  | EmptyString => []
  | String c s' => PStr (String c EmptyString) :: chars s'
  end.

(** [for x in v]: a list yields its elements, a dict its keys, a
    string its characters; the other values are not iterable. *)
Definition iter (v : pyval) : outcome (list pyval) :=
  match v with
  | PList l => Returns l
  | PDict d => Returns (map (fun kv => PStr (fst kv)) d)
  | PStr s => Returns (chars s)
  | _ => Raises TypeError
  end.

(** [v.items()]: only a dict has [items]. *)
Definition items (v : pyval) : outcome (list (string * pyval)) :=
  match v with
  | PDict d => Returns d
  | _ => Raises AttributeError
  end.

(** [datetime.fromisoformat(v)]: the argument must be a [str]. *)
Definition fromisoformat (v : pyval) : outcome Datetime.t :=
  match v with
  | PStr s => Datetime.fromisoformat s
  | _ => Raises TypeError
  end.

(** Reading a stored object at the type its field is annotated with.
    Python stores the object as it is; an object of another type has no
    counterpart in the records below. *)
Definition as_str (v : pyval) : outcome string :=
  match v with PStr s => Returns s | _ => Untyped end.

Definition as_opt_str (v : pyval) : outcome (option string) :=
  match v with PNone => Returns None | PStr s => Returns (Some s) | _ => Untyped end.

Definition as_int (v : pyval) : outcome Z :=
  match v with PInt n => Returns n | _ => Untyped end.

Definition as_str_list (v : pyval) : outcome (list string) :=
  match v with PList l => mapM as_str l | _ => Untyped end.

Definition of_opt_str (o : option string) : pyval :=
  match o with Some s => PStr s | None => PNone end.

(** A dict comprehension: the items are inserted one after the other. *)
Definition dict_of {V} (l : list (string * V)) : Dict.t string V :=
  fold_left (fun d kv => Dict.set (fst kv) (snd kv) d) l [].

End Obj.

(** ** models.py *)

Module WorkEntry.

Record t := mk {
  timestamp : Datetime.t;
  ticket : string;
  project : string;
  details : string;
  duration : Z
}.

Definition to_dict (self : t) : pyval :=
  PDict [ ("timestamp", PStr (Datetime.isoformat (timestamp self)));
          ("ticket", PStr (ticket self));
          ("project", PStr (project self));
          ("details", PStr (details self));
          ("duration", PInt (duration self)) ].

Definition from_dict (data : pyval) : outcome t :=
  ts_v <- Obj.getitem data "timestamp" ;;
  ts <- Obj.fromisoformat ts_v ;;
  ticket_v <- Obj.getitem data "ticket" ;;
  project_v <- Obj.getitem data "project" ;;
  details_v <- Obj.get data "details" (PStr "") ;;
  duration_v <- Obj.get data "duration" (PInt 60) ;;
  ticket <- Obj.as_str ticket_v ;;
  project <- Obj.as_str project_v ;;
  details <- Obj.as_str details_v ;;
  duration <- Obj.as_int duration_v ;;
  Returns (mk ts ticket project details duration).

End WorkEntry.

Module ProjectMapping.

Record t := mk {
  ticket_patterns : list string;
  name : string
}.

Definition to_dict (self : t) : pyval :=
  PDict [ ("ticket_patterns", PList (map PStr (ticket_patterns self)));
          ("name", PStr (name self)) ].

Definition from_dict (data : pyval) : outcome t :=
  patterns_v <- Obj.get data "ticket_patterns" (PList []) ;;
  name_v <- Obj.get data "name" (PStr "") ;;
  patterns <- Obj.as_str_list patterns_v ;;
  name <- Obj.as_str name_v ;;
  Returns (mk patterns name).

End ProjectMapping.

Module AppState.

Record t := mk {
  current_ticket : option string;
  current_project : option string;
  current_details : option string;
  last_activity : option Datetime.t;
  work_entries : list WorkEntry.t;
  project_mappings : Dict.t string ProjectMapping.t
}.

(** [AppState()] *)
Definition default : t := mk None None None None [] [].

Definition to_dict (self : t) : pyval :=
  PDict [ ("current_ticket", Obj.of_opt_str (current_ticket self));
          ("current_project", Obj.of_opt_str (current_project self));
          ("current_details", Obj.of_opt_str (current_details self));
          ("last_activity",
            match last_activity self with
            | Some d => PStr (Datetime.isoformat d)
            | None => PNone
            end);
          ("work_entries", PList (map WorkEntry.to_dict (work_entries self)));
          ("project_mappings",
            PDict (Obj.dict_of
                     (map (fun kv => (fst kv, ProjectMapping.to_dict (snd kv)))
                          (project_mappings self)))) ].

Definition from_dict (data : pyval) : outcome t :=
  ticket_v <- Obj.get data "current_ticket" PNone ;;
  project_v <- Obj.get data "current_project" PNone ;;
  details_v <- Obj.get data "current_details" PNone ;;
  activity_v <- Obj.get data "last_activity" PNone ;;
  activity <-
    (if Obj.truthy activity_v
     then v <- Obj.getitem data "last_activity" ;;
          d <- Obj.fromisoformat v ;;
          Returns (Some d)
     else Returns None) ;;
  entries_v <- Obj.get data "work_entries" (PList []) ;;
  entries_l <- Obj.iter entries_v ;;
  entries <- mapM WorkEntry.from_dict entries_l ;;
  mappings_v <- Obj.get data "project_mappings" (PDict []) ;;
  mappings_l <- Obj.items mappings_v ;;
  mappings <-
    mapM (fun kv => m <- ProjectMapping.from_dict (snd kv) ;; Returns (fst kv, m))
         mappings_l ;;
  ticket <- Obj.as_opt_str ticket_v ;;
  project <- Obj.as_opt_str project_v ;;
  details <- Obj.as_opt_str details_v ;;
  Returns (mk ticket project details activity entries (Obj.dict_of mappings)).

(** The entries dated from [week_start] to [week_end], both included. *)
Definition entries_between (week_start week_end : Date.t) (self : t)
  : list WorkEntry.t :=
  filter (fun entry =>
            let d := Datetime.date (WorkEntry.timestamp entry) in
            (week_start <=? d) && (d <=? week_end))
         (work_entries self).

Definition get_current_week_entries (today : Date.t) (self : t)
  : outcome (list WorkEntry.t) :=
  back <- Date.timedelta (Date.weekday today) ;;
  week_start <- Date.sub today back ;;
  six <- Date.timedelta 6 ;;
  week_end <- Date.add week_start six ;;
  Returns (entries_between week_start week_end self).

Definition get_week_entries_with_offset (today : Date.t) (week_offset : Z)
    (self : t) : outcome (list WorkEntry.t) :=
  back <- Date.timedelta (Date.weekday today) ;;
  current_week_start <- Date.sub today back ;;
  weeks <- Date.timedelta (7 * week_offset) ;;
  target_week_start <- Date.add current_week_start weeks ;;
  six <- Date.timedelta 6 ;;
  target_week_end <- Date.add target_week_start six ;;
  Returns (entries_between target_week_start target_week_end self).

(** The text under which a ticket is remembered for its project. *)
Definition ticket_prefix (ticket : string) : string :=
  if Py.contains "-" ticket
  then Py.split_first "-" ticket
  else Py.slice_to 3 ticket.

Definition add_work_entry (now : Datetime.t) (ticket project details : string)
    (self : t) : t :=
  let entry := WorkEntry.mk now ticket project details 60 in
  let mappings :=
    Dict.setdefault project (ProjectMapping.mk [] project) (project_mappings self) in
  let prefix := ticket_prefix ticket in
  let mappings :=
    Dict.modify project
      (fun m =>
         if Py.mem prefix (ProjectMapping.ticket_patterns m)
         then m
         else ProjectMapping.mk (ProjectMapping.ticket_patterns m ++ [prefix])
                                (ProjectMapping.name m))
      mappings in
  mk (Some ticket) (Some project) (Some details) (Some now)
     (work_entries self ++ [entry]) mappings.

Section Lower.
Variable lower : string -> string.

(** Some pattern of the mapping occurs in the ticket, letter case
    aside. *)
Definition matches (ticket : string) (mapping : ProjectMapping.t) : bool :=
  existsb (fun pattern => Py.contains (lower pattern) (lower ticket))
          (ProjectMapping.ticket_patterns mapping).

Fixpoint first_match (ticket : string) (d : Dict.t string ProjectMapping.t)
  : option string :=
  match d with
  | [] => None
  | (project, mapping) :: d' =>
      if matches ticket mapping then Some project else first_match ticket d'
  end.

Definition auto_detect_project (ticket : string) (self : t) : option string :=
  first_match ticket (project_mappings self).

End Lower.

End AppState.

(** ** data_manager.py *)

(** The three files that the store touches: the state file [data_file],
    its quarantine copy [data_file.with_suffix('.json.backup')] and the
    staging file [data_file.with_suffix('.json.tmp')]; three different
    paths. Writing is taken to succeed. *)
Module Disk.

(** What a file holds: a text that [json.load] rejects, or the text of
    a JSON document, given by the object that [json.load] reads from it
    (and from which [json.dump] writes it). *)
Inductive contents :=
| Malformed (text : string)
| Document (v : pyval).

Record t := mk {
  data_file : option contents;
  backup_file : option contents;
  tmp_file : option contents
}.

Definition json_load (c : contents) : outcome pyval :=
  match c with
  | Malformed _ => Raises JSONDecodeError
  | Document v => Returns v
  end.

(** [open(path, 'w')] followed by a failed dump leaves an empty file. *)
Definition empty : contents := Malformed "".

End Disk.

Module DataManager.

(** The store: its files and the state it holds in memory. *)
Record t := mk {
  files : Disk.t;
  app_state : option AppState.t
}.

Definition with_state (self : t) (s : AppState.t) : t :=
  mk (files self) (Some s).

(** Every exception of the body is caught and printed. Without a state
    ([None.to_dict()]) the file opened for writing stays empty. *)
Definition _save_data (self : t) : t :=
  let f := files self in
  let written :=
    match app_state self with
    | Some s => Disk.Document (AppState.to_dict s)
    | None => Disk.empty
    end in
  match Disk.data_file f, app_state self with
  | Some _, Some _ =>
      (* staged in the .tmp file, which then replaces the state file *)
      mk (Disk.mk (Some written) (Disk.backup_file f) None) (app_state self)
  | Some old, None =>
      mk (Disk.mk (Some old) (Disk.backup_file f) (Some written)) (app_state self)
  | None, _ =>
      mk (Disk.mk (Some written) (Disk.backup_file f) (Disk.tmp_file f))
         (app_state self)
  end.

(** The exceptions named by the [except] clause of [_load_data];
    [JSONDecodeError] is a [ValueError]. *)
Definition caught (e : exn) : bool :=
  match e with
  | JSONDecodeError | KeyError | ValueError => true
  | _ => false
  end.

Definition _load_data (self : t) : outcome t :=
  let f := files self in
  match Disk.data_file f with
  | Some c =>
      match (data <- Disk.json_load c ;; AppState.from_dict data) with
      | Returns s => Returns (with_state self s)
      | Raises e =>
          if caught e then
            (* the state file exists: it is renamed to the backup *)
            let f' := Disk.mk None (Some c) (Disk.tmp_file f) in
            Returns (_save_data (mk f' (Some AppState.default)))
          else Raises e
      | Untyped => Untyped
      end
  | None => Returns (_save_data (with_state self AppState.default))
  end.

(** [DataManager()] over the files found on disk. *)
Definition init (f : Disk.t) : outcome t := _load_data (mk f None).

Definition get_state (self : t) : option AppState.t := app_state self.

Definition add_work_entry (now : Datetime.t) (ticket project details : string)
    (self : t) : outcome t :=
  match app_state self with
  | Some s =>
      Returns (_save_data
                 (with_state self (AppState.add_work_entry now ticket project details s)))
  | None => Raises AttributeError
  end.

Definition update_current_work (ticket project details : option string)
    (self : t) : outcome t :=
  match app_state self with
  | Some s =>
      let s :=
        match ticket with
        | Some v => AppState.mk (Some v) (AppState.current_project s)
                      (AppState.current_details s) (AppState.last_activity s)
                      (AppState.work_entries s) (AppState.project_mappings s)
        | None => s
        end in
      let s :=
        match project with
        | Some v => AppState.mk (AppState.current_ticket s) (Some v)
                      (AppState.current_details s) (AppState.last_activity s)
                      (AppState.work_entries s) (AppState.project_mappings s)
        | None => s
        end in
      let s :=
        match details with
        | Some v => AppState.mk (AppState.current_ticket s) (AppState.current_project s)
                      (Some v) (AppState.last_activity s)
                      (AppState.work_entries s) (AppState.project_mappings s)
        | None => s
        end in
      Returns (_save_data (with_state self s))
  | None =>
      match ticket, project, details with
      | None, None, None => Returns (_save_data self)
      | _, _, _ => Raises AttributeError
      end
  end.

Definition stop_current_work (self : t) : outcome t :=
  match app_state self with
  | Some s =>
      Returns (_save_data
                 (with_state self
                    (AppState.mk None None None (AppState.last_activity s)
                       (AppState.work_entries s) (AppState.project_mappings s))))
  | None => Raises AttributeError
  end.

Definition test_patterns : list string :=
  [ "test"; "demo"; "example"; "sample"; "mock"; "fake"; "dummy";
    "added via status script"; "added via script"; "via script" ].

(** The operations by which a caller changes the state. *)
Inductive op :=
| AddWorkEntry (now : Datetime.t) (ticket project details : string)
| UpdateCurrentWork (ticket project details : option string)
| StopCurrentWork
| CleanupTestData.

Section Lower.
Variable lower : string -> string.

Definition get_project_for_ticket (ticket : string) (self : t)
  : outcome (option string) :=
  match app_state self with
  | Some s => Returns (AppState.auto_detect_project lower ticket s)
  | None => Raises AttributeError
  end.

(** [pattern.lower() in text.lower()] *)
Definition occurs (pattern text : string) : bool :=
  Py.contains (lower pattern) (lower text).

(** The test of the list comprehension over the entries. *)
Definition is_test_entry (entry : WorkEntry.t) : bool :=
  existsb (fun pattern =>
             occurs pattern (WorkEntry.ticket entry) ||
             occurs pattern (WorkEntry.project entry) ||
             occurs pattern (WorkEntry.details entry))
          test_patterns.

(** The test on the current work. *)
Definition is_test_current (s : AppState.t) : bool :=
  match AppState.current_ticket s with
  | Some ticket =>
      negb (String.eqb ticket "") &&
      existsb (fun pattern =>
                 occurs pattern ticket ||
                 occurs pattern (Py.or_empty (AppState.current_project s)))
              test_patterns
  | None => false
  end.

(** The test on the name of a project. *)
Definition is_test_project (project : string) : bool :=
  existsb (fun pattern => occurs pattern project) test_patterns.

(** The three removals of [cleanup_test_data]: the entries, the current
    work, the mappings. *)
Definition without_test_data (s : AppState.t) : AppState.t :=
  let entries :=
    filter (fun entry => negb (is_test_entry entry)) (AppState.work_entries s) in
  let clear := is_test_current s in
  let test_projects :=
    filter is_test_project (Dict.keys (AppState.project_mappings s)) in
  let mappings :=
    fold_left (fun d project => Dict.del project d) test_projects
              (AppState.project_mappings s) in
  AppState.mk
    (if clear then None else AppState.current_ticket s)
    (if clear then None else AppState.current_project s)
    (if clear then None else AppState.current_details s)
    (if clear then None else AppState.last_activity s)
    entries mappings.

Definition cleanup_test_data (self : t) : t * Z :=
  match app_state self with
  | None => (self, 0)
  | Some s =>
      let original_count := Z.of_nat (List.length (AppState.work_entries s)) in
      let s' := without_test_data s in
      let removed_count :=
        original_count - Z.of_nat (List.length (AppState.work_entries s')) in
      let self' := with_state self s' in
      (if 0 <? removed_count then _save_data self' else self', removed_count)
  end.

Definition step (o : op) (self : t) : outcome t :=
  match o with
  | AddWorkEntry now ticket project details =>
      add_work_entry now ticket project details self
  | UpdateCurrentWork ticket project details =>
      update_current_work ticket project details self
  | StopCurrentWork => stop_current_work self
  | CleanupTestData => Returns (fst (cleanup_test_data self))
  end.

Fixpoint run (ops : list op) (self : t) : outcome t :=
  match ops with
  | [] => Returns self
  | o :: ops' => self' <- step o self ;; run ops' self'
  end.

End Lower.

(** The value of [projects_summary[name]]. *)
Record project_summary := mk_summary {
  s_tickets : list string;
  s_time : Z;
  s_details : list string
}.

(** The dict that [get_current_week_summary] returns. *)
Record week_summary := mk_week {
  total_time : Z;
  projects : Dict.t string project_summary;
  entries_count : Z
}.

Definition add_to_summary (entry : WorkEntry.t) (p : project_summary)
  : project_summary :=
  mk_summary
    (Py.set_add (WorkEntry.ticket entry) (s_tickets p))
    (s_time p + WorkEntry.duration entry)
    (if negb (String.eqb (WorkEntry.details entry) "")
     then s_details p ++ [WorkEntry.details entry]
     else s_details p).

Section SetOrder.

(** The order in which [list(s)] lists a set of strings. *)
Variable set_order : list string -> list string.

Definition get_current_week_summary (today : Date.t) (self : t)
  : outcome week_summary :=
  match app_state self with
  | None => Raises AttributeError
  | Some s =>
      entries <- AppState.get_current_week_entries today s ;;
      let projects_summary :=
        fold_left
          (fun d entry =>
             Dict.modify (WorkEntry.project entry) (add_to_summary entry)
               (Dict.setdefault (WorkEntry.project entry) (mk_summary [] 0 []) d))
          entries [] in
      let total_time :=
        fold_left (fun acc entry => acc + WorkEntry.duration entry) entries 0 in
      let projects_summary :=
        map (fun kv =>
               (fst kv,
                mk_summary (set_order (s_tickets (snd kv))) (s_time (snd kv))
                           (s_details (snd kv))))
            projects_summary in
      Returns (mk_week total_time projects_summary (Z.of_nat (List.length entries)))
  end.

End SetOrder.

End DataManager.

(** ** Numbers in the report *)

Module Float.

(** The integer nearest to [num / den] for [0 <= num] and [0 < den];
    a tie goes to the even one. *)
Definition round_half_even (num den : Z) : Z :=
  let q := num / den in
  let r := num mod den in
  if 2 * r <? den then q
  else if den <? 2 * r then q + 1
  else if Z.even q then q else q + 1.

(** A finite binary64 number [m * 2^e] with [0 <= m < 2^53], and its
    sign. *)
Record t := mk { negative : bool; mantissa : Z; exponent : Z }.

(** [2^n] for scaling: 1 when [n] is negative. *)
Definition pow2 (n : Z) : Z := 2 ^ Z.max 0 n.

(** The binary64 number nearest to [a / b] for [0 < b], ties to even,
    were the exponent not limited. The quotients of this program are 0 or
    at least 1/60 in size, above the subnormal range. *)
Definition nearest (a b : Z) : t :=
  if a =? 0 then mk false 0 0
  else
    let n := Z.abs a in
    let k := Z.log2 n - Z.log2 b in
    (* the position of the leading bit of the quotient *)
    let lead := if b * pow2 k <=? n * pow2 (- k) then k else k - 1 in
    let e := lead - 52 in
    let m := round_half_even (n * pow2 (- e)) (b * pow2 e) in
    if m =? 2 ^ 53 then mk (a <? 0) (2 ^ 52) (e + 1) else mk (a <? 0) m e.

(** [a / b] on integers: the nearest float, [OverflowError] when the
    quotient is too large for one. *)
Definition true_div (a b : Z) : outcome t :=
  let x := nearest a b in
  if 971 <? exponent x then Raises OverflowError else Returns x.

(** [f"{x:.1f}"]: the exact value of [x] rounded to tenths, ties to
    even. *)
Definition format_1f (x : t) : string :=
  let tenths :=
    round_half_even (10 * mantissa x * pow2 (exponent x)) (pow2 (- exponent x)) in
  ((if negative x then "-" else "") ++
   Fmt.str (tenths / 10) ++ "." ++ Fmt.str (tenths mod 10))%string.

End Float.

(** ** report_generator.py *)

Module ReportGenerator.

Definition nl : string := String (ascii_of_nat 10) EmptyString.

(** Concatenation of the pieces of a text. *)
Definition cat (l : list string) : string := fold_right String.append "" l.

(** [sep.join(l)] *)
Fixpoint join (sep : string) (l : list string) : string :=
  match l with
  | [] => ""
  | [x] => x
  | x :: l' => (x ++ sep ++ join sep l')%string
  end.

(** [f"{minutes / 60:.1f}"] *)
Definition hours (minutes : Z) : outcome string :=
  x <- Float.true_div minutes 60 ;; Returns (Float.format_1f x).

(** [sum(entry.duration for entry in entries)] *)
Definition total_duration (entries : list WorkEntry.t) : Z :=
  fold_left (fun acc entry => acc + WorkEntry.duration entry) entries 0.

(** [d.strftime('%m/%d/%Y')] and [d.strftime('%m/%d')], for the years
    from 1000 on, which [%Y] writes with four digits on every
    platform. *)
Definition strftime_mdY (d : Date.t) : string :=
  let '(y, m, dd) := Date.ord2ymd d in
  (Fmt.digits 2 m ++ "/" ++ Fmt.digits 2 dd ++ "/" ++ Fmt.digits 4 y)%string.

Definition strftime_md (d : Date.t) : string :=
  let '(y, m, dd) := Date.ord2ymd d in
  (Fmt.digits 2 m ++ "/" ++ Fmt.digits 2 dd)%string.

(** [sorted(...)] on strings, on dates, and on the items of a dict with
    string keys, which are told apart by their keys: an insertion sort,
    stable as Python's sort is. *)
Fixpoint insert_by {A} (le : A -> A -> bool) (x : A) (l : list A) : list A :=
  match l with
  | [] => [x]
  | y :: l' => if le x y then x :: l else y :: insert_by le x l'
  end.

Definition sort_by {A} (le : A -> A -> bool) (l : list A) : list A :=
  fold_right (insert_by le) [] l.

Definition sorted_strings : list string -> list string := sort_by String.leb.

Definition sorted_dates : list Date.t -> list Date.t := sort_by Z.leb.

Definition sorted_items {V} : list (string * V) -> list (string * V) :=
  sort_by (fun a b => String.leb (fst a) (fst b)).

(** [s.add(x)] on a set of strings, kept as the list of its elements in
    the order in which they came in. *)
Definition set_add (x : string) (s : list string) : list string :=
  if Py.mem x s then s else s ++ [x].

(** The value of [projects[name]]. *)
Record project_data := mk_project {
  tickets : list string;
  total_time : Z;
  entries : list WorkEntry.t;
  details : list string
}.

(** The value of [ticket_groups[ticket]]. *)
Record ticket_data := mk_ticket {
  t_entries : list WorkEntry.t;
  t_total_time : Z;
  t_details : list string
}.

Definition add_to_project (entry : WorkEntry.t) (p : project_data) : project_data :=
  mk_project
    (set_add (WorkEntry.ticket entry) (tickets p))
    (total_time p + WorkEntry.duration entry)
    (entries p ++ [entry])
    (if negb (String.eqb (WorkEntry.details entry) "") &&
        negb (Py.mem (WorkEntry.details entry) (details p))
     then details p ++ [WorkEntry.details entry]
     else details p).

Definition _group_entries_by_project (entries : list WorkEntry.t)
  : Dict.t string project_data :=
  fold_left
    (fun projects entry =>
       Dict.modify (WorkEntry.project entry) (add_to_project entry)
         (Dict.setdefault (WorkEntry.project entry) (mk_project [] 0 [] [])
            projects))
    entries [].

Definition add_to_ticket (entry : WorkEntry.t) (g : ticket_data) : ticket_data :=
  mk_ticket
    (t_entries g ++ [entry])
    (t_total_time g + WorkEntry.duration entry)
    (if negb (String.eqb (WorkEntry.details entry) "")
     then set_add (WorkEntry.details entry) (t_details g)
     else t_details g).

Definition group_by_ticket (entries : list WorkEntry.t)
  : Dict.t string ticket_data :=
  fold_left
    (fun ticket_groups entry =>
       Dict.modify (WorkEntry.ticket entry) (add_to_ticket entry)
         (Dict.setdefault (WorkEntry.ticket entry) (mk_ticket [] 0 [])
            ticket_groups))
    entries [].

(** The part of a project section written for one ticket. *)
Definition ticket_section (ticket : string) (g : ticket_data) : outcome string :=
  ticket_hours <- hours (t_total_time g) ;;
  Returns
    ("### " ++ ticket ++ nl ++
     "**Time spent:** " ++ ticket_hours ++ " hours  " ++ nl ++
     "**Sessions:** " ++ Fmt.str (Z.of_nat (List.length (t_entries g))) ++ nl ++ nl ++
     match t_details g with
     | [] => ""
     | _ =>
         "**Activities:**" ++ nl ++
         cat (map (fun detail => "- " ++ detail ++ nl) (sorted_strings (t_details g))) ++
         nl
     end)%string.

Definition _create_project_section (project_name : string) (p : project_data)
  : outcome string :=
  h <- hours (total_time p) ;;
  sections <-
    mapM (fun item => ticket_section (fst item) (snd item))
         (sorted_items (group_by_ticket (entries p))) ;;
  Returns
    ("## " ++ project_name ++ nl ++
     "**Total time:** " ++ h ++ " hours" ++ nl ++ nl ++
     cat sections)%string.

Definition days_en : list string :=
  [ "Monday"; "Tuesday"; "Wednesday"; "Thursday"; "Friday"; "Saturday"; "Sunday" ].

Definition append_to {K} `{Key K} (k : K) (entry : WorkEntry.t)
    (d : Dict.t K (list WorkEntry.t)) : Dict.t K (list WorkEntry.t) :=
  Dict.modify k (fun l => l ++ [entry]) (Dict.setdefault k [] d).

Section SetOrder.

(** The order in which Python iterates over a set of strings, which
    follows their hashes: some listing of the elements. *)
Variable set_order : list string -> list string.

(** The line of one project on one day. *)
Definition day_project_line (item : string * list WorkEntry.t) : outcome string :=
  project_hours <- hours (total_duration (snd item)) ;;
  let tickets :=
    set_order (fold_left (fun s entry => set_add (WorkEntry.ticket entry) s)
                         (snd item) []) in
  Returns
    ("- **" ++ fst item ++ "** (" ++ project_hours ++ "h): " ++
     join ", " tickets ++ nl)%string.

(** The part of the daily breakdown written for one day. *)
Definition day_section (daily_entries : Dict.t Date.t (list WorkEntry.t))
    (day : Date.t) : outcome string :=
  let day_name := nth (Z.to_nat (Date.weekday day)) days_en "" in
  let day_entries :=
    match Dict.get day daily_entries with Some l => l | None => [] end in
  day_hours <- hours (total_duration day_entries) ;;
  let day_projects :=
    fold_left (fun d entry => append_to (WorkEntry.project entry) entry d)
              day_entries [] in
  lines <- mapM day_project_line day_projects ;;
  Returns
    ("### " ++ day_name ++ " " ++ strftime_md day ++ nl ++
     "**Total:** " ++ day_hours ++ " hours" ++ nl ++ nl ++
     cat lines ++ nl)%string.

Definition _create_daily_breakdown (entries : list WorkEntry.t) : outcome string :=
  let daily_entries :=
    fold_left
      (fun d entry =>
         append_to (Datetime.date (WorkEntry.timestamp entry)) entry d)
      entries [] in
  days <- mapM (day_section daily_entries) (sorted_dates (Dict.keys daily_entries)) ;;
  Returns ("## Daily Breakdown" ++ nl ++ nl ++ cat days)%string.

Definition _create_report_content (today : Date.t) (entries : list WorkEntry.t)
    (week_start week_end : option Date.t) : outcome string :=
  week <-
    match week_start, week_end with
    | Some ws, Some we => Returns (ws, we)
    | _, _ =>
        back <- Date.timedelta (Date.weekday today) ;;
        ws <- Date.sub today back ;;
        six <- Date.timedelta 6 ;;
        we <- Date.add ws six ;;
        Returns (ws, we)
    end ;;
  let projects_data := _group_entries_by_project entries in
  total_hours <- hours (total_duration entries) ;;
  let total_entries := Z.of_nat (List.length entries) in
  let content :=
    ("# Weekly Report" ++ nl ++
     "**Week:** " ++ strftime_mdY (fst week) ++ " - " ++ strftime_mdY (snd week) ++ nl ++
     nl ++ "---" ++ nl ++ nl ++
     "## Executive Summary" ++ nl ++
     "- **Total hours worked:** " ++ total_hours ++ " hours" ++ nl ++
     "- **Total entries:** " ++ Fmt.str total_entries ++ nl ++
     "- **Projects worked on:** " ++
       Fmt.str (Z.of_nat (List.length projects_data)) ++ nl ++
     nl ++ "---" ++ nl ++ nl)%string in
  sections <-
    mapM (fun item => _create_project_section (fst item) (snd item)) projects_data ;;
  daily <- _create_daily_breakdown entries ;;
  Returns (content ++ cat sections ++ daily ++ nl ++ "---" ++ nl)%string.

(** [d.strftime('%Y%m%d')], for the years from 1000 on. *)
Definition strftime_Ymd (d : Date.t) : string :=
  let '(y, m, dd) := Date.ord2ymd d in
  (Fmt.digits 4 y ++ Fmt.digits 2 m ++ Fmt.digits 2 dd)%string.

(** The name of the report of a week. *)
Definition report_name (week_start week_end : Date.t) : string :=
  ("weekly_report_" ++ strftime_Ymd week_start ++ "-" ++ strftime_Ymd week_end ++
   ".md")%string.

(** The Monday and the Sunday of the current week. *)
Definition current_week (today : Date.t) : outcome (Date.t * Date.t) :=
  back <- Date.timedelta (Date.weekday today) ;;
  week_start <- Date.sub today back ;;
  six <- Date.timedelta 6 ;;
  week_end <- Date.add week_start six ;;
  Returns (week_start, week_end).

(** The reports directory: the names of its files, with what they hold,
    in the order in which the directory lists them. Writing is taken to
    succeed. *)
Definition reports := Dict.t string string.

(** [self.output_dir / filename], as text. *)
Definition path_of (output_dir filename : string) : string :=
  (output_dir ++ "/" ++ filename)%string.

Definition _generate_empty_report (today : Date.t) (output_dir : string)
    (files : reports) (week_start week_end : option Date.t)
  : outcome (reports * string) :=
  week <-
    match week_start, week_end with
    | Some ws, Some we => Returns (ws, we)
    | _, _ => current_week today
    end ;;
  let content :=
    ("# Weekly Report" ++ nl ++
     "**Week:** " ++ strftime_mdY (fst week) ++ " - " ++ strftime_mdY (snd week) ++ nl ++
     nl ++ "---" ++ nl ++ nl ++
     "## Summary" ++ nl ++
     "No activities were recorded this week." ++ nl ++
     nl ++ "---" ++ nl)%string in
  let filename := report_name (fst week) (snd week) in
  Returns (Dict.set filename content files, path_of output_dir filename).

Definition generate_weekly_report (today : Date.t) (output_dir : string)
    (files : reports) (app_state : AppState.t) (week_offset : Z)
  : outcome (reports * string) :=
  entries <-
    (if week_offset =? 0
     then AppState.get_current_week_entries today app_state
     else AppState.get_week_entries_with_offset today week_offset app_state) ;;
  back <- Date.timedelta (Date.weekday today) ;;
  current_week_start <- Date.sub today back ;;
  weeks <- Date.timedelta (7 * week_offset) ;;
  target_week_start <- Date.add current_week_start weeks ;;
  six <- Date.timedelta 6 ;;
  target_week_end <- Date.add target_week_start six ;;
  match entries with
  | [] =>
      _generate_empty_report today output_dir files
        (Some target_week_start) (Some target_week_end)
  | _ =>
      report_content <-
        _create_report_content today entries
          (Some target_week_start) (Some target_week_end) ;;
      let filename := report_name target_week_start target_week_end in
      Returns (Dict.set filename report_content files, path_of output_dir filename)
  end.

Definition generate_last_week_report (today : Date.t) (output_dir : string)
    (files : reports) (app_state : AppState.t) : outcome (reports * string) :=
  generate_weekly_report today output_dir files app_state (-1).

(** [get_report_path(date_str)]: an empty text counts as none. *)
Definition get_report_path (today : Date.t) (output_dir : string)
    (date_str : option string) : outcome string :=
  match date_str with
  | Some (String c rest) =>
      Returns (path_of output_dir ("weekly_report_" ++ String c rest ++ ".md"))
  | _ =>
      week <- current_week today ;;
      Returns (path_of output_dir (report_name (fst week) (snd week)))
  end.

(** The names that [glob("weekly_report_*.md")] finds. *)
Definition glob_reports (files : reports) : list string :=
  filter (fun name =>
            String.prefix "weekly_report_" name && Py.endswith ".md" name &&
            Nat.leb 17 (String.length name))
         (Dict.keys files).

(** [file_path.stem] of such a name: the name without its [.md]. *)
Definition stem (name : string) : string :=
  String.substring 0 (String.length name - 3) name.

(** An item of the list that [get_available_weeks] returns. *)
Record week := mk_week {
  display : string;
  file_path : string;
  start_date : Date.t;
  end_date : Date.t
}.

(** The body of the loop of [get_available_weeks] for one file: the week
    that its name tells, if it tells one. A [ValueError] skips the
    file. *)
Definition week_of_file (output_dir name : string) : outcome (option week) :=
  let filename := stem name in
  if String.prefix "weekly_report_" filename then
    let date_part := Py.slice_from 14 filename in
    if Py.contains "-" date_part && Nat.eqb (String.length date_part) 17 then
      match
        (match Py.split "-" date_part with
         | [start_str; end_str] =>
             start_date <- Datetime.strptime_Ymd start_str ;;
             end_date <- Datetime.strptime_Ymd end_str ;;
             Returns
               (mk_week
                  (strftime_mdY start_date ++ " - " ++ strftime_mdY end_date)
                  (path_of output_dir name) start_date end_date)
         | _ => Raises ValueError
         end)
      with
      | Returns w => Returns (Some w)
      | Raises ValueError => Returns None
      | Raises e => Raises e
      | Untyped => Untyped
      end
    else Returns None
  else Returns None.

Fixpoint somes {A} (l : list (option A)) : list A :=
  match l with
  | [] => []
  | Some a :: l' => a :: somes l'
  | None :: l' => somes l'
  end.

(** The weeks sorted by their start, the latest first; weeks with the
    same start stay in the order in which they were found. *)
Definition get_available_weeks (output_dir : string) (files : reports)
  : outcome (list week) :=
  found <- mapM (week_of_file output_dir) (glob_reports files) ;;
  Returns (sort_by (fun a b => start_date b <=? start_date a) (somes found)).

End SetOrder.

End ReportGenerator.

(** ** check_status.py *)

Module CheckStatus.

(** [add_sample_work()]: a store is made from the files and the sample
    entry is added; an exception is caught and printed. The result is the
    files as the call leaves them. *)
Definition add_sample_work (now : Datetime.t) (f : Disk.t) : outcome Disk.t :=
  match DataManager.init f with
  | Returns dm =>
      match
        DataManager.add_work_entry now "TEST-123" "Test Project"
          "Sample entry added via script" dm
      with
      | Returns dm' => Returns (DataManager.files dm')
      | Raises _ => Returns (DataManager.files dm)
      | Untyped => Untyped
      end
  | Raises _ => Returns f
  | Untyped => Untyped
  end.

(** [cleanup_test_data()]: a store is made from the files and cleaned.
    The result is the files as the call leaves them and the count that
    the message tells, none when an exception was caught. *)
Definition cleanup_test_data (lower : string -> string) (f : Disk.t)
  : outcome (Disk.t * option Z) :=
  match DataManager.init f with
  | Returns dm =>
      let r := DataManager.cleanup_test_data lower dm in
      Returns (DataManager.files (fst r), Some (snd r))
  | Raises _ => Returns (f, None)
  | Untyped => Untyped
  end.

End CheckStatus.

(** ** The properties in the words of the specification *)

Module Spec.

(** [sub] occurs in [s]. *)
Definition is_substring (sub s : string) : Prop :=
  exists pre post, s = (pre ++ sub ++ post)%string.

(** Some pattern of the mapping is a substring of the ticket, letter
    case aside. *)
Definition has_pattern (lower : string -> string) (ticket : string)
    (m : ProjectMapping.t) : Prop :=
  exists pattern,
    In pattern (ProjectMapping.ticket_patterns m) /\
    is_substring (lower pattern) (lower ticket).

(** The patterns kept for a project, none when it has no mapping. *)
Definition patterns_of (project : string) (s : AppState.t) : list string :=
  match Dict.get project (AppState.project_mappings s) with
  | Some m => ProjectMapping.ticket_patterns m
  | None => []
  end.

(** The text carries one of the markers of test data, letter case
    aside. *)
Definition marked (lower : string -> string) (text : string) : Prop :=
  exists marker,
    In marker DataManager.test_patterns /\
    is_substring (lower marker) (lower text).

(** The rule on the current session: with a ticket, a project. *)
Definition session_has_project (s : AppState.t) : Prop :=
  AppState.current_ticket s <> None -> AppState.current_project s <> None.

(** An operation that names a project whenever it names a ticket. *)
Definition names_project (o : DataManager.op) : Prop :=
  match o with
  | DataManager.UpdateCurrentWork (Some _) None _ => False
  | _ => True
  end.

(** What the types of Python guarantee about a state and the records
    here do not: every [datetime] is in range and the keys of the
    mappings are pairwise distinct. *)
Definition well_formed (s : AppState.t) : Prop :=
  (forall d, AppState.last_activity s = Some d -> Datetime.valid d = true) /\
  Forall (fun e => Datetime.valid (WorkEntry.timestamp e) = true)
         (AppState.work_entries s) /\
  NoDup (Dict.keys (AppState.project_mappings s)).

(** *** The weekly report *)

(** The distinct values of a list, each at the place of its first
    appearance. *)
Definition distinct {K} `{Key K} (l : list K) : list K := Dict.seen_from l [].

(** Strictly ascending in the lexicographic order of strings. *)
Definition ascending (l : list string) : Prop :=
  StronglySorted (fun a b => String.ltb a b = true) l.

(** The sum of the durations, in minutes. *)
Definition minutes (es : list WorkEntry.t) : Z :=
  fold_right (fun e acc => WorkEntry.duration e + acc) 0 es.

(** The sum of the sizes of the durations. *)
Definition size (es : list WorkEntry.t) : Z :=
  fold_right (fun e acc => Z.abs (WorkEntry.duration e) + acc) 0 es.

(** Minutes as hours with one decimal place: the float nearest to
    [minutes / 60], rounded to tenths. *)
Definition hours_text (minutes : Z) : string :=
  Float.format_1f (Float.nearest minutes 60).

Definition of_project (p : string) (es : list WorkEntry.t) : list WorkEntry.t :=
  filter (fun e => String.eqb (WorkEntry.project e) p) es.

Definition of_ticket (t : string) (es : list WorkEntry.t) : list WorkEntry.t :=
  filter (fun e => String.eqb (WorkEntry.ticket e) t) es.

Definition projects (es : list WorkEntry.t) : list string :=
  distinct (map WorkEntry.project es).

(** The tickets of some entries in ascending order. *)
Definition tickets (es : list WorkEntry.t) : list string :=
  ReportGenerator.sorted_strings (distinct (map WorkEntry.ticket es)).

(** The texts of the details that are not empty, without repetition. *)
Definition activities (es : list WorkEntry.t) : list string :=
  distinct (filter (fun d => negb (String.eqb d "")) (map WorkEntry.details es)).

(** The subsection of a ticket: its hours and the number of its
    sessions, then its activities in ascending order. *)
Definition ticket_block (t : string) (es : list WorkEntry.t) : string :=
  ("### " ++ t ++ ReportGenerator.nl ++
   "**Time spent:** " ++ hours_text (minutes es) ++ " hours  " ++ ReportGenerator.nl ++
   "**Sessions:** " ++ Fmt.str (Z.of_nat (List.length es)) ++
   ReportGenerator.nl ++ ReportGenerator.nl ++
   match activities es with
   | [] => ""
   | _ =>
       "**Activities:**" ++ ReportGenerator.nl ++
       ReportGenerator.cat
         (map (fun detail => "- " ++ detail ++ ReportGenerator.nl)
              (ReportGenerator.sorted_strings (activities es))) ++
       ReportGenerator.nl
   end)%string.

(** The section of a project: its hours, then its tickets in ascending
    order. *)
Definition project_section (p : string) (es : list WorkEntry.t) : string :=
  ("## " ++ p ++ ReportGenerator.nl ++
   "**Total time:** " ++ hours_text (minutes es) ++ " hours" ++
   ReportGenerator.nl ++ ReportGenerator.nl ++
   ReportGenerator.cat (map (fun t => ticket_block t (of_ticket t es)) (tickets es)))%string.

Definition heading (week_start week_end : Date.t) : string :=
  ("# Weekly Report" ++ ReportGenerator.nl ++
   "**Week:** " ++ ReportGenerator.strftime_mdY week_start ++ " - " ++
   ReportGenerator.strftime_mdY week_end ++ ReportGenerator.nl ++
   ReportGenerator.nl ++ "---" ++ ReportGenerator.nl ++ ReportGenerator.nl)%string.

(** The executive summary: total hours, number of entries, number of
    distinct projects. *)
Definition summary (es : list WorkEntry.t) : string :=
  ("## Executive Summary" ++ ReportGenerator.nl ++
   "- **Total hours worked:** " ++ hours_text (minutes es) ++ " hours" ++
   ReportGenerator.nl ++
   "- **Total entries:** " ++ Fmt.str (Z.of_nat (List.length es)) ++
   ReportGenerator.nl ++
   "- **Projects worked on:** " ++ Fmt.str (Z.of_nat (List.length (projects es))) ++
   ReportGenerator.nl ++
   ReportGenerator.nl ++ "---" ++ ReportGenerator.nl ++ ReportGenerator.nl)%string.

Definition sections (es : list WorkEntry.t) : string :=
  ReportGenerator.cat
    (map (fun p => project_section p (of_project p es)) (projects es)).

(** A text given line by line, each line ended by a newline. *)
Definition lines (l : list string) : string :=
  ReportGenerator.cat (map (fun line => (line ++ ReportGenerator.nl)%string) l).

(** *** The store and the reports, further *)

(** Lower-casing goes through a text piece by piece. *)
Definition distributes (lower : string -> string) : Prop :=
  forall a b, lower (a ++ b)%string = (lower a ++ lower b)%string.

(** Every mapping is stored under its own name and holds no pattern
    twice. *)
Definition tidy_mappings (s : AppState.t) : Prop :=
  NoDup (Dict.keys (AppState.project_mappings s)) /\
  forall k m,
    In (k, m) (AppState.project_mappings s) ->
    ProjectMapping.name m = k /\ NoDup (ProjectMapping.ticket_patterns m).

(** Every entry lasts an hour, and the project of every entry has a
    mapping that holds the prefix of its ticket. *)
Definition entries_known (s : AppState.t) : Prop :=
  forall e,
    In e (AppState.work_entries s) ->
    WorkEntry.duration e = 60 /\
    In (AppState.ticket_prefix (WorkEntry.ticket e))
       (patterns_of (WorkEntry.project e) s).

(** The rules that the store keeps, on the mappings as looked up. *)
Definition store_rules (s : AppState.t) : Prop :=
  NoDup (Dict.keys (AppState.project_mappings s)) /\
  (forall k m,
     Dict.get k (AppState.project_mappings s) = Some m ->
     ProjectMapping.name m = k /\ NoDup (ProjectMapping.ticket_patterns m)) /\
  entries_known s.

(** The operation ends with the state saved: every one does, except a
    cleanup that removes no entry. *)
Definition saves (lower : string -> string) (o : DataManager.op)
    (self : DataManager.t) : Prop :=
  match o with
  | DataManager.CleanupTestData =>
      0 < snd (DataManager.cleanup_test_data lower self)
  | _ => True
  end.

(** The time given to an operation is one that the clock can show. *)
Definition timely (o : DataManager.op) : Prop :=
  match o with
  | DataManager.AddWorkEntry now _ _ _ => Datetime.valid now = true
  | _ => True
  end.

(** The entries of a day. *)
Definition on_day (d : Date.t) (es : list WorkEntry.t) : list WorkEntry.t :=
  filter (fun e => Z.eqb (Datetime.date (WorkEntry.timestamp e)) d) es.

(** The days that have entries, in ascending order. *)
Definition days (es : list WorkEntry.t) : list Date.t :=
  ReportGenerator.sorted_dates
    (distinct (map (fun e => Datetime.date (WorkEntry.timestamp e)) es)).

(** The line of a project within a day: its hours and its tickets. *)
Definition day_line (set_order : list string -> list string) (p : string)
    (es : list WorkEntry.t) : string :=
  ("- **" ++ p ++ "** (" ++ hours_text (minutes es) ++ "h): " ++
   ReportGenerator.join ", " (set_order (distinct (map WorkEntry.ticket es))) ++
   ReportGenerator.nl)%string.

(** The part of a day: its name and date, its hours, and a line for
    each of its projects. *)
Definition day_block (set_order : list string -> list string) (d : Date.t)
    (es : list WorkEntry.t) : string :=
  ("### " ++ nth (Z.to_nat (Date.weekday d)) ReportGenerator.days_en "" ++ " " ++
   ReportGenerator.strftime_md d ++ ReportGenerator.nl ++
   "**Total:** " ++ hours_text (minutes es) ++ " hours" ++
   ReportGenerator.nl ++ ReportGenerator.nl ++
   ReportGenerator.cat (map (fun p => day_line set_order p (of_project p es))
                            (projects es)) ++
   ReportGenerator.nl)%string.

Definition daily (set_order : list string -> list string)
    (es : list WorkEntry.t) : string :=
  ("## Daily Breakdown" ++ ReportGenerator.nl ++ ReportGenerator.nl ++
   ReportGenerator.cat (map (fun d => day_block set_order d (on_day d es)) (days es)))%string.

(** The report of a week without entries. *)
Definition empty_report (week_start week_end : Date.t) : string :=
  (heading week_start week_end ++
   lines [ "## Summary"; "No activities were recorded this week."; ""; "---" ])%string.

(** The sum of the times of the projects of a summary. *)
Definition summed_times (projects : Dict.t string DataManager.project_summary) : Z :=
  fold_right (fun kv acc => DataManager.s_time (snd kv) + acc) 0 projects.

(** *** The calendar *)

(** [p] holds of [k], [k + 1], ...: of as many numbers as [fuel]
    counts. *)
Fixpoint all_from (fuel : nat) (k : Z) (p : Z -> bool) : bool :=
  match fuel with
  | O => true
  | S fuel' => p k && all_from fuel' (k + 1) p
  end.

(** Day [r] of the cycle of 400 years, counted from 0: the date of its
    ordinal lies in the years 1 to 400, exists, and has this ordinal. *)
Definition cycle_day_ok (r : Z) : bool :=
  let '(y, m, d) := Date.ord2ymd (r + 1) in
  (1 <=? y) && (y <=? 400) && (1 <=? m) && (m <=? 12) &&
  (1 <=? d) && (d <=? Date.days_in_month y m) &&
  (Date.ymd2ord y m d =? r + 1).

End Spec.

(** ** Strings *)

Lemma prefix_spec (p s : string) :
  String.prefix p s = true <-> exists post, s = (p ++ post)%string.
Proof.
  revert s. induction p as [|a p IH]; intros s; simpl.
  - destruct s; simpl; split; intros; eauto.
  - destruct s as [|b s]; simpl.
    + split; [discriminate | intros [post H]; discriminate].
    + destruct (ascii_dec a b) as [->|Hne].
      * rewrite IH. split; intros [post H]; exists post; congruence.
      * split; [discriminate | intros [post H]; congruence].
Qed.

Lemma contains_spec (sub s : string) :
  Py.contains sub s = true <-> Spec.is_substring sub s.
Proof.
  unfold Spec.is_substring.
  induction s as [|c s IH]; cbn [Py.contains].
  - rewrite orb_false_r, prefix_spec. split.
    + intros [post H]. exists "", post. exact H.
    + intros [pre [post H]]. destruct pre; simpl in H; [eauto | discriminate].
  - rewrite orb_true_iff, prefix_spec, IH. split.
    + intros [[post H] | [pre [post H]]].
      * exists "", post. exact H.
      * exists (String c pre), post. simpl. congruence.
    + intros [pre [post H]]. destruct pre as [|c' pre]; simpl in H.
      * left. eauto.
      * right. exists pre, post. congruence.
Qed.

Lemma contains_empty (s : string) : Py.contains "" s = true.
Proof. destruct s; reflexivity. Qed.

Lemma mem_In (x : string) (l : list string) : Py.mem x l = true <-> In x l.
Proof.
  unfold Py.mem. rewrite existsb_exists. split.
  - intros [y [Hy Heq]]. apply String.eqb_eq in Heq. congruence.
  - intros H. exists x. split; [exact H | apply String.eqb_refl].
Qed.

Lemma split_first_spec (c : ascii) (s : string) :
  Py.contains (String c "") s = true ->
  exists rest,
    s = (Py.split_first c s ++ String c rest)%string /\
    Py.contains (String c "") (Py.split_first c s) = false.
Proof.
  induction s as [|a s IH]; simpl.
  - discriminate.
  - destruct (ascii_dec c a) as [->|Hne].
    + intros _. rewrite Ascii.eqb_refl. exists s. split; reflexivity.
    + destruct (Ascii.eqb a c) eqn:E.
      { apply Ascii.eqb_eq in E. congruence. }
      simpl. intros H. destruct (IH H) as [rest [H1 H2]].
      exists rest. simpl. split; [congruence |].
      destruct (ascii_dec c a); [congruence | exact H2].
Qed.

Lemma slice_to_spec (n : nat) (s : string) :
  exists rest,
    s = (Py.slice_to n s ++ rest)%string /\
    String.length (Py.slice_to n s) = Nat.min n (String.length s).
Proof.
  unfold Py.slice_to. revert s. induction n as [|n IH]; intros s.
  - exists s. destruct s; simpl; split; reflexivity.
  - destruct s as [|a s]; simpl.
    + exists "". split; reflexivity.
    + destruct (IH s) as [rest [H1 H2]]. exists rest. split; congruence.
Qed.

(** ** Dictionaries *)

Section DictFacts.
Context {K V : Type} `{Key K}.
Implicit Types (k : K) (v : V) (d : Dict.t K V).

Lemma key_eqb_refl k : key_eqb k k = true.
Proof. apply key_eqb_eq. reflexivity. Qed.

Lemma key_eqb_neq k k' : k <> k' -> key_eqb k k' = false.
Proof.
  intros Hne. destruct (key_eqb k k') eqn:E; [|reflexivity].
  apply key_eqb_eq in E. contradiction.
Qed.

Lemma key_dec k k' : {k = k'} + {k <> k'}.
Proof.
  destruct (key_eqb k k') eqn:E.
  - left. apply key_eqb_eq. exact E.
  - right. intros Heq. apply key_eqb_eq in Heq. congruence.
Qed.

Lemma get_set_same k v d : Dict.get k (Dict.set k v d) = Some v.
Proof.
  induction d as [|[k' v'] d IH]; simpl.
  - rewrite key_eqb_refl. reflexivity.
  - destruct (key_eqb k k') eqn:E; simpl; rewrite E; [reflexivity | exact IH].
Qed.

Lemma get_set_other k k' v d :
  k' <> k -> Dict.get k' (Dict.set k v d) = Dict.get k' d.
Proof.
  intros Hne. induction d as [|[k0 v0] d IH]; simpl.
  - rewrite key_eqb_neq by exact Hne. reflexivity.
  - destruct (key_eqb k k0) eqn:E; simpl.
    + apply key_eqb_eq in E. subst k0.
      rewrite key_eqb_neq by exact Hne. reflexivity.
    + rewrite IH. reflexivity.
Qed.

Lemma get_In_keys k d : Dict.get k d <> None <-> In k (Dict.keys d).
Proof.
  induction d as [|[k' v'] d IH]; simpl.
  - split; [congruence | tauto].
  - destruct (key_dec k k') as [->|Hne].
    + rewrite key_eqb_refl. split; [auto | congruence].
    + rewrite key_eqb_neq by exact Hne. rewrite IH. split; [auto|].
      intros [Heq|Hin]; [congruence | exact Hin].
Qed.

Lemma keys_set k v d :
  Dict.keys (Dict.set k v d) =
  if Dict.mem k d then Dict.keys d else Dict.keys d ++ [k].
Proof.
  unfold Dict.mem. induction d as [|[k' v'] d IH]; simpl.
  - reflexivity.
  - destruct (key_eqb k k') eqn:E; simpl; [reflexivity|].
    rewrite IH. destruct (Dict.get k d); reflexivity.
Qed.

Lemma get_setdefault k k' v d :
  Dict.get k' (Dict.setdefault k v d) =
  match Dict.get k' d with
  | Some x => Some x
  | None => if key_eqb k' k then Some v else None
  end.
Proof.
  unfold Dict.setdefault, Dict.mem.
  destruct (key_dec k' k) as [->|Hne].
  - rewrite key_eqb_refl. destruct (Dict.get k d) eqn:E.
    + rewrite E. reflexivity.
    + rewrite get_set_same. reflexivity.
  - rewrite key_eqb_neq by exact Hne.
    destruct (Dict.get k d) eqn:E.
    + destruct (Dict.get k' d); reflexivity.
    + rewrite get_set_other by exact Hne. destruct (Dict.get k' d); reflexivity.
Qed.

Lemma keys_setdefault k v d :
  Dict.keys (Dict.setdefault k v d) =
  if Dict.mem k d then Dict.keys d else Dict.keys d ++ [k].
Proof.
  unfold Dict.setdefault. destruct (Dict.mem k d) eqn:E; [reflexivity|].
  rewrite keys_set, E. reflexivity.
Qed.

Lemma get_modify k k' (f : V -> V) d :
  Dict.get k' (Dict.modify k f d) =
  if key_eqb k' k then option_map f (Dict.get k d) else Dict.get k' d.
Proof.
  unfold Dict.modify. destruct (key_dec k' k) as [->|Hne].
  - rewrite key_eqb_refl. destruct (Dict.get k d) eqn:E; simpl.
    + apply get_set_same.
    + exact E.
  - rewrite key_eqb_neq by exact Hne.
    destruct (Dict.get k d); [apply get_set_other; exact Hne | reflexivity].
Qed.

Lemma keys_modify k (f : V -> V) d :
  Dict.keys (Dict.modify k f d) = Dict.keys d.
Proof.
  unfold Dict.modify. destruct (Dict.get k d) eqn:E; [|reflexivity].
  rewrite keys_set. unfold Dict.mem. rewrite E. reflexivity.
Qed.

End DictFacts.

(** ** Recording work: [AppState.add_work_entry] *)

Lemma ticket_prefix_spec (ticket : string) :
  (Py.contains "-" ticket = true ->
   exists rest,
     ticket = (AppState.ticket_prefix ticket ++ "-" ++ rest)%string /\
     Py.contains "-" (AppState.ticket_prefix ticket) = false) /\
  (Py.contains "-" ticket = false ->
   exists rest,
     ticket = (AppState.ticket_prefix ticket ++ rest)%string /\
     String.length (AppState.ticket_prefix ticket) =
       Nat.min 3 (String.length ticket)).
Proof.
  unfold AppState.ticket_prefix. split; intros Hc; rewrite Hc.
  - apply split_first_spec. exact Hc.
  - apply slice_to_spec.
Qed.

Lemma add_work_entry_patterns now ticket project details (s : AppState.t) :
  let s' := AppState.add_work_entry now ticket project details s in
  let prefix := AppState.ticket_prefix ticket in
  let old := Spec.patterns_of project s in
  Spec.patterns_of project s' = if Py.mem prefix old then old else old ++ [prefix].
Proof.
  unfold Spec.patterns_of, AppState.add_work_entry. cbn [AppState.project_mappings].
  rewrite get_modify, key_eqb_refl, get_setdefault, key_eqb_refl.
  destruct (Dict.get project (AppState.project_mappings s)) as [m|]; simpl.
  - destruct (Py.mem _ _); reflexivity.
  - reflexivity.
Qed.

Lemma add_work_entry_other_projects now ticket project details (s : AppState.t) q :
  q <> project ->
  Dict.get q (AppState.project_mappings
                (AppState.add_work_entry now ticket project details s)) =
  Dict.get q (AppState.project_mappings s).
Proof.
  intros Hne. unfold AppState.add_work_entry. cbn [AppState.project_mappings].
  assert (E : key_eqb q project = false) by (apply key_eqb_neq; exact Hne).
  rewrite get_modify, E, get_setdefault, E. destruct (Dict.get q (AppState.project_mappings s)); reflexivity.
Qed.

(** C1. [add_work_entry(ticket, project, details)] appends exactly one
    entry, of duration 60 and stamped with the current instant; makes the
    three arguments the current session; sets [last_activity] to the
    stamp of the entry; and adds the prefix derived from the ticket (the
    text before its first ['-'], else its first 3 characters) to the
    patterns of the project if and only if it is not among them yet,
    leaving the mappings of the other projects alone. After
    [add_work_entry("BUG-42", "Alpha", "")] the current ticket is
    "BUG-42", the current project is "Alpha" and the mapping of "Alpha"
    has the pattern "BUG". *)
Theorem add_work_entry_records_session :
  (forall (s : AppState.t) now ticket project details,
     let s' := AppState.add_work_entry now ticket project details s in
     let prefix := AppState.ticket_prefix ticket in
     let old := Spec.patterns_of project s in
     AppState.work_entries s' =
       AppState.work_entries s ++ [WorkEntry.mk now ticket project details 60] /\
     AppState.current_ticket s' = Some ticket /\
     AppState.current_project s' = Some project /\
     AppState.current_details s' = Some details /\
     AppState.last_activity s' = Some now /\
     Dict.mem project (AppState.project_mappings s') = true /\
     (In prefix old -> Spec.patterns_of project s' = old) /\
     (~ In prefix old -> Spec.patterns_of project s' = old ++ [prefix]) /\
     (forall q, q <> project ->
        Dict.get q (AppState.project_mappings s') =
        Dict.get q (AppState.project_mappings s)) /\
     (Py.contains "-" ticket = true ->
      exists rest,
        ticket = (prefix ++ "-" ++ rest)%string /\
        Py.contains "-" prefix = false) /\
     (Py.contains "-" ticket = false ->
      exists rest,
        ticket = (prefix ++ rest)%string /\
        String.length prefix = Nat.min 3 (String.length ticket))) /\
  (forall (s : AppState.t) now,
     let s' := AppState.add_work_entry now "BUG-42" "Alpha" "" s in
     AppState.current_ticket s' = Some "BUG-42" /\
     AppState.current_project s' = Some "Alpha" /\
     exists m,
       Dict.get "Alpha" (AppState.project_mappings s') = Some m /\
       In "BUG" (ProjectMapping.ticket_patterns m)).
Proof.
  split.
  - intros s now ticket project details s' prefix old.
    pose proof (add_work_entry_patterns now ticket project details s) as Hp.
    cbv zeta in Hp. fold s' prefix old in Hp.
    repeat split; try reflexivity.
    + unfold s', AppState.add_work_entry, Dict.mem.
      cbn [AppState.project_mappings].
      rewrite get_modify, key_eqb_refl, get_setdefault, key_eqb_refl.
      destruct (Dict.get project (AppState.project_mappings s)); reflexivity.
    + intros Hin. rewrite Hp. apply mem_In in Hin. rewrite Hin. reflexivity.
    + intros Hin. rewrite Hp. destruct (Py.mem prefix old) eqn:E; [|reflexivity].
      apply mem_In in E. contradiction.
    + intros q Hne. apply add_work_entry_other_projects. exact Hne.
    + apply ticket_prefix_spec.
    + apply ticket_prefix_spec.
  - intros s now s'. repeat split.
    pose proof (add_work_entry_patterns now "BUG-42" "Alpha" "" s) as Hp.
    cbv zeta in Hp. fold s' in Hp.
    change (AppState.ticket_prefix "BUG-42") with "BUG" in Hp.
    unfold Spec.patterns_of in Hp at 1.
    destruct (Dict.get "Alpha" (AppState.project_mappings s')) as [m|] eqn:E.
    + exists m. split; [reflexivity|]. rewrite Hp.
      destruct (Py.mem "BUG" _) eqn:M.
      * apply mem_In. exact M.
      * apply in_or_app. right. left. reflexivity.
    + exfalso. destruct (Py.mem "BUG" _) eqn:M.
      * apply mem_In in M. rewrite <- Hp in M. exact M.
      * symmetry in Hp. apply app_eq_nil in Hp. destruct Hp. discriminate.
Qed.

(** ** Guessing the project: [AppState.auto_detect_project] *)

Lemma matches_spec lower ticket (m : ProjectMapping.t) :
  AppState.matches lower ticket m = true <-> Spec.has_pattern lower ticket m.
Proof.
  unfold AppState.matches, Spec.has_pattern. rewrite existsb_exists.
  split; intros [p [Hin Hc]]; exists p; split; try exact Hin;
    apply contains_spec; exact Hc.
Qed.

Lemma first_match_spec lower ticket (d : Dict.t string ProjectMapping.t) :
  match AppState.first_match lower ticket d with
  | Some p =>
      exists before m after,
        d = before ++ (p, m) :: after /\
        Spec.has_pattern lower ticket m /\
        Forall (fun km => ~ Spec.has_pattern lower ticket (snd km)) before
  | None => Forall (fun km => ~ Spec.has_pattern lower ticket (snd km)) d
  end.
Proof.
  induction d as [|[p m] d IH]; simpl.
  - constructor.
  - destruct (AppState.matches lower ticket m) eqn:E.
    + exists [], m, d. repeat split; [|constructor].
      apply matches_spec. exact E.
    + assert (Hn : ~ Spec.has_pattern lower ticket m).
      { intros Hp. apply matches_spec in Hp. congruence. }
      destruct (AppState.first_match lower ticket d) as [q|].
      * destruct IH as [before [m' [after [Hd [Hm Hb]]]]].
        exists ((p, m) :: before), m', after. repeat split.
        -- simpl. congruence.
        -- exact Hm.
        -- constructor; assumption.
      * constructor; assumption.
Qed.

(** C4. [auto_detect_project(ticket)] returns the first project, in the
    insertion order of the mappings, that has a pattern which is a
    substring of the ticket, letter case aside, and no match when no
    project has one. With the mapping {"Alpha": ["BUG"]} it returns
    "Alpha" for "BUG-99" and no match for "TASK-1". *)
Theorem auto_detect_project_first_match :
  (forall lower (s : AppState.t) ticket,
     match AppState.auto_detect_project lower ticket s with
     | Some p =>
         exists before m after,
           AppState.project_mappings s = before ++ (p, m) :: after /\
           Spec.has_pattern lower ticket m /\
           Forall (fun km => ~ Spec.has_pattern lower ticket (snd km)) before
     | None =>
         Forall (fun km => ~ Spec.has_pattern lower ticket (snd km))
                (AppState.project_mappings s)
     end) /\
  (let s := AppState.mk None None None None []
              [("Alpha", ProjectMapping.mk ["BUG"] "Alpha")] in
   AppState.auto_detect_project Py.lower_ascii "BUG-99" s = Some "Alpha" /\
   AppState.auto_detect_project Py.lower_ascii "TASK-1" s = None).
Proof.
  split.
  - intros lower s ticket. apply first_match_spec.
  - split; reflexivity.
Qed.

(** ** The store: [DataManager] *)

Lemma save_keeps_state (self : DataManager.t) :
  DataManager.app_state (DataManager._save_data self) = DataManager.app_state self.
Proof.
  unfold DataManager._save_data.
  destruct (Disk.data_file (DataManager.files self));
    destruct (DataManager.app_state self); reflexivity.
Qed.

Lemma save_writes_state (f : Disk.t) (s : AppState.t) :
  Disk.data_file (DataManager.files (DataManager._save_data (DataManager.mk f (Some s)))) =
  Some (Disk.Document (AppState.to_dict s)).
Proof.
  unfold DataManager._save_data. simpl. destruct (Disk.data_file f); reflexivity.
Qed.

Lemma filter_twice {A} (f : A -> bool) (l : list A) :
  filter f (filter f l) = filter f l.
Proof.
  induction l as [|a l IH]; simpl; [reflexivity|].
  destruct (f a) eqn:E; simpl; [rewrite E|]; congruence.
Qed.

Lemma occurs_spec lower (pattern text : string) :
  DataManager.occurs lower pattern text = true <->
  Spec.is_substring (lower pattern) (lower text).
Proof. apply contains_spec. Qed.

Lemma is_test_project_spec lower (project : string) :
  DataManager.is_test_project lower project = true <-> Spec.marked lower project.
Proof.
  unfold DataManager.is_test_project, Spec.marked. rewrite existsb_exists.
  split; intros [p [Hin Hc]]; exists p; split; try exact Hin;
    apply occurs_spec; exact Hc.
Qed.

Lemma is_test_entry_spec lower (e : WorkEntry.t) :
  DataManager.is_test_entry lower e = true <->
  Spec.marked lower (WorkEntry.ticket e) \/
  Spec.marked lower (WorkEntry.project e) \/
  Spec.marked lower (WorkEntry.details e).
Proof.
  unfold DataManager.is_test_entry, Spec.marked. rewrite existsb_exists. split.
  - intros [p [Hin Hc]]. rewrite !orb_true_iff, !occurs_spec in Hc.
    destruct Hc as [[Hc|Hc]|Hc]; [left | right; left | right; right];
      exists p; split; assumption.
  - intros [[p [Hin Hc]]|[[p [Hin Hc]]|[p [Hin Hc]]]]; exists p; split;
      try exact Hin; rewrite !orb_true_iff, !occurs_spec; tauto.
Qed.

Lemma is_test_current_spec lower (s : AppState.t) :
  DataManager.is_test_current lower s = true <->
  exists ticket,
    AppState.current_ticket s = Some ticket /\ ticket <> "" /\
    (Spec.marked lower ticket \/
     Spec.marked lower (Py.or_empty (AppState.current_project s))).
Proof.
  unfold DataManager.is_test_current, Spec.marked.
  destruct (AppState.current_ticket s) as [ticket|].
  - rewrite andb_true_iff, negb_true_iff, existsb_exists. split.
    + intros [Hne [p [Hin Hc]]]. exists ticket. split; [reflexivity|]. split.
      * intros ->. discriminate.
      * rewrite orb_true_iff, !occurs_spec in Hc.
        destruct Hc as [Hc|Hc]; [left | right]; exists p; split; assumption.
    + intros [t [Heq [Hne Hm]]]. injection Heq as <-. split.
      * destruct (String.eqb_spec ticket ""); [contradiction | reflexivity].
      * destruct Hm as [[p [Hin Hc]]|[p [Hin Hc]]]; exists p; split;
          try exact Hin; rewrite orb_true_iff, !occurs_spec; tauto.
  - split; [discriminate | intros [t [Heq _]]; discriminate].
Qed.

(** Deleting every key that satisfies a test leaves the items whose keys
    fail it. *)
Lemma del_keys_filter {V} (test : string -> bool) (d : Dict.t string V) :
  fold_left (fun d k => Dict.del k d) (filter test (Dict.keys d)) d =
  filter (fun kv => negb (test (fst kv))) d.
Proof.
  assert (Hskip : forall ks k v (d : Dict.t string V),
            ~ In k ks ->
            fold_left (fun d k => Dict.del k d) ks ((k, v) :: d) =
            (k, v) :: fold_left (fun d k => Dict.del k d) ks d).
  { induction ks as [|k0 ks IH]; intros k v d0 Hn; simpl; [reflexivity|].
    destruct (String.eqb_spec k0 k) as [->|_].
    - exfalso. apply Hn. left. reflexivity.
    - apply IH. intros Hin. apply Hn. right. exact Hin. }
  induction d as [|[k v] d IH]; simpl; [reflexivity|].
  destruct (test k) eqn:E; simpl.
  - rewrite String.eqb_refl. exact IH.
  - rewrite Hskip, IH; [reflexivity|].
    intros Hin. apply filter_In in Hin. destruct Hin as [_ Ht]. congruence.
Qed.

Lemma get_filter_keys {V} (test : string -> bool) (k : string) (d : Dict.t string V) :
  test k = true ->
  Dict.get k (filter (fun kv => test (fst kv)) d) = Dict.get k d.
Proof.
  intros Hk. induction d as [|[k' v] d IH]; simpl; [reflexivity|].
  destruct (test k') eqn:E; simpl.
  - rewrite IH. reflexivity.
  - rewrite IH. destruct (String.eqb_spec k k') as [->|_]; [congruence | reflexivity].
Qed.

Lemma cleanup_test_data_result lower (self : DataManager.t) (s : AppState.t) :
  DataManager.app_state self = Some s ->
  DataManager.cleanup_test_data lower self =
  let s' := DataManager.without_test_data lower s in
  let removed :=
    Z.of_nat (List.length (AppState.work_entries s)) -
    Z.of_nat (List.length (AppState.work_entries s')) in
  (if 0 <? removed
   then DataManager._save_data (DataManager.with_state self s')
   else DataManager.with_state self s',
   removed).
Proof. intros E. unfold DataManager.cleanup_test_data. rewrite E. reflexivity. Qed.

(** C9. Two calls of [cleanup_test_data] in a row: the second one
    returns 0. *)
Theorem cleanup_test_data_second_call_returns_zero :
  forall lower (self : DataManager.t),
    snd (DataManager.cleanup_test_data lower
           (fst (DataManager.cleanup_test_data lower self))) = 0.
Proof.
  intros lower self.
  destruct (DataManager.app_state self) as [s|] eqn:E.
  - rewrite (cleanup_test_data_result lower self s E). cbv zeta. cbn [fst].
    match goal with
    | |- snd (DataManager.cleanup_test_data lower ?x) = 0 => set (self' := x)
    end.
    assert (Hs : DataManager.app_state self' = Some (DataManager.without_test_data lower s)).
    { unfold self'. destruct (0 <? _); [rewrite save_keeps_state|]; reflexivity. }
    rewrite (cleanup_test_data_result lower self' _ Hs). cbv zeta. cbn [snd].
    unfold DataManager.without_test_data at 2. cbn [AppState.work_entries].
    unfold DataManager.without_test_data. cbn [AppState.work_entries].
    rewrite filter_twice. lia.
  - unfold DataManager.cleanup_test_data at 2. rewrite E. cbn [fst].
    unfold DataManager.cleanup_test_data. rewrite E. reflexivity.
Qed.

(** C8, as the code has it. [cleanup_test_data] keeps, in their order,
    the entries whose ticket, project and details carry no marker; keeps
    the mappings whose project name carries no marker; clears the current
    work, [last_activity] included, when its ticket is not empty and the
    ticket or the project carries a marker, and leaves it alone
    otherwise; returns the number of entries removed; and saves the state
    if and only if that number is positive. *)
Theorem cleanup_test_data_removes_marked_entries :
  forall lower (f : Disk.t) (s : AppState.t),
    let self := DataManager.mk f (Some s) in
    let self' := fst (DataManager.cleanup_test_data lower self) in
    let removed := snd (DataManager.cleanup_test_data lower self) in
    exists s',
      DataManager.app_state self' = Some s' /\
      AppState.work_entries s' =
        filter (fun e => negb (DataManager.is_test_entry lower e))
               (AppState.work_entries s) /\
      (forall e,
         In e (AppState.work_entries s') <->
         In e (AppState.work_entries s) /\
         ~ (Spec.marked lower (WorkEntry.ticket e) \/
            Spec.marked lower (WorkEntry.project e) \/
            Spec.marked lower (WorkEntry.details e))) /\
      AppState.project_mappings s' =
        filter (fun kv => negb (DataManager.is_test_project lower (fst kv)))
               (AppState.project_mappings s) /\
      (forall k m,
         In (k, m) (AppState.project_mappings s') <->
         In (k, m) (AppState.project_mappings s) /\ ~ Spec.marked lower k) /\
      ((exists ticket,
          AppState.current_ticket s = Some ticket /\ ticket <> "" /\
          (Spec.marked lower ticket \/
           Spec.marked lower (Py.or_empty (AppState.current_project s)))) ->
       AppState.current_ticket s' = None /\
       AppState.current_project s' = None /\
       AppState.current_details s' = None /\
       AppState.last_activity s' = None) /\
      (~ (exists ticket,
            AppState.current_ticket s = Some ticket /\ ticket <> "" /\
            (Spec.marked lower ticket \/
             Spec.marked lower (Py.or_empty (AppState.current_project s)))) ->
       AppState.current_ticket s' = AppState.current_ticket s /\
       AppState.current_project s' = AppState.current_project s /\
       AppState.current_details s' = AppState.current_details s /\
       AppState.last_activity s' = AppState.last_activity s) /\
      removed =
        Z.of_nat (List.length (AppState.work_entries s)) -
        Z.of_nat (List.length (AppState.work_entries s')) /\
      0 <= removed /\
      (0 < removed ->
       self' = DataManager._save_data (DataManager.with_state self s') /\
       Disk.data_file (DataManager.files self') =
         Some (Disk.Document (AppState.to_dict s'))) /\
      (removed = 0 -> self' = DataManager.with_state self s' /\
                      DataManager.files self' = f).
Proof.
  intros lower f s self self' removed.
  assert (E : DataManager.app_state self = Some s) by reflexivity.
  pose proof (cleanup_test_data_result lower self s E) as R. cbv zeta in R.
  unfold self', removed. rewrite R. cbn [fst snd]. clear R.
  set (s' := DataManager.without_test_data lower s).
  set (n := Z.of_nat (List.length (AppState.work_entries s)) -
            Z.of_nat (List.length (AppState.work_entries s'))).
  assert (Hentries : AppState.work_entries s' =
            filter (fun e => negb (DataManager.is_test_entry lower e))
                   (AppState.work_entries s)) by reflexivity.
  assert (Hmaps : AppState.project_mappings s' =
            filter (fun kv => negb (DataManager.is_test_project lower (fst kv)))
                   (AppState.project_mappings s)).
  { unfold s', DataManager.without_test_data. cbn [AppState.project_mappings].
    apply del_keys_filter. }
  assert (Hn : 0 <= n).
  { unfold n. rewrite Hentries.
    pose proof (filter_length_le
                  (fun e => negb (DataManager.is_test_entry lower e))
                  (AppState.work_entries s)). lia. }
  exists s'. split.
  { destruct (0 <? n); [rewrite save_keeps_state|]; reflexivity. }
  split; [exact Hentries|]. split.
  { intros e. rewrite Hentries, filter_In, negb_true_iff.
    rewrite <- is_test_entry_spec.
    destruct (DataManager.is_test_entry lower e); intuition congruence. }
  split; [exact Hmaps|]. split.
  { intros k m. rewrite Hmaps, filter_In, negb_true_iff. cbn [fst].
    rewrite <- is_test_project_spec.
    destruct (DataManager.is_test_project lower k); intuition congruence. }
  split.
  { intros Hc. apply is_test_current_spec in Hc.
    unfold s', DataManager.without_test_data. simpl. rewrite Hc. tauto. }
  split.
  { intros Hc. rewrite <- is_test_current_spec in Hc.
    unfold s', DataManager.without_test_data. simpl.
    destruct (DataManager.is_test_current lower s); [congruence | tauto]. }
  split; [reflexivity|]. split; [exact Hn|]. split.
  - intros Hpos. assert (Hb : (0 <? n) = true) by (apply Z.ltb_lt; exact Hpos).
    rewrite Hb. split; [reflexivity|]. apply save_writes_state.
  - intros Hz. assert (Hb : (0 <? n) = false) by (apply Z.ltb_ge; lia).
    rewrite Hb. split; reflexivity.
Qed.

(** C8 fails as it is written: a state without entries whose only mapping
    is that of "Test Project". The mapping is removed, yet the call
    returns 0 and nothing is saved: the state file still holds the
    mapping. *)
Lemma cleanup_test_data_ignores_removed_mapping :
  let s := AppState.mk None None None None []
             [("Test Project", ProjectMapping.mk ["TEST"] "Test Project")] in
  let f := Disk.mk (Some (Disk.Document (AppState.to_dict s))) None None in
  let r := DataManager.cleanup_test_data Py.lower_ascii (DataManager.mk f (Some s)) in
  exists s',
    DataManager.app_state (fst r) = Some s' /\
    AppState.project_mappings s' = [] /\
    snd r = 0 /\
    DataManager.files (fst r) = f /\
    Disk.data_file (DataManager.files (fst r)) <>
      Some (Disk.Document (AppState.to_dict s')).
Proof.
  eexists. split; [vm_compute; reflexivity|].
  split; [reflexivity|]. split; [reflexivity|]. split; [reflexivity|].
  vm_compute. discriminate.
Qed.

(** *** The rule on the current session *)

Lemma step_keeps_session_rule lower (o : DataManager.op) (self : DataManager.t)
    (s : AppState.t) :
  Spec.names_project o ->
  DataManager.app_state self = Some s ->
  Spec.session_has_project s ->
  exists self' s',
    DataManager.step lower o self = Returns self' /\
    DataManager.app_state self' = Some s' /\
    Spec.session_has_project s'.
Proof.
  intros Ho E Hs. unfold Spec.session_has_project in *.
  destruct o as [now t p d | t p d | |]; simpl.
  - unfold DataManager.add_work_entry. rewrite E.
    eexists _, _. split; [reflexivity|]. rewrite save_keeps_state.
    split; [reflexivity|]. simpl. congruence.
  - unfold DataManager.update_current_work. rewrite E.
    eexists _, _. split; [reflexivity|]. rewrite save_keeps_state.
    split; [reflexivity|].
    destruct t, p, d; simpl in *; try congruence; try tauto.
  - unfold DataManager.stop_current_work. rewrite E.
    eexists _, _. split; [reflexivity|]. rewrite save_keeps_state.
    split; [reflexivity|]. simpl. congruence.
  - rewrite (cleanup_test_data_result lower self s E). cbv zeta. cbn [fst].
    eexists _, _. split; [reflexivity|]. split.
    + destruct (0 <? _); [rewrite save_keeps_state|]; reflexivity.
    + unfold DataManager.without_test_data. simpl.
      destruct (DataManager.is_test_current lower s); [congruence | exact Hs].
Qed.

(** C7, as the code has it. From the default state, every sequence of
    [add_work_entry], [update_current_work], [stop_current_work] and
    [cleanup_test_data] in which [update_current_work] is never given a
    ticket without a project runs to its end and leads to a state where
    a current ticket comes with a current project. *)
Theorem session_has_project_invariant :
  forall lower (f : Disk.t) (ops : list DataManager.op),
    Forall Spec.names_project ops ->
    exists self' s',
      DataManager.run lower ops (DataManager.mk f (Some AppState.default)) =
        Returns self' /\
      DataManager.app_state self' = Some s' /\
      Spec.session_has_project s'.
Proof.
  intros lower f ops Hops.
  assert (G : forall self s,
            DataManager.app_state self = Some s ->
            Spec.session_has_project s ->
            exists self' s',
              DataManager.run lower ops self = Returns self' /\
              DataManager.app_state self' = Some s' /\
              Spec.session_has_project s').
  { induction Hops as [|o ops Ho _ IH]; intros self s E Hs.
    - exists self, s. repeat split; assumption.
    - destruct (step_keeps_session_rule lower o self s Ho E Hs)
        as [self1 [s1 [H1 [E1 Hs1]]]].
      cbn [DataManager.run]. rewrite H1. cbn [bind]. eapply IH; eassumption. }
  apply (G _ AppState.default); [reflexivity|].
  unfold Spec.session_has_project. simpl. congruence.
Qed.

Lemma session_has_project_invariant_witness :
  Forall Spec.names_project
    [ DataManager.AddWorkEntry (Datetime.mk 2024 1 3 9 0 0 0) "BUG-42" "Alpha" "";
      DataManager.UpdateCurrentWork None None (Some "review");
      DataManager.StopCurrentWork;
      DataManager.CleanupTestData ] /\
  exists self' s',
    DataManager.run Py.lower_ascii
      [ DataManager.AddWorkEntry (Datetime.mk 2024 1 3 9 0 0 0) "BUG-42" "Alpha" "";
        DataManager.UpdateCurrentWork None None (Some "review");
        DataManager.StopCurrentWork;
        DataManager.CleanupTestData ]
      (DataManager.mk (Disk.mk None None None) (Some AppState.default)) =
      Returns self' /\
    DataManager.app_state self' = Some s' /\
    Spec.session_has_project s'.
Proof.
  assert (H : Forall Spec.names_project
    [ DataManager.AddWorkEntry (Datetime.mk 2024 1 3 9 0 0 0) "BUG-42" "Alpha" "";
      DataManager.UpdateCurrentWork None None (Some "review");
      DataManager.StopCurrentWork;
      DataManager.CleanupTestData ]).
  { repeat constructor. }
  split; [exact H|].
  exact (session_has_project_invariant Py.lower_ascii (Disk.mk None None None) _ H).
Defined.

(** C7 fails as it is written: [update_current_work(ticket="X-1")] on the
    default state sets a current ticket and leaves the current project
    unset. *)
Lemma update_current_work_ticket_without_project :
  exists self' s',
    DataManager.run Py.lower_ascii
      [ DataManager.UpdateCurrentWork (Some "X-1") None None ]
      (DataManager.mk (Disk.mk None None None) (Some AppState.default)) =
      Returns self' /\
    DataManager.app_state self' = Some s' /\
    AppState.current_ticket s' = Some "X-1" /\
    AppState.current_project s' = None /\
    ~ Spec.session_has_project s'.
Proof.
  eexists _, _. split; [reflexivity|]. split; [reflexivity|].
  split; [reflexivity|]. split; [reflexivity|].
  unfold Spec.session_has_project. simpl. intros H. apply H; congruence.
Qed.

(** *** An empty ticket and the detection of projects *)

Lemma get_In {V} (k : string) (v : V) (d : Dict.t string V) :
  Dict.get k d = Some v -> In (k, v) d.
Proof.
  induction d as [|[k' v'] d IH]; simpl; [discriminate|].
  destruct (String.eqb_spec k k') as [->|_].
  - intros [= ->]. left. reflexivity.
  - intros Hg. right. apply IH. exact Hg.
Qed.

Lemma first_match_complete lower ticket (d before after : Dict.t string ProjectMapping.t)
    p m :
  d = before ++ (p, m) :: after ->
  Spec.has_pattern lower ticket m ->
  Forall (fun km => ~ Spec.has_pattern lower ticket (snd km)) before ->
  AppState.first_match lower ticket d = Some p.
Proof.
  intros -> Hm Hb. induction Hb as [|[k mk] before Hk _ IH]; simpl.
  - apply matches_spec in Hm. rewrite Hm. reflexivity.
  - destruct (AppState.matches lower ticket mk) eqn:E; [|exact IH].
    apply matches_spec in E. contradiction.
Qed.

Lemma empty_pattern_matches lower ticket (s : AppState.t) project :
  lower "" = "" ->
  In "" (Spec.patterns_of project s) ->
  exists q, AppState.auto_detect_project lower ticket s = Some q.
Proof.
  intros Hl Hin. unfold Spec.patterns_of in Hin.
  destruct (Dict.get project (AppState.project_mappings s)) as [m|] eqn:E;
    [|contradiction].
  apply get_In in E.
  pose proof (first_match_spec lower ticket (AppState.project_mappings s)) as Hf.
  unfold AppState.auto_detect_project.
  destruct (AppState.first_match lower ticket (AppState.project_mappings s)) as [q|].
  - exists q. reflexivity.
  - exfalso. rewrite Forall_forall in Hf. apply (Hf _ E). simpl.
    exists "". split; [exact Hin|]. rewrite Hl. exists "", (lower ticket).
    reflexivity.
Qed.

Lemma step_keeps_empty_pattern lower (o : DataManager.op) (self : DataManager.t)
    (s : AppState.t) project :
  ~ Spec.marked lower project ->
  DataManager.app_state self = Some s ->
  In "" (Spec.patterns_of project s) ->
  exists self' s',
    DataManager.step lower o self = Returns self' /\
    DataManager.app_state self' = Some s' /\
    In "" (Spec.patterns_of project s').
Proof.
  intros Hp E Hin.
  destruct o as [now t p d | t p d | |]; simpl.
  - unfold DataManager.add_work_entry. rewrite E.
    eexists _, _. split; [reflexivity|]. rewrite save_keeps_state.
    split; [reflexivity|].
    destruct (String.eqb_spec project p) as [->|Hne].
    + rewrite add_work_entry_patterns.
      destruct (Py.mem _ _); [exact Hin|]. apply in_or_app. left. exact Hin.
    + unfold Spec.patterns_of.
      rewrite add_work_entry_other_projects by exact Hne. exact Hin.
  - unfold DataManager.update_current_work. rewrite E.
    eexists _, _. split; [reflexivity|]. rewrite save_keeps_state.
    split; [reflexivity|]. destruct t, p, d; exact Hin.
  - unfold DataManager.stop_current_work. rewrite E.
    eexists _, _. split; [reflexivity|]. rewrite save_keeps_state.
    split; [reflexivity|]. exact Hin.
  - rewrite (cleanup_test_data_result lower self s E). cbv zeta. cbn [fst].
    eexists _, _. split; [reflexivity|]. split.
    + destruct (0 <? _); [rewrite save_keeps_state|]; reflexivity.
    + unfold Spec.patterns_of, DataManager.without_test_data.
      cbn [AppState.project_mappings]. rewrite del_keys_filter.
      rewrite (get_filter_keys
                 (fun k => negb (DataManager.is_test_project lower k))).
      * exact Hin.
      * apply negb_true_iff.
        destruct (DataManager.is_test_project lower project) eqn:T; [|reflexivity].
        apply is_test_project_spec in T. contradiction.
Qed.

Lemma run_keeps_empty_pattern lower (ops : list DataManager.op) project :
  ~ Spec.marked lower project ->
  forall (self : DataManager.t) (s : AppState.t),
    DataManager.app_state self = Some s ->
    In "" (Spec.patterns_of project s) ->
    exists self' s',
      DataManager.run lower ops self = Returns self' /\
      DataManager.app_state self' = Some s' /\
      In "" (Spec.patterns_of project s').
Proof.
  intros Hp. induction ops as [|o ops IH]; intros self s E Hin.
  - exists self, s. repeat split; assumption.
  - destruct (step_keeps_empty_pattern lower o self s project Hp E Hin)
      as [self1 [s1 [H1 [E1 Hin1]]]].
    cbn [DataManager.run]. rewrite H1. cbn [bind]. eapply IH; eassumption.
Qed.

(** C10, as the code has it. [add_work_entry] with an empty ticket for a
    project P stores the empty text among the patterns of P (the prefix
    derived from "" is ""). From then on, whatever operations follow, and
    provided that the name of P carries no marker of test data (so that
    [cleanup_test_data] does not remove its mapping),
    [auto_detect_project(t)] returns a project for every ticket t, P
    itself when no mapping before that of P has a matching pattern. *)
Theorem empty_ticket_makes_detection_total :
  forall lower (f : Disk.t) (s : AppState.t) now project details
         (ops : list DataManager.op) ticket,
    lower "" = "" ->
    ~ Spec.marked lower project ->
    AppState.ticket_prefix "" = "" /\
    exists self1 s1 self2 s2,
      DataManager.add_work_entry now "" project details
        (DataManager.mk f (Some s)) = Returns self1 /\
      DataManager.app_state self1 = Some s1 /\
      In "" (Spec.patterns_of project s1) /\
      DataManager.run lower ops self1 = Returns self2 /\
      DataManager.app_state self2 = Some s2 /\
      In "" (Spec.patterns_of project s2) /\
      (exists q, AppState.auto_detect_project lower ticket s2 = Some q) /\
      (forall before m after,
         AppState.project_mappings s2 = before ++ (project, m) :: after ->
         In "" (ProjectMapping.ticket_patterns m) ->
         Forall (fun km => ~ Spec.has_pattern lower ticket (snd km)) before ->
         AppState.auto_detect_project lower ticket s2 = Some project).
Proof.
  intros lower f s now project details ops ticket Hl Hp.
  split; [reflexivity|].
  set (s1 := AppState.add_work_entry now "" project details s).
  assert (Hin1 : In "" (Spec.patterns_of project s1)).
  { unfold s1. rewrite add_work_entry_patterns.
    change (AppState.ticket_prefix "") with "".
    destruct (Py.mem "" _) eqn:M.
    - apply mem_In. exact M.
    - apply in_or_app. right. left. reflexivity. }
  set (self1 := DataManager._save_data (DataManager.mk f (Some s1))).
  assert (E1 : DataManager.app_state self1 = Some s1).
  { unfold self1. rewrite save_keeps_state. reflexivity. }
  destruct (run_keeps_empty_pattern lower ops project Hp self1 s1 E1 Hin1)
    as [self2 [s2 [H2 [E2 Hin2]]]].
  exists self1, s1, self2, s2.
  split; [reflexivity|]. split; [exact E1|]. split; [exact Hin1|].
  split; [exact H2|]. split; [exact E2|]. split; [exact Hin2|]. split.
  - eapply empty_pattern_matches; eassumption.
  - intros before m after Hd Hm Hb. unfold AppState.auto_detect_project.
    eapply first_match_complete; [exact Hd | | exact Hb].
    exists "". split; [exact Hm|]. rewrite Hl. exists "", (lower ticket).
    reflexivity.
Qed.

Lemma not_marked_Alpha : ~ Spec.marked Py.lower_ascii "Alpha".
Proof.
  intros H. apply is_test_project_spec in H. vm_compute in H. discriminate.
Qed.

Lemma empty_ticket_makes_detection_total_witness :
  Py.lower_ascii "" = "" /\
  ~ Spec.marked Py.lower_ascii "Alpha" /\
  exists q,
    exists s2,
      DataManager.app_state
        (DataManager._save_data
           (DataManager.mk (Disk.mk None None None)
              (Some (AppState.add_work_entry (Datetime.mk 2024 1 3 9 0 0 0)
                       "" "Alpha" "" AppState.default)))) = Some s2 /\
      AppState.auto_detect_project Py.lower_ascii "TASK-1" s2 = Some q.
Proof.
  split; [reflexivity|]. split; [exact not_marked_Alpha|].
  destruct (empty_ticket_makes_detection_total Py.lower_ascii
              (Disk.mk None None None) AppState.default
              (Datetime.mk 2024 1 3 9 0 0 0) "Alpha" "" [] "TASK-1"
              eq_refl not_marked_Alpha)
    as [_ [self1 [s1 [self2 [s2 [H1 [E1 [_ [H2 [E2 [_ [[q Hq] _]]]]]]]]]]]].
  exists q, s2. injection H1 as <-. injection H2 as <-. split; assumption.
Defined.

(** C10 fails as it is written: after [add_work_entry("", "demo", "")] a
    call of [cleanup_test_data] removes the mapping of "demo", and
    [auto_detect_project] is back to no match. *)
Lemma cleanup_forgets_empty_pattern :
  exists self' s',
    DataManager.run Py.lower_ascii
      [ DataManager.AddWorkEntry (Datetime.mk 2024 1 3 9 0 0 0) "" "demo" "";
        DataManager.CleanupTestData ]
      (DataManager.mk (Disk.mk None None None) (Some AppState.default)) =
      Returns self' /\
    DataManager.app_state self' = Some s' /\
    AppState.auto_detect_project Py.lower_ascii "ABC-1" s' = None.
Proof.
  eexists _, _. split; [vm_compute; reflexivity|]. split; reflexivity.
Qed.

(** *** Loading the state file *)

(** The [except] clause at work: when reading the state file raises one
    of the three exceptions it names, the file is moved to the backup, a
    default state is made and saved, and the call returns. *)
Lemma load_recovers_from_caught_error (f : Disk.t) (c : Disk.contents) (e : exn) :
  Disk.data_file f = Some c ->
  (data <- Disk.json_load c ;; AppState.from_dict data) = Raises e ->
  DataManager.caught e = true ->
  DataManager.init f =
    Returns (DataManager.mk
               (Disk.mk (Some (Disk.Document (AppState.to_dict AppState.default)))
                        (Some c) (Disk.tmp_file f))
               (Some AppState.default)).
Proof.
  intros Hf Hr Hc. unfold DataManager.init, DataManager._load_data.
  cbn [DataManager.files]. rewrite Hf, Hr, Hc. reflexivity.
Qed.

Lemma load_escapes_on_other_error (f : Disk.t) (c : Disk.contents) (e : exn) :
  Disk.data_file f = Some c ->
  (data <- Disk.json_load c ;; AppState.from_dict data) = Raises e ->
  DataManager.caught e = false ->
  DataManager.init f = Raises e.
Proof.
  intros Hf Hr Hc. unfold DataManager.init, DataManager._load_data.
  cbn [DataManager.files]. rewrite Hf, Hr, Hc. reflexivity.
Qed.

(** C6 at its failing inputs. A state file that holds a JSON list, or an
    entry whose timestamp is [null], makes the load raise
    [AttributeError], respectively [TypeError], to the caller: the file is
    not moved to a backup and no state is made. Invalid JSON and an
    entry without its timestamp are recovered from. *)
Theorem load_raises_on_wrong_types :
  let entry_null :=
    PDict [ ("timestamp", PNone); ("ticket", PStr "T-1"); ("project", PStr "P") ] in
  let entry_short := PDict [ ("ticket", PStr "T-1"); ("project", PStr "P") ] in
  let file v := Disk.mk (Some (Disk.Document v)) None None in
  DataManager.init (file (PList [])) = Raises AttributeError /\
  DataManager.init (file (PDict [ ("work_entries", PList [entry_null]) ])) =
    Raises TypeError /\
  DataManager.init (file (PDict [ ("last_activity", PInt 5) ])) = Raises TypeError /\
  DataManager.init (file (PDict [ ("work_entries", PList [entry_short]) ])) =
    Returns (DataManager.mk
               (Disk.mk (Some (Disk.Document (AppState.to_dict AppState.default)))
                        (Some (Disk.Document
                                 (PDict [ ("work_entries", PList [entry_short]) ])))
                        None)
               (Some AppState.default)) /\
  DataManager.init (Disk.mk (Some (Disk.Malformed "{")) None None) =
    Returns (DataManager.mk
               (Disk.mk (Some (Disk.Document (AppState.to_dict AppState.default)))
                        (Some (Disk.Malformed "{")) None)
               (Some AppState.default)).
Proof. repeat split. Qed.

(** ** The entries of a week: [AppState.get_week_entries_with_offset] *)

Lemma week_start_is_monday (today : Date.t) :
  let monday := today - Date.weekday today in
  Date.weekday monday = 0 /\ monday <= today <= monday + 6.
Proof.
  unfold Date.weekday. cbv zeta.
  pose proof (Z.mod_pos_bound (today + 6) 7 ltac:(lia)) as Hb.
  split; [|lia].
  pose proof (Z.div_mod (today + 6) 7 ltac:(lia)) as Hd.
  replace (today - (today + 6) mod 7 + 6) with (((today + 6) / 7) * 7) by lia.
  apply Z.mod_mul. lia.
Qed.

Lemma weekday_add_weeks (d n : Z) : Date.weekday (d + 7 * n) = Date.weekday d.
Proof.
  unfold Date.weekday.
  replace (d + 7 * n + 6) with (d + 6 + n * 7) by lia.
  apply Z.mod_add. lia.
Qed.

(** C2, as the code has it. For a week offset whose target week lies
    within the dates that Python has (0001-01-01 to 9999-12-31),
    [get_week_entries_with_offset(offset)] returns, in their order,
    exactly the entries dated from the Monday to the Sunday of the week
    that starts [7 * offset] days after the Monday of the current week:
    an entry dated that Monday or that Sunday is in, one dated the Monday
    after is out. *)
Theorem get_week_entries_with_offset_in_range :
  forall (s : AppState.t) (today : Date.t) (offset : Z),
    Date.MINORDINAL <= today <= Date.MAXORDINAL ->
    let monday := today - Date.weekday today in
    let target := monday + 7 * offset in
    Date.MINORDINAL <= target ->
    target + 6 <= Date.MAXORDINAL ->
    Date.weekday monday = 0 /\ monday <= today <= monday + 6 /\
    Date.weekday target = 0 /\ Date.weekday (target + 6) = 6 /\
    exists l,
      AppState.get_week_entries_with_offset today offset s = Returns l /\
      l = filter (fun e =>
                    let d := Datetime.date (WorkEntry.timestamp e) in
                    (target <=? d) && (d <=? target + 6))
                 (AppState.work_entries s) /\
      (forall e,
         In e l <->
         In e (AppState.work_entries s) /\
         target <= Datetime.date (WorkEntry.timestamp e) <= target + 6) /\
      (forall e,
         In e (AppState.work_entries s) ->
         (Datetime.date (WorkEntry.timestamp e) = target -> In e l) /\
         (Datetime.date (WorkEntry.timestamp e) = target + 6 -> In e l) /\
         (Datetime.date (WorkEntry.timestamp e) = target + 7 -> ~ In e l)).
Proof.
  intros s today offset Ht monday target Hlo Hhi.
  destruct (week_start_is_monday today) as [Hm Hr]. fold monday in Hm, Hr.
  unfold Date.MINORDINAL, Date.MAXORDINAL in *.
  assert (Hm1 : 1 <= monday).
  { assert (Hd : (7 | monday + 6)) by (apply Z.mod_divide; [lia | exact Hm]).
    destruct Hd as [q Hq]. lia. }
  assert (Htm : Date.weekday target = 0).
  { unfold target. rewrite weekday_add_weeks. exact Hm. }
  split; [exact Hm|]. split; [exact Hr|]. split; [exact Htm|]. split.
  { unfold Date.weekday in *.
    replace (target + 6 + 6) with (target + 6 + 6 * 1) by lia.
    rewrite <- Z.add_mod_idemp_l, Htm by lia. reflexivity. }
  assert (Hmem : forall e,
            In e (AppState.entries_between target (target + 6) s) <->
            In e (AppState.work_entries s) /\
            target <= Datetime.date (WorkEntry.timestamp e) <= target + 6).
  { intros e. unfold AppState.entries_between.
    rewrite filter_In, andb_true_iff, !Z.leb_le. tauto. }
  exists (AppState.entries_between target (target + 6) s). split.
  { unfold AppState.get_week_entries_with_offset, Date.sub, Date.add,
      Date.timedelta, Date.MAXORDINAL.
    pose proof (Z.mod_pos_bound (today + 6) 7 ltac:(lia)) as Hb.
    fold (Date.weekday today) in Hb.
    replace (Z.abs (Date.weekday today) <=? 999999999) with true
      by (symmetry; apply Z.leb_le; lia).
    cbn [bind]. fold monday.
    replace (today + - Date.weekday today) with monday by (unfold monday; lia).
    replace ((0 <? monday) && (monday <=? 3652059)) with true
      by (symmetry; apply andb_true_iff; split; [apply Z.ltb_lt | apply Z.leb_le]; lia).
    cbn [bind].
    replace (Z.abs (7 * offset) <=? 999999999) with true
      by (symmetry; apply Z.leb_le; unfold target in *; lia).
    cbn [bind]. fold target.
    replace ((0 <? target) && (target <=? 3652059)) with true
      by (symmetry; apply andb_true_iff; split; [apply Z.ltb_lt | apply Z.leb_le]; lia).
    cbn [bind]. replace (Z.abs 6 <=? 999999999) with true by reflexivity.
    cbn [bind].
    replace ((0 <? target + 6) && (target + 6 <=? 3652059)) with true
      by (symmetry; apply andb_true_iff; split; [apply Z.ltb_lt | apply Z.leb_le]; lia).
    reflexivity. }
  split; [reflexivity|]. split; [exact Hmem|].
  intros e He. rewrite Hmem. repeat split; try assumption; lia.
Qed.

Lemma get_week_entries_with_offset_in_range_witness :
  let monday_entry := WorkEntry.mk (Datetime.mk 2024 1 1 9 0 0 0) "X-1" "Alpha" "" 60 in
  let sunday_entry := WorkEntry.mk (Datetime.mk 2024 1 7 23 0 0 0) "X-2" "Alpha" "" 60 in
  let next_monday_entry := WorkEntry.mk (Datetime.mk 2024 1 8 0 0 0 0) "X-3" "Alpha" "" 60 in
  let s := AppState.mk None None None None
             [monday_entry; sunday_entry; next_monday_entry] [] in
  let today := Date.ymd2ord 2024 1 10 in
  (Date.MINORDINAL <= today <= Date.MAXORDINAL) /\
  Date.MINORDINAL <= today - Date.weekday today + 7 * (-1) /\
  today - Date.weekday today + 7 * (-1) + 6 <= Date.MAXORDINAL /\
  AppState.get_week_entries_with_offset today (-1) s =
    Returns [monday_entry; sunday_entry].
Proof.
  intros monday_entry sunday_entry next_monday_entry s today.
  assert (H1 : Date.MINORDINAL <= today <= Date.MAXORDINAL) by (vm_compute; split; discriminate).
  assert (H2 : Date.MINORDINAL <= today - Date.weekday today + 7 * (-1)) by (vm_compute; discriminate).
  assert (H3 : today - Date.weekday today + 7 * (-1) + 6 <= Date.MAXORDINAL) by (vm_compute; discriminate).
  split; [exact H1|]. split; [exact H2|]. split; [exact H3|].
  destruct (get_week_entries_with_offset_in_range s today (-1) H1 H2 H3)
    as [_ [_ [_ [_ [l [Hl [Heq _]]]]]]].
  rewrite Hl, Heq. reflexivity.
Defined.

(** C2 fails as it is written: a week offset of a thousand million weeks
    leaves the range of [timedelta] and one of minus two hundred thousand
    weeks the range of [date]; the call raises [OverflowError] and returns
    no entries. *)
Lemma get_week_entries_with_offset_overflows :
  let today := Date.ymd2ord 2024 1 10 in
  AppState.get_week_entries_with_offset today 1000000000 AppState.default =
    Raises OverflowError /\
  AppState.get_week_entries_with_offset today (-200000) AppState.default =
    Raises OverflowError.
Proof. split; reflexivity. Qed.

(** ** Writing and reading back: [to_dict] and [from_dict] *)

Lemma append_empty_r (s : string) : (s ++ "")%string = s.
Proof. induction s as [|c s IH]; simpl; congruence. Qed.

Lemma digit_val_digit (d : Z) : 0 <= d <= 9 -> Fmt.digit_val (Fmt.digit d) = Some d.
Proof.
  intros Hd.
  assert (C : d = 0 \/ d = 1 \/ d = 2 \/ d = 3 \/ d = 4 \/ d = 5 \/ d = 6 \/
              d = 7 \/ d = 8 \/ d = 9) by lia.
  repeat (destruct C as [-> | C]; [reflexivity|]). subst. reflexivity.
Qed.

Lemma read_digits_digits (w : nat) (acc n : Z) (rest : string) :
  0 <= n ->
  Fmt.read_digits w acc (Fmt.digits w n ++ rest) =
  Some (acc * 10 ^ Z.of_nat w + n mod 10 ^ Z.of_nat w, rest).
Proof.
  intros Hn. revert acc. induction w as [|w IH]; intros acc.
  - simpl. rewrite Z.mod_1_r. f_equal. f_equal. lia.
  - cbn [Fmt.digits Fmt.read_digits String.append].
    rewrite digit_val_digit
      by (pose proof (Z.mod_pos_bound (n / 10 ^ Z.of_nat w) 10 ltac:(lia)); lia).
    rewrite IH. f_equal. f_equal.
    rewrite Nat2Z.inj_succ, Z.pow_succ_r by lia.
    assert (Hp : 0 < 10 ^ Z.of_nat w) by (apply Z.pow_pos_nonneg; lia).
    rewrite (Z.mul_comm 10 (10 ^ Z.of_nat w)), Z.rem_mul_r by lia. ring.
Qed.

Lemma read_fixed (w : nat) (n : Z) (rest : string) :
  0 <= n < 10 ^ Z.of_nat w ->
  Fmt.read_digits w 0 (Fmt.digits w n ++ rest) = Some (n, rest).
Proof.
  intros Hn. rewrite read_digits_digits by lia.
  rewrite Z.mod_small by lia. reflexivity.
Qed.

Lemma days_in_month_le (y m : Z) : Date.days_in_month y m <= 31.
Proof.
  unfold Date.days_in_month. destruct ((m =? 2) && Date.is_leap y); [lia|].
  unfold Date.DAYS_IN_MONTH.
  destruct (Z.to_nat m) as [|[|[|[|[|[|[|[|[|[|[|[|[|k]]]]]]]]]]]]]; simpl; try lia.
  destruct k; simpl; lia.
Qed.

Lemma valid_bounds (dt : Datetime.t) :
  Datetime.valid dt = true ->
  0 <= Datetime.year dt < 10 ^ 4 /\ 0 <= Datetime.month dt < 10 ^ 2 /\
  0 <= Datetime.day dt < 10 ^ 2 /\ 0 <= Datetime.hour dt < 10 ^ 2 /\
  0 <= Datetime.minute dt < 10 ^ 2 /\ 0 <= Datetime.second dt < 10 ^ 2 /\
  0 <= Datetime.microsecond dt < 10 ^ 6 /\ Datetime.hour dt <> 24.
Proof.
  unfold Datetime.valid, Datetime.valid_date, Datetime.valid_time.
  rewrite !andb_true_iff, !Z.leb_le. intros H.
  pose proof (days_in_month_le (Datetime.year dt) (Datetime.month dt)).
  change (10 ^ 4) with 10000. change (10 ^ 2) with 100. change (10 ^ 6) with 1000000.
  lia.
Qed.

Lemma parse_iso_isoformat (dt : Datetime.t) :
  Datetime.valid dt = true ->
  Datetime.parse_iso (Datetime.isoformat dt) = Some dt.
Proof.
  intros Hv. destruct (valid_bounds dt Hv) as [Hy [Hmo [Hd [Hh [Hmi [Hs [Hus _]]]]]]].
  destruct dt as [y mo d h mi se us]. cbn [Datetime.year Datetime.month Datetime.day
    Datetime.hour Datetime.minute Datetime.second Datetime.microsecond] in *.
  unfold Datetime.parse_iso, Datetime.isoformat.
  cbn [Datetime.year Datetime.month Datetime.day
    Datetime.hour Datetime.minute Datetime.second Datetime.microsecond].
  rewrite (read_fixed 4) by exact Hy. cbn [Datetime.obind].
  cbn [String.append Fmt.read_char Ascii.eqb Bool.eqb Datetime.obind].
  rewrite (read_fixed 2) by exact Hmo.
  cbn [String.append Fmt.read_char Ascii.eqb Bool.eqb Datetime.obind].
  rewrite (read_fixed 2) by exact Hd.
  cbn [String.append Fmt.read_char Ascii.eqb Bool.eqb Datetime.obind].
  rewrite (read_fixed 2) by exact Hh.
  cbn [String.append Fmt.read_char Ascii.eqb Bool.eqb Datetime.obind].
  rewrite (read_fixed 2) by exact Hmi.
  cbn [String.append Fmt.read_char Ascii.eqb Bool.eqb Datetime.obind].
  rewrite (read_fixed 2) by exact Hs.
  cbn [Datetime.obind].
  destruct (us =? 0) eqn:E.
  - apply Z.eqb_eq in E. subst us. reflexivity.
  - cbn [String.append Fmt.read_char Ascii.eqb Bool.eqb Datetime.obind].
    rewrite <- (append_empty_r (Fmt.digits 6 us)).
    rewrite (read_fixed 6) by exact Hus. reflexivity.
Qed.

Lemma fromisoformat_isoformat (dt : Datetime.t) :
  Datetime.valid dt = true ->
  Datetime.fromisoformat (Datetime.isoformat dt) = Returns dt.
Proof.
  intros Hv. unfold Datetime.fromisoformat. rewrite parse_iso_isoformat by exact Hv.
  destruct (valid_bounds dt Hv) as [_ [_ [_ [_ [_ [_ [_ Hh]]]]]]].
  apply Z.eqb_neq in Hh. rewrite Hh, Hv. reflexivity.
Qed.

Lemma mapM_map {A B C} (f : B -> outcome C) (g : A -> B) (h : A -> C) (l : list A) :
  Forall (fun a => f (g a) = Returns (h a)) l ->
  mapM f (map g l) = Returns (map h l).
Proof.
  induction 1 as [|a l Ha _ IH]; simpl; [reflexivity|].
  rewrite Ha. cbn [bind]. rewrite IH. reflexivity.
Qed.

Lemma work_entry_round_trip (e : WorkEntry.t) :
  Datetime.valid (WorkEntry.timestamp e) = true ->
  WorkEntry.from_dict (WorkEntry.to_dict e) = Returns e.
Proof.
  intros Hv. destruct e as [ts t p d n]. cbn [WorkEntry.timestamp] in Hv.
  unfold WorkEntry.from_dict, WorkEntry.to_dict.
  cbn [WorkEntry.timestamp WorkEntry.ticket WorkEntry.project WorkEntry.details
       WorkEntry.duration Obj.get Obj.getitem Obj.fromisoformat Dict.get
       key_eqb string_key String.eqb Ascii.eqb Bool.eqb bind].
  rewrite fromisoformat_isoformat by exact Hv. reflexivity.
Qed.

Lemma project_mapping_round_trip (m : ProjectMapping.t) :
  ProjectMapping.from_dict (ProjectMapping.to_dict m) = Returns m.
Proof.
  destruct m as [patterns name].
  unfold ProjectMapping.from_dict, ProjectMapping.to_dict.
  cbn [ProjectMapping.ticket_patterns ProjectMapping.name Obj.get Dict.get
       key_eqb string_key String.eqb Ascii.eqb Bool.eqb bind Obj.as_str_list].
  rewrite (mapM_map Obj.as_str PStr (fun x => x)).
  - rewrite map_id. reflexivity.
  - apply Forall_forall. reflexivity.
Qed.

Lemma set_fresh {V} (k : string) (v : V) (d : Dict.t string V) :
  ~ In k (Dict.keys d) -> Dict.set k v d = d ++ [(k, v)].
Proof.
  induction d as [|[k' v'] d IH]; simpl; intros Hn; [reflexivity|].
  destruct (String.eqb_spec k k') as [->|_]; [tauto|].
  rewrite IH by tauto. reflexivity.
Qed.

Lemma dict_of_distinct {V} (l : list (string * V)) :
  NoDup (map fst l) -> Obj.dict_of l = l.
Proof.
  unfold Obj.dict_of.
  assert (G : forall acc : Dict.t string V,
            NoDup (map fst (acc ++ l)) ->
            fold_left (fun d kv => Dict.set (fst kv) (snd kv) d) l acc = acc ++ l).
  { induction l as [|[k v] l IH]; intros acc Hnd; simpl.
    - rewrite app_nil_r. reflexivity.
    - rewrite set_fresh.
      + rewrite IH; rewrite <- app_assoc; [reflexivity | exact Hnd].
      + rewrite map_app in Hnd. simpl in Hnd.
        apply NoDup_remove_2 in Hnd. intros Hin. apply Hnd.
        apply in_or_app. left. exact Hin. }
  intros Hnd. apply (G []). exact Hnd.
Qed.

(** C5. Reading back what [to_dict] wrote gives the state it was written
    from: the same entries in the same order, the same mappings and the
    same fields of the current session. *)
Theorem from_dict_to_dict_round_trip :
  forall s : AppState.t,
    Spec.well_formed s ->
    AppState.from_dict (AppState.to_dict s) = Returns s.
Proof.
  intros s [Hla [Hes Hnd]].
  destruct s as [ct cp cd la es ms].
  cbn [AppState.last_activity AppState.work_entries AppState.project_mappings] in *.
  unfold AppState.from_dict, AppState.to_dict.
  cbn [AppState.current_ticket AppState.current_project AppState.current_details
       AppState.last_activity AppState.work_entries AppState.project_mappings].
  cbn [Obj.get Obj.getitem Dict.get key_eqb string_key String.eqb Ascii.eqb Bool.eqb bind].
  assert (Hact :
    (if Obj.truthy match la with Some d => PStr (Datetime.isoformat d) | None => PNone end
     then d <- Obj.fromisoformat
                 match la with Some d => PStr (Datetime.isoformat d) | None => PNone end ;;
          Returns (Some d)
     else Returns None) = Returns la).
  { destruct la as [d|]; [|reflexivity].
    assert (Ht : Obj.truthy (PStr (Datetime.isoformat d)) = true).
    { unfold Datetime.isoformat. reflexivity. }
    rewrite Ht. cbn [bind Obj.fromisoformat].
    rewrite fromisoformat_isoformat by (apply Hla; reflexivity). reflexivity. }
  rewrite Hact. cbn [bind Obj.iter].
  rewrite (mapM_map WorkEntry.from_dict WorkEntry.to_dict (fun e => e)).
  2:{ eapply Forall_impl; [|exact Hes]. intros e He. apply work_entry_round_trip.
      exact He. }
  rewrite map_id. cbn [bind Obj.items].
  rewrite dict_of_distinct.
  2:{ rewrite map_map. exact Hnd. }
  rewrite (mapM_map
             (fun kv => m <- ProjectMapping.from_dict (snd kv) ;; Returns (fst kv, m))
             (fun kv => (fst kv, ProjectMapping.to_dict (snd kv)))
             (fun kv => kv)).
  2:{ apply Forall_forall. intros [k m] _. cbn [fst snd].
      rewrite project_mapping_round_trip. reflexivity. }
  rewrite map_id. cbn [bind].
  rewrite dict_of_distinct by exact Hnd.
  destruct ct, cp, cd; reflexivity.
Qed.

Lemma from_dict_to_dict_round_trip_witness :
  let s := AppState.add_work_entry (Datetime.mk 2024 1 3 9 30 15 250000)
             "BUG-42" "Alpha" "triage"
             (AppState.add_work_entry (Datetime.mk 2024 1 2 14 0 0 0)
                "DOC-7" "Beta" "" AppState.default) in
  Spec.well_formed s /\ AppState.from_dict (AppState.to_dict s) = Returns s.
Proof.
  intros s.
  assert (H : Spec.well_formed s).
  { split; [|split].
    - intros d [= <-]. reflexivity.
    - repeat constructor.
    - repeat constructor; simpl; intuition discriminate. }
  split; [exact H | exact (from_dict_to_dict_round_trip s H)].
Defined.

(** ** The weekly report: [ReportGenerator] *)

(** *** Grouping into a dictionary *)

Section Grouping.
Context {K V X : Type} `{Key K}.
Variables (key : X -> K) (init : V) (upd : X -> V -> V).

Local Abbreviation grouped := (Dict.grouped key init upd).
Local Abbreviation seen_from := Dict.seen_from.

Lemma key_eqb_sym (a b : K) : key_eqb a b = key_eqb b a.
Proof.
  destruct (key_dec a b) as [->|Hne]; [reflexivity|].
  rewrite (key_eqb_neq a b Hne). symmetry. apply key_eqb_neq. congruence.
Qed.

Lemma existsb_key_In (k : K) (ks : list K) :
  existsb (key_eqb k) ks = true <-> In k ks.
Proof.
  rewrite existsb_exists. split.
  - intros [y [Hy He]]. apply key_eqb_eq in He. congruence.
  - intros Hin. exists k. split; [exact Hin | apply key_eqb_refl].
Qed.

Lemma mem_keys (k : K) (d : Dict.t K V) :
  Dict.mem k d = existsb (key_eqb k) (Dict.keys d).
Proof.
  unfold Dict.mem. induction d as [|[k' v] d IH]; simpl; [reflexivity|].
  destruct (key_eqb k k'); [reflexivity | exact IH].
Qed.

Lemma grouped_keys (l : list X) (d0 : Dict.t K V) :
  Dict.keys (grouped l d0) = seen_from (map key l) (Dict.keys d0).
Proof.
  unfold Dict.grouped, Dict.seen_from. revert d0.
  induction l as [|x l IH]; intros d0; simpl; [reflexivity|].
  rewrite IH, keys_modify, keys_setdefault, mem_keys. reflexivity.
Qed.

Lemma grouped_get (k : K) (l : list X) (d0 : Dict.t K V) :
  Dict.get k (grouped l d0) =
  match filter (fun x => key_eqb (key x) k) l with
  | [] => Dict.get k d0
  | xs =>
      Some (fold_left (fun v x => upd x v) xs
              (match Dict.get k d0 with Some v => v | None => init end))
  end.
Proof.
  unfold Dict.grouped. revert d0.
  induction l as [|x l IH]; intros d0; simpl; [reflexivity|].
  rewrite IH. clear IH.
  rewrite get_modify, !get_setdefault, (key_eqb_sym k (key x)).
  destruct (key_eqb (key x) k) eqn:E.
  - apply key_eqb_eq in E. subst k. rewrite key_eqb_refl.
    destruct (filter _ l) as [|y ys]; destruct (Dict.get (key x) d0); reflexivity.
  - destruct (filter _ l) as [|y ys]; destruct (Dict.get k d0); reflexivity.
Qed.

Lemma dict_as_map (v0 : V) (d : Dict.t K V) :
  NoDup (Dict.keys d) ->
  d = map (fun k => (k, match Dict.get k d with Some v => v | None => v0 end))
          (Dict.keys d).
Proof.
  induction d as [|[k v] d IH]; simpl; intros Hnd; [reflexivity|].
  inversion Hnd as [|? ? Hn Hnd']; subst.
  rewrite key_eqb_refl. f_equal.
  rewrite IH at 1 by exact Hnd'. apply map_ext_in. intros k' Hin.
  rewrite key_eqb_neq; [reflexivity | intros ->; contradiction].
Qed.

Lemma seen_from_spec (l ks : list K) :
  NoDup ks ->
  NoDup (seen_from l ks) /\
  (forall x, In x (seen_from l ks) <-> In x ks \/ In x l).
Proof.
  unfold Dict.seen_from. revert ks.
  induction l as [|a l IH]; intros ks Hnd; simpl.
  - split; [exact Hnd | intros x; tauto].
  - destruct (existsb (key_eqb a) ks) eqn:E.
    + destruct (IH ks Hnd) as [H1 H2]. split; [exact H1|].
      intros x. rewrite H2. apply existsb_key_In in E.
      intuition (subst; auto).
    + assert (Hn : ~ In a ks).
      { intros Hin. apply existsb_key_In in Hin. congruence. }
      assert (Hnd' : NoDup (ks ++ [a])).
      { apply NoDup_app; [exact Hnd | repeat constructor; simpl; tauto |].
        intros x Hx [<-|[]]. contradiction. }
      destruct (IH _ Hnd') as [H1 H2]. split; [exact H1|].
      intros x. rewrite H2, in_app_iff. simpl. intuition.
Qed.

End Grouping.

Lemma distinct_spec {K} `{Key K} (l : list K) :
  NoDup (Spec.distinct l) /\ (forall x, In x (Spec.distinct l) <-> In x l).
Proof.
  destruct (seen_from_spec l [] (NoDup_nil K)) as [H1 H2].
  split; [exact H1|]. intros x. specialize (H2 x). simpl in H2.
  unfold Spec.distinct. tauto.
Qed.

(** A dictionary built by grouping, item by item. *)
Lemma grouped_as_map {K V X} `{Key K} (key : X -> K) (init : V)
    (upd : X -> V -> V) (l : list X) :
  Dict.grouped key init upd l [] =
  map (fun k =>
         (k, fold_left (fun v x => upd x v)
               (filter (fun x => key_eqb (key x) k) l) init))
      (Spec.distinct (map key l)).
Proof.
  assert (Hk : Dict.keys (Dict.grouped key init upd l []) = Spec.distinct (map key l)).
  { exact (grouped_keys key init upd l []). }
  rewrite (dict_as_map init (Dict.grouped key init upd l [])).
  2:{ rewrite Hk. apply distinct_spec. }
  rewrite Hk. apply map_ext. intros k. f_equal.
  rewrite grouped_get. simpl.
  destruct (filter _ l); reflexivity.
Qed.

(** *** Sorting *)

Section Sorting.
Context {A : Type} (le : A -> A -> bool).

Lemma insert_by_perm (x : A) (l : list A) :
  Permutation (ReportGenerator.insert_by le x l) (x :: l).
Proof.
  induction l as [|y l IH]; simpl; [reflexivity|].
  destruct (le x y); [reflexivity|].
  rewrite IH. apply perm_swap.
Qed.

Lemma sort_by_perm (l : list A) : Permutation (ReportGenerator.sort_by le l) l.
Proof.
  induction l as [|x l IH]; simpl; [reflexivity|].
  rewrite insert_by_perm. constructor. exact IH.
Qed.

Hypothesis le_total : forall a b, le a b = true \/ le b a = true.
Hypothesis le_trans : forall a b c, le a b = true -> le b c = true -> le a c = true.

Lemma insert_by_sorted (x : A) (l : list A) :
  StronglySorted (fun a b => le a b = true) l ->
  StronglySorted (fun a b => le a b = true) (ReportGenerator.insert_by le x l).
Proof.
  induction 1 as [|y l Hs IH Hy]; simpl.
  - repeat constructor.
  - destruct (le x y) eqn:E.
    + constructor; [constructor; assumption|].
      constructor; [exact E|]. eapply Forall_impl; [|exact Hy].
      intros a Ha. eapply le_trans; eassumption.
    + constructor; [exact IH|].
      assert (Hyx : le y x = true) by (destruct (le_total x y); congruence).
      rewrite Forall_forall. intros a Ha.
      apply (Permutation_in _ (insert_by_perm x l)) in Ha.
      destruct Ha as [<-|Ha]; [exact Hyx|].
      rewrite Forall_forall in Hy. apply Hy. exact Ha.
Qed.

Lemma sort_by_sorted (l : list A) :
  StronglySorted (fun a b => le a b = true) (ReportGenerator.sort_by le l).
Proof.
  induction l as [|x l IH]; simpl; [constructor|].
  apply insert_by_sorted. exact IH.
Qed.

End Sorting.

Lemma sort_by_map {A B} (leA : A -> A -> bool) (leB : B -> B -> bool) (f : A -> B)
    (l : list A) :
  (forall x y, leB (f x) (f y) = leA x y) ->
  ReportGenerator.sort_by leB (map f l) = map f (ReportGenerator.sort_by leA l).
Proof.
  intros Hf.
  assert (Hi : forall x l', ReportGenerator.insert_by leB (f x) (map f l') =
                            map f (ReportGenerator.insert_by leA x l')).
  { intros x l'. induction l' as [|y l' IH]; simpl; [reflexivity|].
    rewrite Hf. destruct (leA x y); simpl; [reflexivity|]. rewrite IH. reflexivity. }
  induction l as [|x l IH]; simpl; [reflexivity|].
  rewrite IH. apply Hi.
Qed.

Lemma string_leb_trans (a b c : string) :
  String.leb a b = true -> String.leb b c = true -> String.leb a c = true.
Proof.
  unfold String.leb. intros Hab Hbc.
  destruct (String.compare a b) eqn:Eab; try discriminate;
    destruct (String.compare b c) eqn:Ebc; try discriminate.
  - apply String.compare_eq_iff in Eab, Ebc. subst.
    destruct (String.compare c c) eqn:E; try reflexivity.
    pose proof (String.compare_antisym c c) as Ha. rewrite E in Ha. discriminate.
  - apply String.compare_eq_iff in Eab. subst. rewrite Ebc. reflexivity.
  - apply String.compare_eq_iff in Ebc. subst. rewrite Eab. reflexivity.
  - apply String_as_OT.cmp_lt in Eab, Ebc.
    pose proof (String_as_OT.lt_trans _ _ _ Eab Ebc) as Hac.
    apply String_as_OT.cmp_lt in Hac. unfold String_as_OT.cmp in Hac.
    rewrite Hac. reflexivity.
Qed.

Lemma sorted_strings_ascending (l : list string) :
  NoDup l -> Spec.ascending (ReportGenerator.sorted_strings l).
Proof.
  intros Hnd. unfold Spec.ascending, ReportGenerator.sorted_strings.
  pose proof (sort_by_sorted String.leb String.leb_total string_leb_trans l) as Hs.
  assert (Hnd' : NoDup (ReportGenerator.sort_by String.leb l)).
  { eapply Permutation_NoDup; [|exact Hnd]. symmetry. apply sort_by_perm. }
  induction Hs as [|x l' Hs IH Hx]; [constructor|].
  inversion Hnd' as [|? ? Hn Hnd'']; subst.
  constructor; [apply IH; exact Hnd''|].
  rewrite Forall_forall in *. intros y Hy. specialize (Hx y Hy).
  unfold String.leb in Hx. unfold String.ltb.
  destruct (String.compare x y) eqn:E; try reflexivity; try discriminate.
  apply String.compare_eq_iff in E. subst. contradiction.
Qed.

Lemma sorted_strings_In (l : list string) (x : string) :
  In x (ReportGenerator.sorted_strings l) <-> In x l.
Proof.
  unfold ReportGenerator.sorted_strings. split; apply Permutation_in;
    [|symmetry]; apply sort_by_perm.
Qed.

(** *** Hours *)

Lemma nearest_exponent_bound (n : Z) :
  Z.abs n < 2 ^ 1000 -> Float.exponent (Float.nearest n 60) <= 971.
Proof.
  intros Hn. unfold Float.nearest.
  destruct (n =? 0) eqn:E0; [cbn [Float.exponent]; lia|].
  apply Z.eqb_neq in E0.
  assert (Hlog : Z.log2 (Z.abs n) < 1000) by (apply Z.log2_lt_pow2; lia).
  change (Z.log2 60) with 5. cbv zeta.
  set (k := Z.log2 (Z.abs n) - 5).
  set (lead := if _ <=? _ then k else k - 1).
  assert (Hlead : lead <= k) by (unfold lead; destruct (_ <=? _); lia).
  destruct (_ =? 2 ^ 53); cbn [Float.exponent]; unfold k in *; lia.
Qed.

Lemma hours_returns (n : Z) :
  Z.abs n < 2 ^ 1000 -> ReportGenerator.hours n = Returns (Spec.hours_text n).
Proof.
  intros Hn. unfold ReportGenerator.hours, Float.true_div, Spec.hours_text.
  pose proof (nearest_exponent_bound n Hn) as Hb. cbv zeta.
  replace (971 <? Float.exponent (Float.nearest n 60)) with false
    by (symmetry; apply Z.ltb_ge; exact Hb).
  reflexivity.
Qed.

Lemma total_duration_minutes (es : list WorkEntry.t) :
  ReportGenerator.total_duration es = Spec.minutes es.
Proof.
  unfold ReportGenerator.total_duration.
  assert (G : forall a, fold_left (fun acc e => acc + WorkEntry.duration e) es a =
                        a + Spec.minutes es).
  { induction es as [|e es IH]; intros a; simpl; [lia|]. rewrite IH. lia. }
  rewrite G. lia.
Qed.

Lemma minutes_le_size (es : list WorkEntry.t) : Z.abs (Spec.minutes es) <= Spec.size es.
Proof. induction es as [|e es IH]; simpl; lia. Qed.

Lemma size_filter (f : WorkEntry.t -> bool) (es : list WorkEntry.t) :
  Spec.size (filter f es) <= Spec.size es.
Proof.
  induction es as [|e es IH]; simpl; [lia|].
  destruct (f e); simpl; lia.
Qed.

Lemma hours_of_part (f : WorkEntry.t -> bool) (es : list WorkEntry.t) :
  Spec.size es < 2 ^ 1000 ->
  ReportGenerator.hours (Spec.minutes (filter f es)) =
  Returns (Spec.hours_text (Spec.minutes (filter f es))).
Proof.
  intros Hs. apply hours_returns.
  pose proof (minutes_le_size (filter f es)). pose proof (size_filter f es). lia.
Qed.

(** *** The sections of the report *)

Lemma append_assoc (a b c : string) : ((a ++ b) ++ c)%string = (a ++ b ++ c)%string.
Proof. induction a as [|x a IH]; simpl; congruence. Qed.

Lemma fold_append {A} (xs l0 : list A) :
  fold_left (fun l x => l ++ [x]) xs l0 = l0 ++ xs.
Proof.
  revert l0. induction xs as [|x xs IH]; intros l0; simpl.
  - rewrite app_nil_r. reflexivity.
  - rewrite IH, <- app_assoc. reflexivity.
Qed.

Lemma fold_add_to_project (xs : list WorkEntry.t) (p0 : ReportGenerator.project_data) :
  let p := fold_left (fun v x => ReportGenerator.add_to_project x v) xs p0 in
  ReportGenerator.entries p = ReportGenerator.entries p0 ++ xs /\
  ReportGenerator.total_time p = ReportGenerator.total_time p0 + Spec.minutes xs.
Proof.
  revert p0. induction xs as [|x xs IH]; intros p0; simpl.
  - rewrite app_nil_r. split; [reflexivity | lia].
  - destruct (IH (ReportGenerator.add_to_project x p0)) as [H1 H2].
    rewrite H1, H2. simpl. rewrite <- app_assoc. split; [reflexivity | lia].
Qed.

Lemma fold_add_to_ticket (xs : list WorkEntry.t) (g0 : ReportGenerator.ticket_data) :
  let g := fold_left (fun v x => ReportGenerator.add_to_ticket x v) xs g0 in
  ReportGenerator.t_entries g = ReportGenerator.t_entries g0 ++ xs /\
  ReportGenerator.t_total_time g = ReportGenerator.t_total_time g0 + Spec.minutes xs /\
  ReportGenerator.t_details g =
    Dict.seen_from
      (filter (fun d => negb (String.eqb d "")) (map WorkEntry.details xs))
      (ReportGenerator.t_details g0).
Proof.
  revert g0. induction xs as [|x xs IH]; intros g0; simpl.
  - rewrite app_nil_r. split; [reflexivity|]. split; [lia | reflexivity].
  - destruct (IH (ReportGenerator.add_to_ticket x g0)) as [H1 [H2 H3]].
    rewrite H1, H2, H3. cbn [ReportGenerator.add_to_ticket
      ReportGenerator.t_entries ReportGenerator.t_total_time ReportGenerator.t_details].
    rewrite <- app_assoc. split; [reflexivity|]. split; [lia|].
    destruct (negb (String.eqb (WorkEntry.details x) "")); reflexivity.
Qed.

Lemma ticket_section_correct (t : string) (xs : list WorkEntry.t) :
  Z.abs (Spec.minutes xs) < 2 ^ 1000 ->
  ReportGenerator.ticket_section t
    (fold_left (fun v x => ReportGenerator.add_to_ticket x v) xs
       (ReportGenerator.mk_ticket [] 0 [])) =
  Returns (Spec.ticket_block t xs).
Proof.
  intros Hs.
  destruct (fold_add_to_ticket xs (ReportGenerator.mk_ticket [] 0 [])) as [H1 [H2 H3]].
  cbn [ReportGenerator.t_entries ReportGenerator.t_total_time
       ReportGenerator.t_details app] in H1, H2, H3.
  unfold ReportGenerator.ticket_section. rewrite H1, H2, H3, Z.add_0_l.
  rewrite hours_returns by exact Hs. reflexivity.
Qed.

Lemma group_by_ticket_sorted (es : list WorkEntry.t) :
  ReportGenerator.sorted_items (ReportGenerator.group_by_ticket es) =
  map (fun t =>
         (t, fold_left (fun v x => ReportGenerator.add_to_ticket x v)
               (Spec.of_ticket t es) (ReportGenerator.mk_ticket [] 0 [])))
      (Spec.tickets es).
Proof.
  change (ReportGenerator.group_by_ticket es)
    with (Dict.grouped WorkEntry.ticket (ReportGenerator.mk_ticket [] 0 [])
            ReportGenerator.add_to_ticket es []).
  rewrite grouped_as_map. unfold ReportGenerator.sorted_items, Spec.tickets,
    ReportGenerator.sorted_strings.
  apply (sort_by_map String.leb). reflexivity.
Qed.

Lemma project_section_correct (p : string) (es : list WorkEntry.t) :
  Spec.size es < 2 ^ 1000 ->
  ReportGenerator._create_project_section p
    (fold_left (fun v x => ReportGenerator.add_to_project x v) es
       (ReportGenerator.mk_project [] 0 [] [])) =
  Returns (Spec.project_section p es).
Proof.
  intros Hs.
  destruct (fold_add_to_project es (ReportGenerator.mk_project [] 0 [] [])) as [H1 H2].
  cbn [ReportGenerator.entries ReportGenerator.total_time app] in H1, H2.
  unfold ReportGenerator._create_project_section. rewrite H1, H2, Z.add_0_l.
  rewrite hours_returns by (pose proof (minutes_le_size es); lia).
  cbn [bind]. rewrite group_by_ticket_sorted.
  rewrite (mapM_map _ _ (fun t => Spec.ticket_block t (Spec.of_ticket t es))).
  - reflexivity.
  - apply Forall_forall. intros t _. cbn [fst snd].
    apply ticket_section_correct.
    pose proof (minutes_le_size (Spec.of_ticket t es)).
    pose proof (size_filter (fun e => String.eqb (WorkEntry.ticket e) t) es).
    unfold Spec.of_ticket in *. lia.
Qed.

Lemma group_entries_by_project_as_map (es : list WorkEntry.t) :
  ReportGenerator._group_entries_by_project es =
  map (fun p =>
         (p, fold_left (fun v x => ReportGenerator.add_to_project x v)
               (Spec.of_project p es) (ReportGenerator.mk_project [] 0 [] [])))
      (Spec.projects es).
Proof.
  change (ReportGenerator._group_entries_by_project es)
    with (Dict.grouped WorkEntry.project (ReportGenerator.mk_project [] 0 [] [])
            ReportGenerator.add_to_project es []).
  rewrite grouped_as_map. reflexivity.
Qed.

(** *** The daily breakdown *)

Lemma mapM_returns {A B} (f : A -> outcome B) (l : list A) :
  (forall a, In a l -> exists b, f a = Returns b) ->
  exists bs, mapM f l = Returns bs.
Proof.
  induction l as [|a l IH]; intros Hf; simpl.
  - exists []. reflexivity.
  - destruct (Hf a (or_introl eq_refl)) as [b Hb].
    destruct IH as [bs Hbs]; [intros x Hx; apply Hf; right; exact Hx|].
    rewrite Hb. cbn [bind]. rewrite Hbs. exists (b :: bs). reflexivity.
Qed.

Lemma appended_as_map {K} `{Key K} (key : WorkEntry.t -> K) (es : list WorkEntry.t) :
  fold_left (fun d entry => ReportGenerator.append_to (key entry) entry d) es [] =
  map (fun k => (k, filter (fun x => key_eqb (key x) k) es))
      (Spec.distinct (map key es)).
Proof.
  change (fold_left (fun d entry => ReportGenerator.append_to (key entry) entry d) es [])
    with (Dict.grouped key [] (fun x l => l ++ [x]) es []).
  rewrite grouped_as_map. apply map_ext. intros k. rewrite fold_append. reflexivity.
Qed.

Lemma get_of_map {K V} `{Key K} (g : K -> V) (ks : list K) (k : K) :
  Dict.get k (map (fun k => (k, g k)) ks) =
  if existsb (key_eqb k) ks then Some (g k) else None.
Proof.
  induction ks as [|k' ks IH]; simpl; [reflexivity|].
  destruct (key_eqb k k') eqn:E; [|exact IH].
  apply key_eqb_eq in E. subst. reflexivity.
Qed.

Lemma filter_none {A} (l : list A) : filter (fun _ => false) l = [].
Proof. induction l; simpl; auto. Qed.

Lemma daily_breakdown_returns set_order (es : list WorkEntry.t) :
  Spec.size es < 2 ^ 1000 ->
  exists daily, ReportGenerator._create_daily_breakdown set_order es = Returns daily.
Proof.
  intros Hs. unfold ReportGenerator._create_daily_breakdown. cbv zeta.
  rewrite appended_as_map.
  set (days := Spec.distinct _).
  set (daily_entries := map _ days).
  destruct (mapM_returns (ReportGenerator.day_section set_order daily_entries)
              (ReportGenerator.sorted_dates (Dict.keys daily_entries))) as [ds Hds].
  - intros day _. unfold ReportGenerator.day_section. cbv zeta.
    set (day_entries := match Dict.get day daily_entries with Some l => l | None => [] end).
    assert (Hde : exists f, day_entries = filter f es).
    { unfold day_entries, daily_entries. rewrite get_of_map.
      destruct (existsb (key_eqb day) days); [eexists; reflexivity|].
      exists (fun _ => false). symmetry. apply filter_none. }
    destruct Hde as [f Hde]. rewrite Hde.
    rewrite total_duration_minutes, hours_of_part by exact Hs. cbn [bind].
    rewrite appended_as_map.
    destruct (mapM_returns (ReportGenerator.day_project_line set_order)
                (map (fun k => (k, filter (fun x => key_eqb (WorkEntry.project x) k)
                                          (filter f es)))
                     (Spec.distinct (map WorkEntry.project (filter f es)))))
      as [ls Hls].
    + intros item Hin. apply in_map_iff in Hin. destruct Hin as [k [<- _]].
      unfold ReportGenerator.day_project_line. cbn [fst snd].
      rewrite total_duration_minutes, hours_returns.
      * cbn [bind]. eexists. reflexivity.
      * pose proof (minutes_le_size
                      (filter (fun x => key_eqb (WorkEntry.project x) k) (filter f es))).
        pose proof (size_filter (fun x => key_eqb (WorkEntry.project x) k) (filter f es)).
        pose proof (size_filter f es). lia.
    + rewrite Hls. cbn [bind]. eexists. reflexivity.
  - rewrite Hds. cbn [bind]. eexists. reflexivity.
Qed.

(** *** The report *)

Lemma report_content_correct set_order (today : Date.t) (es : list WorkEntry.t)
    (ws we : Date.t) :
  Spec.size es < 2 ^ 1000 ->
  exists daily,
    ReportGenerator._create_report_content set_order today es (Some ws) (Some we) =
    Returns (Spec.heading ws we ++ Spec.summary es ++ Spec.sections es ++
             daily ++ ReportGenerator.nl ++ "---" ++ ReportGenerator.nl)%string.
Proof.
  intros Hs. destruct (daily_breakdown_returns set_order es Hs) as [daily Hd].
  exists daily. unfold ReportGenerator._create_report_content.
  cbn [bind fst snd]. cbv zeta.
  rewrite total_duration_minutes.
  rewrite hours_returns by (pose proof (minutes_le_size es); lia).
  cbn [bind]. rewrite group_entries_by_project_as_map.
  rewrite (mapM_map _ _ (fun p => Spec.project_section p (Spec.of_project p es))).
  2:{ apply Forall_forall. intros p _. cbn [fst snd].
      apply project_section_correct.
      pose proof (size_filter (fun e => String.eqb (WorkEntry.project e) p) es).
      unfold Spec.of_project. lia. }
  cbn [bind]. rewrite Hd. cbn [bind]. rewrite length_map.
  unfold Spec.heading, Spec.summary, Spec.sections.
  rewrite !append_assoc. reflexivity.
Qed.

Lemma projects_spec (es : list WorkEntry.t) :
  NoDup (Spec.projects es) /\
  (forall p, In p (Spec.projects es) <->
             exists e, In e es /\ WorkEntry.project e = p).
Proof.
  unfold Spec.projects.
  destruct (distinct_spec (map WorkEntry.project es)) as [H1 H2].
  split; [exact H1|]. intros p. rewrite H2, in_map_iff.
  split; intros [e [Ha Hb]]; exists e; tauto.
Qed.

Lemma tickets_spec (es : list WorkEntry.t) :
  Spec.ascending (Spec.tickets es) /\
  (forall t, In t (Spec.tickets es) <->
             exists e, In e es /\ WorkEntry.ticket e = t).
Proof.
  unfold Spec.tickets.
  destruct (distinct_spec (map WorkEntry.ticket es)) as [H1 H2].
  split; [apply sorted_strings_ascending; exact H1|].
  intros t. rewrite sorted_strings_In, H2, in_map_iff.
  split; intros [e [Ha Hb]]; exists e; tauto.
Qed.

(** C3, as the code has it. For entries whose durations add up, in
    size, to less than 2^1000 minutes, the report has in its executive
    summary the total hours (the sum of the durations in minutes divided
    by 60, to one decimal place), the number of entries and the number of
    distinct projects; every project section lists the tickets of the
    project in ascending lexicographic order, each with its hours to one
    decimal place and the number of its sessions. For the entries
    (Mon, Alpha, X-1, 60), (Mon, Alpha, X-1, 30) and (Tue, Beta, Y-1, 120)
    the summary shows 3.5 hours, 3 entries and 2 projects, and the
    section of Alpha shows X-1 with 1.5 hours and 2 sessions. *)
Theorem report_summary_and_ticket_sections :
  (forall set_order (today : Date.t) (es : list WorkEntry.t) (ws we : Date.t),
     Spec.size es < 2 ^ 1000 ->
     (exists daily,
        ReportGenerator._create_report_content set_order today es (Some ws) (Some we) =
        Returns (Spec.heading ws we ++ Spec.summary es ++ Spec.sections es ++
                 daily ++ ReportGenerator.nl ++ "---" ++ ReportGenerator.nl)%string) /\
     NoDup (Spec.projects es) /\
     (forall p, In p (Spec.projects es) <->
                exists e, In e es /\ WorkEntry.project e = p) /\
     (forall p,
        Spec.ascending (Spec.tickets (Spec.of_project p es)) /\
        (forall t,
           In t (Spec.tickets (Spec.of_project p es)) <->
           exists e, In e es /\ WorkEntry.project e = p /\ WorkEntry.ticket e = t))) /\
  (forall set_order (today : Date.t),
     let mon := Datetime.mk 2024 1 1 9 0 0 0 in
     let tue := Datetime.mk 2024 1 2 9 0 0 0 in
     let es := [ WorkEntry.mk mon "X-1" "Alpha" "" 60;
                 WorkEntry.mk mon "X-1" "Alpha" "" 30;
                 WorkEntry.mk tue "Y-1" "Beta" "" 120 ] in
     exists daily,
       ReportGenerator._create_report_content set_order today es
         (Some (Date.ymd2ord 2024 1 1)) (Some (Date.ymd2ord 2024 1 7)) =
       Returns
         (Spec.lines
            [ "# Weekly Report";
              "**Week:** 01/01/2024 - 01/07/2024";
              "";
              "---";
              "";
              "## Executive Summary";
              "- **Total hours worked:** 3.5 hours";
              "- **Total entries:** 3";
              "- **Projects worked on:** 2";
              "";
              "---";
              "";
              "## Alpha";
              "**Total time:** 1.5 hours";
              "";
              "### X-1";
              "**Time spent:** 1.5 hours  ";
              "**Sessions:** 2";
              "";
              "## Beta";
              "**Total time:** 2.0 hours";
              "";
              "### Y-1";
              "**Time spent:** 2.0 hours  ";
              "**Sessions:** 1";
              "" ] ++
          daily ++ ReportGenerator.nl ++ "---" ++ ReportGenerator.nl)%string).
Proof.
  split.
  - intros set_order today es ws we Hs.
    split; [apply report_content_correct; exact Hs|].
    split; [apply projects_spec|]. split; [apply projects_spec|].
    intros p. split; [apply tickets_spec|].
    intros t. rewrite (proj2 (tickets_spec (Spec.of_project p es)) t).
    unfold Spec.of_project. split.
    + intros [e [Hin Ht]]. apply filter_In in Hin. destruct Hin as [Hin Hp].
      apply String.eqb_eq in Hp. exists e. tauto.
    + intros [e [Hin [Hp Ht]]]. exists e. split; [|exact Ht].
      apply filter_In. split; [exact Hin | apply String.eqb_eq; exact Hp].
  - intros set_order today mon tue es.
    assert (Hs : Spec.size es < 2 ^ 1000) by (vm_compute; reflexivity).
    destruct (report_content_correct set_order today es
                (Date.ymd2ord 2024 1 1) (Date.ymd2ord 2024 1 7) Hs) as [daily Hd].
    exists daily. rewrite Hd. reflexivity.
Qed.

Lemma report_summary_and_ticket_sections_witness :
  let es := [ WorkEntry.mk (Datetime.mk 2024 1 1 9 0 0 0) "X-1" "Alpha" "draft" 45;
              WorkEntry.mk (Datetime.mk 2024 1 3 9 0 0 0) "A-7" "Alpha" "" 60 ] in
  Spec.size es < 2 ^ 1000 /\
  NoDup (Spec.projects es) /\
  exists daily,
    ReportGenerator._create_report_content (fun l => l) (Date.ymd2ord 2024 1 3) es
      (Some (Date.ymd2ord 2024 1 1)) (Some (Date.ymd2ord 2024 1 7)) =
    Returns (Spec.heading (Date.ymd2ord 2024 1 1) (Date.ymd2ord 2024 1 7) ++
             Spec.summary es ++ Spec.sections es ++
             daily ++ ReportGenerator.nl ++ "---" ++ ReportGenerator.nl)%string.
Proof.
  intros es.
  assert (Hs : Spec.size es < 2 ^ 1000) by (vm_compute; reflexivity).
  split; [exact Hs|].
  destruct (proj1 report_summary_and_ticket_sections (fun l => l)
              (Date.ymd2ord 2024 1 3) es (Date.ymd2ord 2024 1 1)
              (Date.ymd2ord 2024 1 7) Hs) as [Hc [Hn _]].
  split; [exact Hn | exact Hc].
Defined.

(** C3 fails as it is written: the total of an entry of 10^400 minutes is
    too large for a float; the division by 60 raises [OverflowError] and
    there is no report. *)
Lemma report_content_overflows :
  ReportGenerator._create_report_content (fun l => l) (Date.ymd2ord 2024 1 3)
    [ WorkEntry.mk (Datetime.mk 2024 1 1 9 0 0 0) "X-1" "Alpha" "" (10 ^ 400) ]
    (Some (Date.ymd2ord 2024 1 1)) (Some (Date.ymd2ord 2024 1 7)) =
  Raises OverflowError.
Proof. vm_compute. reflexivity. Qed.

(** * Further properties of the code *)

(** ** The week of today *)

Lemma weekday_bound (today : Date.t) : 0 <= Date.weekday today <= 6.
Proof.
  unfold Date.weekday. pose proof (Z.mod_pos_bound (today + 6) 7 ltac:(lia)). lia.
Qed.

Lemma timedelta_small (n : Z) : Z.abs n <= 999999999 -> Date.timedelta n = Returns n.
Proof.
  intros Hn. unfold Date.timedelta.
  replace (Z.abs n <=? 999999999) with true by (symmetry; apply Z.leb_le; exact Hn).
  reflexivity.
Qed.

Lemma add_in_range (d delta : Z) :
  0 < d + delta <= Date.MAXORDINAL -> Date.add d delta = Returns (d + delta).
Proof.
  intros Hr. unfold Date.add. cbv zeta.
  replace ((0 <? d + delta) && (d + delta <=? Date.MAXORDINAL)) with true; [reflexivity|].
  symmetry. apply andb_true_iff. split; [apply Z.ltb_lt | apply Z.leb_le]; lia.
Qed.

Lemma add_out_of_range (d delta : Z) :
  ~ (0 < d + delta <= Date.MAXORDINAL) -> Date.add d delta = Raises OverflowError.
Proof.
  intros Hr. unfold Date.add. cbv zeta.
  destruct ((0 <? d + delta) && (d + delta <=? Date.MAXORDINAL)) eqn:E; [|reflexivity].
  apply andb_true_iff in E. destruct E as [E1 E2].
  apply Z.ltb_lt in E1. apply Z.leb_le in E2. lia.
Qed.

Lemma monday_positive (today : Date.t) : 1 <= today -> 1 <= today - Date.weekday today.
Proof.
  intros Ht. destruct (week_start_is_monday today) as [Hm Hr]. cbv zeta in Hm, Hr.
  assert (Hd : (7 | today - Date.weekday today + 6)) by (apply Z.mod_divide; [lia | exact Hm]).
  destruct Hd as [q Hq]. lia.
Qed.

Lemma current_week_in_range (today : Date.t) :
  1 <= today -> today - Date.weekday today + 6 <= Date.MAXORDINAL ->
  ReportGenerator.current_week today =
  Returns (today - Date.weekday today, today - Date.weekday today + 6).
Proof.
  intros Ht Hhi. pose proof (weekday_bound today) as Hw.
  pose proof (monday_positive today Ht) as Hm.
  unfold ReportGenerator.current_week, Date.sub.
  rewrite timedelta_small by lia. cbn [bind].
  rewrite add_in_range by (unfold Date.MAXORDINAL in *; lia). cbn [bind].
  rewrite timedelta_small by lia. cbn [bind].
  replace (today + - Date.weekday today) with (today - Date.weekday today) by lia.
  rewrite add_in_range by lia. reflexivity.
Qed.

(** X1. With an offset of 0 [get_week_entries_with_offset] does what
    [get_current_week_entries] does, an [OverflowError] included: the two
    branches of [generate_weekly_report] agree where they meet. *)
Theorem offset_zero_is_current_week :
  forall (today : Date.t) (s : AppState.t),
    AppState.get_week_entries_with_offset today 0 s =
    AppState.get_current_week_entries today s.
Proof.
  intros today s. pose proof (weekday_bound today) as Hw.
  unfold AppState.get_week_entries_with_offset, AppState.get_current_week_entries,
    Date.sub.
  rewrite timedelta_small by lia. cbn [bind].
  destruct (Date.add today (- Date.weekday today)) as [monday| |] eqn:E;
    cbn [bind]; try reflexivity.
  change (7 * 0) with 0. rewrite timedelta_small by lia. cbn [bind].
  assert (Hm : 0 < monday <= Date.MAXORDINAL).
  { unfold Date.add in E. cbv zeta in E.
    destruct ((0 <? today + - Date.weekday today) &&
              (today + - Date.weekday today <=? Date.MAXORDINAL)) eqn:C;
      [|discriminate].
    injection E as <-. apply andb_true_iff in C. destruct C as [C1 C2].
    apply Z.ltb_lt in C1. apply Z.leb_le in C2. lia. }
  rewrite (add_in_range monday 0) by lia. cbn [bind].
  rewrite Z.add_0_r. reflexivity.
Qed.

(** X2. On a day of the calendar, [get_current_week_entries] returns
    exactly the entries dated from the Monday to the Sunday of the week
    of today, those of today among them; in the last days of the year
    9999, whose Sunday the calendar does not have, it raises
    [OverflowError]. *)
Theorem current_week_entries_cover_today :
  forall (s : AppState.t) (today : Date.t),
    Date.MINORDINAL <= today <= Date.MAXORDINAL ->
    let monday := today - Date.weekday today in
    (monday + 6 <= Date.MAXORDINAL ->
     exists l,
       AppState.get_current_week_entries today s = Returns l /\
       (forall e,
          In e l <->
          In e (AppState.work_entries s) /\
          monday <= Datetime.date (WorkEntry.timestamp e) <= monday + 6) /\
       (forall e,
          In e (AppState.work_entries s) ->
          Datetime.date (WorkEntry.timestamp e) = today -> In e l)) /\
    (Date.MAXORDINAL < monday + 6 ->
     AppState.get_current_week_entries today s = Raises OverflowError).
Proof.
  intros s today Ht monday. unfold Date.MINORDINAL in Ht.
  pose proof (weekday_bound today) as Hw.
  pose proof (monday_positive today ltac:(lia)) as Hm. fold monday in Hm.
  assert (Hstart : forall k : Date.t -> outcome (list WorkEntry.t),
            (back <- Date.timedelta (Date.weekday today) ;;
             week_start <- Date.sub today back ;; k week_start) = k monday).
  { intros k. rewrite timedelta_small by lia. cbn [bind]. unfold Date.sub.
    rewrite add_in_range by (unfold monday in Hm; lia). cbn [bind].
    f_equal; unfold monday; lia. }
  unfold AppState.get_current_week_entries. rewrite Hstart.
  rewrite timedelta_small by lia. cbn [bind]. split.
  - intros Hhi. rewrite add_in_range by lia. cbn [bind].
    assert (Hmem : forall e,
              In e (AppState.entries_between monday (monday + 6) s) <->
              In e (AppState.work_entries s) /\
              monday <= Datetime.date (WorkEntry.timestamp e) <= monday + 6).
    { intros e. unfold AppState.entries_between.
      rewrite filter_In, andb_true_iff, !Z.leb_le. tauto. }
    eexists. split; [reflexivity|]. split; [exact Hmem|].
    intros e He Hd. apply Hmem. split; [exact He|]. unfold monday. lia.
  - intros Hhi. rewrite add_out_of_range by lia. reflexivity.
Qed.

Lemma current_week_entries_cover_today_witness :
  let e := WorkEntry.mk (Datetime.mk 2024 1 10 8 0 0 0) "X-1" "Alpha" "" 60 in
  let s := AppState.mk None None None None [e] [] in
  let today := Date.ymd2ord 2024 1 10 in
  Date.MINORDINAL <= today <= Date.MAXORDINAL /\
  exists l, AppState.get_current_week_entries today s = Returns l /\ In e l.
Proof.
  intros e s today.
  assert (H : Date.MINORDINAL <= today <= Date.MAXORDINAL)
    by (vm_compute; split; discriminate).
  split; [exact H|].
  destruct (proj1 (current_week_entries_cover_today s today H))
    as [l [Hl [_ Htoday]]].
  - vm_compute. discriminate.
  - exists l. split; [exact Hl|]. apply Htoday; [left; reflexivity | reflexivity].
Defined.

(** ** Detection and letter case *)

(** X3. Two tickets that differ in letter case only are detected
    alike: [auto_detect_project] sees a ticket through [lower] alone. *)
Theorem auto_detect_project_by_lower_case :
  forall lower (s : AppState.t) (t1 t2 : string),
    lower t1 = lower t2 ->
    AppState.auto_detect_project lower t1 s = AppState.auto_detect_project lower t2 s.
Proof.
  intros lower s t1 t2 Hl. unfold AppState.auto_detect_project.
  induction (AppState.project_mappings s) as [|[p m] d IH]; simpl; [reflexivity|].
  unfold AppState.matches. rewrite Hl, IH; reflexivity.
Qed.

Lemma auto_detect_project_by_lower_case_witness :
  let s := AppState.mk None None None None []
             [("Alpha", ProjectMapping.mk ["Bug"] "Alpha")] in
  Py.lower_ascii "bug-7" = Py.lower_ascii "BUG-7" /\
  AppState.auto_detect_project Py.lower_ascii "bug-7" s = Some "Alpha".
Proof.
  intros s. split; [reflexivity|].
  rewrite (auto_detect_project_by_lower_case Py.lower_ascii s "bug-7" "BUG-7" eq_refl).
  reflexivity.
Defined.

(** ** What the store keeps true *)

Lemma In_get {V} (k : string) (v : V) (d : Dict.t string V) :
  NoDup (Dict.keys d) -> In (k, v) d -> Dict.get k d = Some v.
Proof.
  induction d as [|[k' v'] d IH]; simpl; intros Hnd Hin; [contradiction|].
  inversion Hnd as [|? ? Hn Hnd']; subst.
  destruct Hin as [[= -> ->]|Hin].
  - rewrite String.eqb_refl. reflexivity.
  - destruct (String.eqb_spec k k') as [->|_]; [|apply IH; assumption].
    exfalso. apply Hn. apply (in_map fst) in Hin. exact Hin.
Qed.

Lemma keys_filter {V} (test : string -> bool) (d : Dict.t string V) :
  Dict.keys (filter (fun kv => test (fst kv)) d) = filter test (Dict.keys d).
Proof.
  induction d as [|[k v] d IH]; simpl; [reflexivity|].
  destruct (test k); simpl; rewrite IH; reflexivity.
Qed.

Lemma NoDup_filter_keys (test : string -> bool) (l : list string) :
  NoDup l -> NoDup (filter test l).
Proof.
  induction 1 as [|x l Hn Hnd IH]; simpl; [constructor|].
  destruct (test x); [|exact IH]. constructor; [|exact IH].
  intros Hin. apply filter_In in Hin. tauto.
Qed.

Lemma add_work_entry_keeps_rules now ticket project details (s : AppState.t) :
  Spec.store_rules s ->
  Spec.store_rules (AppState.add_work_entry now ticket project details s).
Proof.
  intros [Hk [Hm He]].
  set (s' := AppState.add_work_entry now ticket project details s).
  assert (Hpat : forall q, incl (Spec.patterns_of q s) (Spec.patterns_of q s')).
  { intros q x Hx. destruct (String.eqb_spec q project) as [->|Hne].
    - unfold s'. rewrite add_work_entry_patterns.
      destruct (Py.mem _ _); [exact Hx | apply in_or_app; left; exact Hx].
    - unfold Spec.patterns_of, s'.
      rewrite add_work_entry_other_projects by exact Hne. exact Hx. }
  split; [|split].
  - unfold s', AppState.add_work_entry. cbn [AppState.project_mappings].
    rewrite keys_modify, keys_setdefault, mem_keys.
    destruct (existsb _ _) eqn:E; [exact Hk|].
    apply NoDup_app; [exact Hk | repeat constructor; simpl; tauto |].
    intros x Hx [Heq|[]]. subst x.
    assert (Hin : existsb (key_eqb project)
                    (Dict.keys (AppState.project_mappings s)) = true)
      by (apply existsb_key_In; exact Hx).
    congruence.
  - intros k m. unfold s', AppState.add_work_entry. cbn [AppState.project_mappings].
    rewrite get_modify. destruct (key_eqb k project) eqn:E.
    + apply key_eqb_eq in E. subst k.
      rewrite get_setdefault, key_eqb_refl.
      destruct (Dict.get project (AppState.project_mappings s)) as [m0|] eqn:G;
        cbn [option_map]; intros [= <-].
      * destruct (Hm _ _ G) as [Hn Hd].
        destruct (Py.mem _ _) eqn:M; [split; assumption|].
        cbn [ProjectMapping.name ProjectMapping.ticket_patterns]. split; [exact Hn|].
        apply NoDup_app; [exact Hd | repeat constructor; simpl; tauto |].
        intros x Hx [Heq|[]]. subst x. apply mem_In in Hx. congruence.
      * cbn [ProjectMapping.ticket_patterns Py.mem existsb app ProjectMapping.name].
        split; [reflexivity | repeat constructor; simpl; tauto].
    + rewrite get_setdefault, E.
      destruct (Dict.get k (AppState.project_mappings s)) as [m0|] eqn:G;
        [|discriminate].
      intros [= <-]. apply Hm. exact G.
  - intros e Hin. unfold s', AppState.add_work_entry in Hin.
    cbn [AppState.work_entries] in Hin. apply in_app_or in Hin.
    destruct Hin as [Hin|[<-|[]]].
    + destruct (He e Hin) as [Hd Hp]. split; [exact Hd | apply Hpat; exact Hp].
    + cbn [WorkEntry.duration WorkEntry.ticket WorkEntry.project].
      split; [reflexivity|]. unfold s'. rewrite add_work_entry_patterns.
      destruct (Py.mem _ _) eqn:M.
      * apply mem_In. exact M.
      * apply in_or_app. right. left. reflexivity.
Qed.

Lemma test_entry_of_test_project lower (e : WorkEntry.t) :
  DataManager.is_test_project lower (WorkEntry.project e) = true ->
  DataManager.is_test_entry lower e = true.
Proof.
  intros H. apply is_test_entry_spec. right. left.
  apply is_test_project_spec. exact H.
Qed.

Lemma get_filter_keys_dropped {V} (test : string -> bool) (k : string)
    (d : Dict.t string V) :
  test k = false -> Dict.get k (filter (fun kv => test (fst kv)) d) = None.
Proof.
  intros Hk. induction d as [|[k' v] d IH]; simpl; [reflexivity|].
  destruct (test k') eqn:E; simpl; [|exact IH].
  destruct (String.eqb_spec k k') as [->|_]; [congruence | exact IH].
Qed.

Lemma without_test_data_keeps_rules lower (s : AppState.t) :
  Spec.store_rules s -> Spec.store_rules (DataManager.without_test_data lower s).
Proof.
  intros [Hk [Hm He]].
  assert (Hmaps : AppState.project_mappings (DataManager.without_test_data lower s) =
            filter (fun kv => negb (DataManager.is_test_project lower (fst kv)))
                   (AppState.project_mappings s)).
  { unfold DataManager.without_test_data. cbn [AppState.project_mappings].
    apply del_keys_filter. }
  split; [|split].
  - rewrite Hmaps,
      (keys_filter (fun k => negb (DataManager.is_test_project lower k))).
    apply NoDup_filter_keys. exact Hk.
  - intros k m. rewrite Hmaps.
    destruct (DataManager.is_test_project lower k) eqn:T.
    + rewrite (get_filter_keys_dropped
                 (fun k => negb (DataManager.is_test_project lower k)))
        by (rewrite T; reflexivity).
      discriminate.
    + rewrite (get_filter_keys
                 (fun k => negb (DataManager.is_test_project lower k)))
        by (rewrite T; reflexivity).
      apply Hm.
  - intros e Hin. unfold DataManager.without_test_data in Hin.
    cbn [AppState.work_entries] in Hin. apply filter_In in Hin.
    destruct Hin as [Hin Hnt]. apply negb_true_iff in Hnt.
    destruct (He e Hin) as [Hd Hp]. split; [exact Hd|].
    unfold Spec.patterns_of. rewrite Hmaps.
    rewrite (get_filter_keys
               (fun k => negb (DataManager.is_test_project lower k))); [exact Hp|].
    apply negb_true_iff.
    destruct (DataManager.is_test_project lower (WorkEntry.project e)) eqn:T;
      [|reflexivity].
    apply test_entry_of_test_project in T. congruence.
Qed.

Lemma step_keeps_rules lower (o : DataManager.op) (self : DataManager.t)
    (s : AppState.t) :
  DataManager.app_state self = Some s ->
  Spec.store_rules s ->
  exists self' s',
    DataManager.step lower o self = Returns self' /\
    DataManager.app_state self' = Some s' /\
    Spec.store_rules s'.
Proof.
  intros E Hs. destruct o as [now t p d | t p d | |]; simpl.
  - unfold DataManager.add_work_entry. rewrite E.
    eexists _, _. split; [reflexivity|]. rewrite save_keeps_state.
    split; [reflexivity|]. apply add_work_entry_keeps_rules. exact Hs.
  - unfold DataManager.update_current_work. rewrite E.
    eexists _, _. split; [reflexivity|]. rewrite save_keeps_state.
    split; [reflexivity|]. destruct t, p, d; exact Hs.
  - unfold DataManager.stop_current_work. rewrite E.
    eexists _, _. split; [reflexivity|]. rewrite save_keeps_state.
    split; [reflexivity|]. exact Hs.
  - rewrite (cleanup_test_data_result lower self s E). cbv zeta. cbn [fst].
    eexists _, _. split; [reflexivity|]. split.
    + destruct (0 <? _); [rewrite save_keeps_state|]; reflexivity.
    + apply without_test_data_keeps_rules. exact Hs.
Qed.

Lemma run_keeps_rules lower (ops : list DataManager.op) :
  forall (self : DataManager.t) (s : AppState.t),
    DataManager.app_state self = Some s ->
    Spec.store_rules s ->
    exists self' s',
      DataManager.run lower ops self = Returns self' /\
      DataManager.app_state self' = Some s' /\
      Spec.store_rules s'.
Proof.
  induction ops as [|o ops IH]; intros self s E Hs.
  - exists self, s. split; [reflexivity|]. split; assumption.
  - destruct (step_keeps_rules lower o self s E Hs) as [self1 [s1 [H1 [E1 Hs1]]]].
    cbn [DataManager.run]. rewrite H1. cbn [bind]. eapply IH; eassumption.
Qed.

Lemma default_rules : Spec.store_rules AppState.default.
Proof.
  split; [constructor|]. split.
  - intros k m H. discriminate.
  - intros e [].
Qed.

(** X4. Whatever the store does from the default state on, its
    mappings stay in order: no project has two mappings, every mapping
    carries the name it is filed under and holds no pattern twice. *)
Theorem mappings_stay_tidy :
  forall lower (f : Disk.t) (ops : list DataManager.op),
    exists self' s',
      DataManager.run lower ops (DataManager.mk f (Some AppState.default)) =
        Returns self' /\
      DataManager.app_state self' = Some s' /\
      Spec.tidy_mappings s'.
Proof.
  intros lower f ops.
  destruct (run_keeps_rules lower ops (DataManager.mk f (Some AppState.default))
              AppState.default eq_refl default_rules) as [self' [s' [H [E [Hk [Hm _]]]]]].
  exists self', s'. split; [exact H|]. split; [exact E|]. split; [exact Hk|].
  intros k m Hin. apply Hm. apply In_get; assumption.
Qed.

(** X5. Whatever the store does from the default state on, every entry
    that it holds lasts 60 minutes, and the project of the entry has a
    mapping that holds the prefix of its ticket. *)
Theorem entries_stay_known :
  forall lower (f : Disk.t) (ops : list DataManager.op),
    exists self' s',
      DataManager.run lower ops (DataManager.mk f (Some AppState.default)) =
        Returns self' /\
      DataManager.app_state self' = Some s' /\
      Spec.entries_known s'.
Proof.
  intros lower f ops.
  destruct (run_keeps_rules lower ops (DataManager.mk f (Some AppState.default))
              AppState.default eq_refl default_rules) as [self' [s' [H [E [_ [_ He]]]]]].
  exists self', s'. split; [exact H|]. split; [exact E | exact He].
Qed.

Lemma known_ticket_detected lower (s : AppState.t) (e : WorkEntry.t) :
  Spec.distributes lower ->
  In (AppState.ticket_prefix (WorkEntry.ticket e))
     (Spec.patterns_of (WorkEntry.project e) s) ->
  exists q, AppState.auto_detect_project lower (WorkEntry.ticket e) s = Some q.
Proof.
  intros Hl Hin. unfold Spec.patterns_of in Hin.
  destruct (Dict.get (WorkEntry.project e) (AppState.project_mappings s))
    as [m|] eqn:G; [|contradiction].
  apply get_In in G.
  assert (Hsub : Spec.is_substring
                   (lower (AppState.ticket_prefix (WorkEntry.ticket e)))
                   (lower (WorkEntry.ticket e))).
  { destruct (ticket_prefix_spec (WorkEntry.ticket e)) as [H1 H2].
    set (px := AppState.ticket_prefix (WorkEntry.ticket e)) in *.
    destruct (Py.contains "-" (WorkEntry.ticket e)) eqn:C.
    - destruct (H1 eq_refl) as [rest [Heq _]].
      exists ""%string, (lower ("-" ++ rest)%string).
      rewrite Heq, Hl. reflexivity.
    - destruct (H2 eq_refl) as [rest [Heq _]]. exists ""%string, (lower rest).
      rewrite Heq, Hl. reflexivity. }
  pose proof (first_match_spec lower (WorkEntry.ticket e)
                (AppState.project_mappings s)) as Hf.
  unfold AppState.auto_detect_project.
  destruct (AppState.first_match lower (WorkEntry.ticket e)
              (AppState.project_mappings s)) as [q|].
  - exists q. reflexivity.
  - exfalso. rewrite Forall_forall in Hf. apply (Hf _ G). simpl.
    eexists. split; [exact Hin | exact Hsub].
Qed.

(** X6. When lower-casing goes through a text piece by piece, the store
    never forgets a ticket that it holds: from the default state on,
    [auto_detect_project] finds a project for the ticket of every entry
    in [work_entries]. *)
Theorem logged_tickets_are_detected :
  forall lower (f : Disk.t) (ops : list DataManager.op),
    Spec.distributes lower ->
    exists self' s',
      DataManager.run lower ops (DataManager.mk f (Some AppState.default)) =
        Returns self' /\
      DataManager.app_state self' = Some s' /\
      forall e,
        In e (AppState.work_entries s') ->
        exists q, AppState.auto_detect_project lower (WorkEntry.ticket e) s' = Some q.
Proof.
  intros lower f ops Hl.
  destruct (run_keeps_rules lower ops (DataManager.mk f (Some AppState.default))
              AppState.default eq_refl default_rules) as [self' [s' [H [E [_ [_ He]]]]]].
  exists self', s'. split; [exact H|]. split; [exact E|].
  intros e Hin. apply known_ticket_detected; [exact Hl|]. apply He. exact Hin.
Qed.

Lemma lower_ascii_distributes : Spec.distributes Py.lower_ascii.
Proof.
  intros a b. induction a as [|c a IH]; simpl; [reflexivity|].
  rewrite IH. reflexivity.
Qed.

Lemma logged_tickets_are_detected_witness :
  Spec.distributes Py.lower_ascii /\
  exists self' s',
    DataManager.run Py.lower_ascii
      [ DataManager.AddWorkEntry (Datetime.mk 2024 1 3 9 0 0 0) "BUG-42" "Alpha" "";
        DataManager.AddWorkEntry (Datetime.mk 2024 1 3 10 0 0 0) "ab" "Beta" "";
        DataManager.CleanupTestData ]
      (DataManager.mk (Disk.mk None None None) (Some AppState.default)) =
      Returns self' /\
    DataManager.app_state self' = Some s' /\
    forall e,
      In e (AppState.work_entries s') ->
      exists q,
        AppState.auto_detect_project Py.lower_ascii (WorkEntry.ticket e) s' = Some q.
Proof.
  split; [exact lower_ascii_distributes|].
  exact (logged_tickets_are_detected Py.lower_ascii (Disk.mk None None None) _
           lower_ascii_distributes).
Defined.

(** ** What is saved can be loaded *)

Lemma state_round_trip (s : AppState.t) :
  Spec.well_formed s -> AppState.from_dict (AppState.to_dict s) = Returns s.
Proof.
  intros [Hla [Hes Hnd]]. destruct s as [ct cp cd la es ms].
  cbn [AppState.last_activity AppState.work_entries AppState.project_mappings] in *.
  unfold AppState.from_dict, AppState.to_dict.
  cbn [AppState.current_ticket AppState.current_project AppState.current_details
       AppState.last_activity AppState.work_entries AppState.project_mappings].
  cbn [Obj.get Obj.getitem Dict.get key_eqb string_key String.eqb Ascii.eqb Bool.eqb bind].
  destruct la as [d|].
  - assert (Ht : Obj.truthy (PStr (Datetime.isoformat d)) = true) by reflexivity.
    rewrite Ht. cbn [bind Obj.fromisoformat].
    rewrite fromisoformat_isoformat by (apply Hla; reflexivity).
    cbn [bind Obj.iter].
    rewrite (mapM_map WorkEntry.from_dict WorkEntry.to_dict (fun e => e))
      by (eapply Forall_impl; [|exact Hes]; intros e He;
          apply work_entry_round_trip; exact He).
    rewrite map_id. cbn [bind Obj.items].
    rewrite dict_of_distinct by (rewrite map_map; exact Hnd).
    rewrite (mapM_map
               (fun kv => m <- ProjectMapping.from_dict (snd kv) ;; Returns (fst kv, m))
               (fun kv => (fst kv, ProjectMapping.to_dict (snd kv)))
               (fun kv => kv))
      by (apply Forall_forall; intros [k m] _; cbn [fst snd];
          rewrite project_mapping_round_trip; reflexivity).
    rewrite map_id. cbn [bind]. rewrite dict_of_distinct by exact Hnd.
    destruct ct, cp, cd; reflexivity.
  - cbn [Obj.truthy bind Obj.iter].
    rewrite (mapM_map WorkEntry.from_dict WorkEntry.to_dict (fun e => e))
      by (eapply Forall_impl; [|exact Hes]; intros e He;
          apply work_entry_round_trip; exact He).
    rewrite map_id. cbn [bind Obj.items].
    rewrite dict_of_distinct by (rewrite map_map; exact Hnd).
    rewrite (mapM_map
               (fun kv => m <- ProjectMapping.from_dict (snd kv) ;; Returns (fst kv, m))
               (fun kv => (fst kv, ProjectMapping.to_dict (snd kv)))
               (fun kv => kv))
      by (apply Forall_forall; intros [k m] _; cbn [fst snd];
          rewrite project_mapping_round_trip; reflexivity).
    rewrite map_id. cbn [bind]. rewrite dict_of_distinct by exact Hnd.
    destruct ct, cp, cd; reflexivity.
Qed.

Lemma load_of_document (f : Disk.t) (s : AppState.t) :
  Disk.data_file f = Some (Disk.Document (AppState.to_dict s)) ->
  Spec.well_formed s ->
  DataManager.init f = Returns (DataManager.mk f (Some s)).
Proof.
  intros Hf Hw. unfold DataManager.init, DataManager._load_data.
  cbn [DataManager.files]. rewrite Hf. cbn [Disk.json_load bind].
  rewrite state_round_trip by exact Hw. reflexivity.
Qed.

Lemma load_after_save (f : Disk.t) (s : AppState.t) :
  Spec.well_formed s ->
  DataManager.init (DataManager.files (DataManager._save_data (DataManager.mk f (Some s)))) =
  Returns (DataManager._save_data (DataManager.mk f (Some s))).
Proof.
  intros Hw.
  rewrite (load_of_document _ s) by (try apply save_writes_state; exact Hw).
  f_equal. unfold DataManager._save_data. cbn [DataManager.files DataManager.app_state].
  destruct (Disk.data_file f); reflexivity.
Qed.

Lemma default_well_formed : Spec.well_formed AppState.default.
Proof. split; [intros d H; discriminate|]. split; constructor. Qed.

Lemma add_work_entry_well_formed now ticket project details (s : AppState.t) :
  Datetime.valid now = true ->
  Spec.well_formed s ->
  Spec.well_formed (AppState.add_work_entry now ticket project details s).
Proof.
  intros Hv [Hla [Hes Hnd]]. split; [|split].
  - intros d [= <-]. exact Hv.
  - unfold AppState.add_work_entry. cbn [AppState.work_entries].
    apply Forall_app. split; [exact Hes|]. repeat constructor. exact Hv.
  - unfold AppState.add_work_entry. cbn [AppState.project_mappings].
    rewrite keys_modify, keys_setdefault, mem_keys.
    destruct (existsb _ _) eqn:E; [exact Hnd|].
    apply NoDup_app; [exact Hnd | repeat constructor; simpl; tauto |].
    intros x Hx [Heq|[]]. subst x.
    assert (Hin : existsb (key_eqb project)
                    (Dict.keys (AppState.project_mappings s)) = true)
      by (apply existsb_key_In; exact Hx).
    congruence.
Qed.

Lemma without_test_data_well_formed lower (s : AppState.t) :
  Spec.well_formed s -> Spec.well_formed (DataManager.without_test_data lower s).
Proof.
  intros [Hla [Hes Hnd]]. split; [|split].
  - unfold DataManager.without_test_data. cbn [AppState.last_activity].
    destruct (DataManager.is_test_current lower s); [discriminate | exact Hla].
  - unfold DataManager.without_test_data. cbn [AppState.work_entries].
    rewrite Forall_forall in *. intros e He. apply filter_In in He. apply Hes, He.
  - unfold DataManager.without_test_data. cbn [AppState.project_mappings].
    rewrite del_keys_filter,
      (keys_filter (fun k => negb (DataManager.is_test_project lower k))).
    apply NoDup_filter_keys. exact Hnd.
Qed.

(** X7. What an operation saves is what a later start loads: after
    [add_work_entry], [update_current_work], [stop_current_work], or a
    [cleanup_test_data] that removed an entry, a [DataManager] made from
    the files left behind holds the state that the first one held. *)
Theorem saved_state_loads_back :
  forall lower (o : DataManager.op) (self self' : DataManager.t) (s : AppState.t),
    DataManager.app_state self = Some s ->
    Spec.well_formed s ->
    Spec.timely o ->
    Spec.saves lower o self ->
    DataManager.step lower o self = Returns self' ->
    DataManager.init (DataManager.files self') = Returns self'.
Proof.
  intros lower o self self' s E Hw Ht Hsv Hstep.
  destruct self as [f st]. cbn [DataManager.app_state] in E. subst st.
  destruct o as [now t p d | t p d | |]; cbn [DataManager.step] in Hstep.
  - unfold DataManager.add_work_entry in Hstep. cbn in Hstep.
    injection Hstep as <-. apply load_after_save.
    apply add_work_entry_well_formed; assumption.
  - unfold DataManager.update_current_work in Hstep.
    cbn [DataManager.app_state] in Hstep. injection Hstep as <-.
    apply load_after_save. destruct Hw as [Hla [Hes Hnd]].
    destruct t, p, d; (split; [exact Hla | split; [exact Hes | exact Hnd]]).
  - unfold DataManager.stop_current_work in Hstep.
    cbn [DataManager.app_state] in Hstep. injection Hstep as <-.
    apply load_after_save. destruct Hw as [Hla [Hes Hnd]].
    split; [exact Hla | split; [exact Hes | exact Hnd]].
  - cbn [Spec.saves] in Hsv.
    rewrite (cleanup_test_data_result lower (DataManager.mk f (Some s)) s eq_refl)
      in Hstep, Hsv.
    cbv zeta in Hstep, Hsv. cbn [fst snd] in Hstep, Hsv.
    apply Z.ltb_lt in Hsv. rewrite Hsv in Hstep. injection Hstep as <-.
    apply load_after_save. apply without_test_data_well_formed. exact Hw.
Qed.

Lemma saved_state_loads_back_witness :
  let now := Datetime.mk 2024 1 3 9 0 0 0 in
  let o := DataManager.AddWorkEntry now "BUG-42" "Alpha" "" in
  let self := DataManager.mk (Disk.mk None None None) (Some AppState.default) in
  DataManager.app_state self = Some AppState.default /\
  Spec.well_formed AppState.default /\
  Spec.timely o /\
  Spec.saves Py.lower_ascii o self /\
  exists self',
    DataManager.step Py.lower_ascii o self = Returns self' /\
    DataManager.init (DataManager.files self') = Returns self'.
Proof.
  intros now o self.
  split; [reflexivity|]. split; [exact default_well_formed|].
  split; [reflexivity|]. split; [exact I|].
  eexists. split; [reflexivity|].
  exact (saved_state_loads_back Py.lower_ascii o self _ AppState.default
           eq_refl default_well_formed eq_refl I eq_refl).
Defined.

(** X8. Starting twice is starting once: when [DataManager()] returns,
    be it with a state loaded, made afresh for a missing file, or made
    afresh after a file was moved to the backup, a second [DataManager()]
    over the files it left returns the same store and changes no
    file. *)
Theorem second_start_changes_nothing :
  forall (f : Disk.t) (dm : DataManager.t),
    DataManager.init f = Returns dm ->
    DataManager.init (DataManager.files dm) = Returns dm.
Proof.
  intros f dm H. unfold DataManager.init, DataManager._load_data in H.
  cbn [DataManager.files] in H.
  destruct (Disk.data_file f) as [c|] eqn:Ef.
  - destruct (data <- Disk.json_load c ;; AppState.from_dict data)
      as [s|e|] eqn:El; [| |discriminate].
    + injection H as <-. cbn [DataManager.with_state DataManager.files].
      unfold DataManager.init, DataManager._load_data. cbn [DataManager.files].
      rewrite Ef, El. reflexivity.
    + destruct (DataManager.caught e); [|discriminate].
      injection H as <-. apply load_after_save. exact default_well_formed.
  - injection H as <-. apply (load_after_save f AppState.default).
    exact default_well_formed.
Qed.

Lemma second_start_changes_nothing_witness :
  let f := Disk.mk (Some (Disk.Malformed "{")) None None in
  exists dm,
    DataManager.init f = Returns dm /\
    DataManager.init (DataManager.files dm) = Returns dm /\
    Disk.backup_file (DataManager.files dm) = Some (Disk.Malformed "{").
Proof.
  intros f. eexists. split; [reflexivity|]. split; [|reflexivity].
  exact (second_start_changes_nothing f _ eq_refl).
Defined.

(** ** Cleaning twice *)

Lemma without_test_data_twice lower (s : AppState.t) :
  DataManager.without_test_data lower (DataManager.without_test_data lower s) =
  DataManager.without_test_data lower s.
Proof.
  assert (Hc : DataManager.is_test_current lower
                 (DataManager.without_test_data lower s) = false).
  { unfold DataManager.without_test_data.
    destruct (DataManager.is_test_current lower s) eqn:E; [reflexivity|].
    unfold DataManager.is_test_current in *.
    cbn [AppState.current_ticket AppState.current_project]. exact E. }
  unfold DataManager.without_test_data at 1. rewrite Hc.
  unfold DataManager.without_test_data.
  cbn [AppState.current_ticket AppState.current_project AppState.current_details
       AppState.last_activity AppState.work_entries AppState.project_mappings].
  rewrite filter_twice. f_equal.
  rewrite !del_keys_filter. apply filter_twice.
Qed.

(** X9. A second [cleanup_test_data] right after a first changes
    nothing: neither the state in memory nor any file. *)
Theorem second_cleanup_changes_nothing :
  forall lower (self : DataManager.t),
    let once := fst (DataManager.cleanup_test_data lower self) in
    fst (DataManager.cleanup_test_data lower once) = once.
Proof.
  intros lower self once.
  destruct (DataManager.app_state self) as [s|] eqn:E.
  - assert (Ho : DataManager.app_state once =
                 Some (DataManager.without_test_data lower s)).
    { unfold once. rewrite (cleanup_test_data_result lower self s E).
      cbv zeta. cbn [fst]. destruct (0 <? _); [rewrite save_keeps_state|]; reflexivity. }
    rewrite (cleanup_test_data_result lower once _ Ho). cbv zeta. cbn [fst].
    rewrite without_test_data_twice, Z.sub_diag. cbn [Z.ltb Z.compare].
    destruct once as [fo so]. cbn [DataManager.app_state] in Ho. subst so.
    reflexivity.
  - unfold once, DataManager.cleanup_test_data. rewrite E. cbn [fst].
    rewrite E. reflexivity.
Qed.

(** ** The sample entry of check_status.py *)

Lemma filter_set_dropped {V} (test : string -> bool) (k : string) (v : V)
    (d : Dict.t string V) :
  test k = false ->
  filter (fun kv => test (fst kv)) (Dict.set k v d) =
  filter (fun kv => test (fst kv)) d.
Proof.
  intros Hk. induction d as [|[k' v'] d IH]; simpl.
  - rewrite Hk. reflexivity.
  - destruct (String.eqb_spec k k') as [->|_]; simpl.
    + rewrite Hk. reflexivity.
    + rewrite IH. reflexivity.
Qed.

Lemma filter_add_work_entry_dropped (test : string -> bool) now ticket project
    details (s : AppState.t) :
  test project = false ->
  filter (fun kv => test (fst kv))
    (AppState.project_mappings (AppState.add_work_entry now ticket project details s)) =
  filter (fun kv => test (fst kv)) (AppState.project_mappings s).
Proof.
  intros Hp. unfold AppState.add_work_entry. cbn [AppState.project_mappings].
  unfold Dict.modify, Dict.setdefault.
  destruct (Dict.mem project (AppState.project_mappings s)).
  - destruct (Dict.get project (AppState.project_mappings s));
      [apply filter_set_dropped; exact Hp | reflexivity].
  - destruct (Dict.get project (Dict.set project _ (AppState.project_mappings s)));
      rewrite ?filter_set_dropped by exact Hp; reflexivity.
Qed.

(** X10. The sample entry that [check_status.py add] records is taken
    away by [check_status.py cleanup]: run one after the other on a
    saved state, the second reports at least one entry removed and leaves
    on disk the entries and mappings of that state that carry no marker;
    the current work and [last_activity] are not put back, they are
    cleared. *)
Theorem sample_work_is_cleaned_up :
  forall (f : Disk.t) (s : AppState.t) (now : Datetime.t),
    Disk.data_file f = Some (Disk.Document (AppState.to_dict s)) ->
    Spec.well_formed s ->
    Datetime.valid now = true ->
    exists f1 f2 n,
      CheckStatus.add_sample_work now f = Returns f1 /\
      CheckStatus.cleanup_test_data Py.lower_ascii f1 = Returns (f2, Some n) /\
      1 <= n /\
      Disk.data_file f2 =
        Some (Disk.Document
                (AppState.to_dict
                   (AppState.mk None None None None
                      (filter (fun e => negb (DataManager.is_test_entry Py.lower_ascii e))
                              (AppState.work_entries s))
                      (filter (fun kv =>
                                 negb (DataManager.is_test_project Py.lower_ascii (fst kv)))
                              (AppState.project_mappings s))))).
Proof.
  intros f s now Hf Hw Hv.
  set (sa := AppState.add_work_entry now "TEST-123" "Test Project"
               "Sample entry added via script" s).
  assert (Hwa : Spec.well_formed sa)
    by (apply add_work_entry_well_formed; assumption).
  set (dm1 := DataManager._save_data (DataManager.mk f (Some sa))).
  assert (H1 : CheckStatus.add_sample_work now f = Returns (DataManager.files dm1)).
  { unfold CheckStatus.add_sample_work.
    rewrite (load_of_document f s Hf Hw). reflexivity. }
  assert (Hl : DataManager.init (DataManager.files dm1) = Returns dm1)
    by (apply load_after_save; exact Hwa).
  assert (Ha : DataManager.app_state dm1 = Some sa)
    by (unfold dm1; rewrite save_keeps_state; reflexivity).
  assert (Hs2 : DataManager.without_test_data Py.lower_ascii sa =
            AppState.mk None None None None
              (filter (fun e => negb (DataManager.is_test_entry Py.lower_ascii e))
                      (AppState.work_entries s))
              (filter (fun kv =>
                         negb (DataManager.is_test_project Py.lower_ascii (fst kv)))
                      (AppState.project_mappings s))).
  { unfold DataManager.without_test_data.
    assert (Hc : DataManager.is_test_current Py.lower_ascii sa = true) by reflexivity.
    rewrite Hc. f_equal.
    - unfold sa, AppState.add_work_entry. cbn [AppState.work_entries].
      rewrite filter_app.
      assert (Hx : filter (fun e => negb (DataManager.is_test_entry Py.lower_ascii e))
                [WorkEntry.mk now "TEST-123" "Test Project"
                   "Sample entry added via script" 60] = []) by reflexivity.
      rewrite Hx. apply app_nil_r.
    - rewrite del_keys_filter.
      apply (filter_add_work_entry_dropped
               (fun k => negb (DataManager.is_test_project Py.lower_ascii k))).
      reflexivity. }
  pose proof (cleanup_test_data_result Py.lower_ascii dm1 sa Ha) as Hr.
  cbv zeta in Hr. rewrite Hs2 in Hr. cbn [AppState.work_entries] in Hr.
  set (n := Z.of_nat (List.length (AppState.work_entries sa)) -
            Z.of_nat (List.length
              (filter (fun e => negb (DataManager.is_test_entry Py.lower_ascii e))
                      (AppState.work_entries s)))) in Hr.
  assert (Hn : 1 <= n).
  { unfold n, sa, AppState.add_work_entry. cbn [AppState.work_entries].
    rewrite length_app. cbn [List.length].
    pose proof (filter_length_le
                  (fun e => negb (DataManager.is_test_entry Py.lower_ascii e))
                  (AppState.work_entries s)). lia. }
  assert (Hb : (0 <? n) = true) by (apply Z.ltb_lt; lia).
  rewrite Hb in Hr.
  eexists (DataManager.files dm1), _, n.
  split; [exact H1|]. split.
  - unfold CheckStatus.cleanup_test_data. rewrite Hl, Hr. cbn [fst snd]. reflexivity.
  - split; [exact Hn|]. destruct dm1 as [f1 st1]. apply save_writes_state.
Qed.

Lemma sample_work_is_cleaned_up_witness :
  let s := AppState.add_work_entry (Datetime.mk 2024 1 2 9 0 0 0) "BUG-42" "Alpha" ""
             AppState.default in
  let f := Disk.mk (Some (Disk.Document (AppState.to_dict s))) None None in
  Disk.data_file f = Some (Disk.Document (AppState.to_dict s)) /\
  Spec.well_formed s /\
  Datetime.valid (Datetime.mk 2024 1 3 9 0 0 0) = true /\
  exists f1 f2 n,
    CheckStatus.add_sample_work (Datetime.mk 2024 1 3 9 0 0 0) f = Returns f1 /\
    CheckStatus.cleanup_test_data Py.lower_ascii f1 = Returns (f2, Some n) /\
    1 <= n.
Proof.
  intros s f.
  assert (Hw : Spec.well_formed s).
  { apply add_work_entry_well_formed; [reflexivity | exact default_well_formed]. }
  split; [reflexivity|]. split; [exact Hw|]. split; [reflexivity|].
  destruct (sample_work_is_cleaned_up f s (Datetime.mk 2024 1 3 9 0 0 0)
              eq_refl Hw eq_refl) as [f1 [f2 [n [H1 [H2 [Hn _]]]]]].
  exists f1, f2, n. split; [exact H1|]. split; [exact H2 | exact Hn].
Defined.

(** ** The summary of the week *)

Lemma fold_add_to_summary (xs : list WorkEntry.t) (p0 : DataManager.project_summary) :
  let p := fold_left (fun v x => DataManager.add_to_summary x v) xs p0 in
  DataManager.s_tickets p =
    Dict.seen_from (map WorkEntry.ticket xs) (DataManager.s_tickets p0) /\
  DataManager.s_time p = DataManager.s_time p0 + Spec.minutes xs /\
  DataManager.s_details p =
    DataManager.s_details p0 ++
    filter (fun d => negb (String.eqb d "")) (map WorkEntry.details xs).
Proof.
  revert p0. induction xs as [|x xs IH]; intros p0; simpl.
  - rewrite app_nil_r. split; [reflexivity|]. split; [lia | reflexivity].
  - destruct (IH (DataManager.add_to_summary x p0)) as [H1 [H2 H3]].
    rewrite H1, H2, H3.
    cbn [DataManager.add_to_summary DataManager.s_tickets DataManager.s_time
         DataManager.s_details].
    split; [reflexivity|]. split; [lia|].
    destruct (negb (String.eqb (WorkEntry.details x) "")); simpl;
      [rewrite <- app_assoc|]; reflexivity.
Qed.

Lemma sum_zero {A} (l : list A) : fold_right Z.add 0 (map (fun _ => 0) l) = 0.
Proof. induction l as [|a l IH]; simpl; lia. Qed.

Lemma sum_once (k : string) (d : Z) (ks : list string) :
  NoDup ks -> In k ks ->
  fold_right Z.add 0 (map (fun p => if String.eqb k p then d else 0) ks) = d.
Proof.
  induction 1 as [|p ks Hn Hnd IH]; simpl; [tauto|].
  intros [->|Hin].
  - rewrite String.eqb_refl.
    assert (Hz : fold_right Z.add 0 (map (fun q => if String.eqb k q then d else 0) ks) = 0).
    { rewrite (map_ext_in _ (fun _ => 0)); [apply sum_zero|].
      intros q Hq.
      destruct (String.eqb_spec k q) as [->|_]; [contradiction | reflexivity]. }
    rewrite Hz. lia.
  - destruct (String.eqb_spec k p) as [->|_]; [contradiction|].
    rewrite IH by exact Hin. lia.
Qed.

(** The minutes of the projects add up to the minutes of the whole. *)
Lemma minutes_by_project (ks : list string) (es : list WorkEntry.t) :
  NoDup ks ->
  (forall e, In e es -> In (WorkEntry.project e) ks) ->
  fold_right Z.add 0 (map (fun p => Spec.minutes (Spec.of_project p es)) ks) =
  Spec.minutes es.
Proof.
  intros Hnd. induction es as [|e es IH]; intros Hin.
  - apply sum_zero.
  - assert (Hstep : forall p,
              Spec.minutes (Spec.of_project p (e :: es)) =
              (if String.eqb (WorkEntry.project e) p then WorkEntry.duration e else 0) +
              Spec.minutes (Spec.of_project p es)).
    { intros p. unfold Spec.of_project. simpl.
      destruct (String.eqb (WorkEntry.project e) p); simpl; lia. }
    rewrite (map_ext _ _ Hstep).
    assert (Hsplit : forall (f g : string -> Z) l,
              fold_right Z.add 0 (map (fun p => f p + g p) l) =
              fold_right Z.add 0 (map f l) + fold_right Z.add 0 (map g l)).
    { intros f g l. induction l as [|a l IHl]; simpl; lia. }
    rewrite Hsplit, IH by (intros x Hx; apply Hin; right; exact Hx).
    rewrite sum_once; [reflexivity | exact Hnd | apply Hin; left; reflexivity].
Qed.

(** X11. The summary of the current week adds up: its total is the sum
    of the durations of the entries of the week, its count their number,
    its projects are the distinct projects of these entries, each with
    the minutes of its own entries, their details that are not empty
    (repetitions kept) and their tickets; and the times of the projects
    sum to the total. *)
Theorem week_summary_adds_up :
  forall set_order (today : Date.t) (self : DataManager.t) (s : AppState.t)
         (es : list WorkEntry.t),
    DataManager.app_state self = Some s ->
    AppState.get_current_week_entries today s = Returns es ->
    exists w,
      DataManager.get_current_week_summary set_order today self = Returns w /\
      DataManager.total_time w = Spec.minutes es /\
      DataManager.entries_count w = Z.of_nat (List.length es) /\
      Dict.keys (DataManager.projects w) = Spec.projects es /\
      (forall p ps,
         In (p, ps) (DataManager.projects w) ->
         DataManager.s_time ps = Spec.minutes (Spec.of_project p es) /\
         DataManager.s_details ps =
           filter (fun d => negb (String.eqb d ""))
                  (map WorkEntry.details (Spec.of_project p es)) /\
         DataManager.s_tickets ps =
           set_order (Spec.distinct (map WorkEntry.ticket (Spec.of_project p es)))) /\
      Spec.summed_times (DataManager.projects w) = DataManager.total_time w.
Proof.
  intros set_order today self s es E Hes.
  unfold DataManager.get_current_week_summary. rewrite E, Hes. cbn [bind].
  eexists. split; [reflexivity|].
  cbn [DataManager.total_time DataManager.entries_count DataManager.projects].
  fold (ReportGenerator.total_duration es). rewrite total_duration_minutes.
  change (fold_left _ es [])
    with (Dict.grouped WorkEntry.project (DataManager.mk_summary [] 0 [])
            DataManager.add_to_summary es []).
  rewrite grouped_as_map, map_map. cbn [fst snd].
  set (v := fun p : string =>
              fold_left (fun v x => DataManager.add_to_summary x v)
                (filter (fun x => key_eqb (WorkEntry.project x) p) es)
                (DataManager.mk_summary [] 0 [])).
  assert (Hv : forall p,
            DataManager.s_tickets (v p) =
              Spec.distinct (map WorkEntry.ticket (Spec.of_project p es)) /\
            DataManager.s_time (v p) = Spec.minutes (Spec.of_project p es) /\
            DataManager.s_details (v p) =
              filter (fun d => negb (String.eqb d ""))
                     (map WorkEntry.details (Spec.of_project p es))).
  { intros p. unfold v.
    destruct (fold_add_to_summary
                (filter (fun x => key_eqb (WorkEntry.project x) p) es)
                (DataManager.mk_summary [] 0 [])) as [H1 [H2 H3]].
    cbn [DataManager.s_tickets DataManager.s_time DataManager.s_details app] in H1, H2, H3.
    rewrite H1, H2, H3. split; [reflexivity|]. split; reflexivity. }
  split; [reflexivity|]. split; [reflexivity|]. split.
  { unfold Dict.keys. rewrite map_map. cbn [fst]. apply map_id. }
  split.
  { intros p ps Hin. apply in_map_iff in Hin. destruct Hin as [q [Heq _]].
    injection Heq as <- <-.
    cbn [DataManager.s_tickets DataManager.s_time DataManager.s_details].
    destruct (Hv q) as [H1 [H2 H3]].
    split; [exact H2|]. split; [exact H3|]. f_equal; exact H1. }
  unfold Spec.summed_times.
  transitivity (fold_right Z.add 0
                  (map (fun p => Spec.minutes (Spec.of_project p es))
                       (Spec.projects es))).
  - unfold Spec.projects. induction (Spec.distinct (map WorkEntry.project es))
      as [|p ks IH]; [reflexivity|].
    cbn [map fold_right snd DataManager.s_time].
    destruct (Hv p) as [_ [H2 _]].
    f_equal; [exact H2 | exact IH].
  - apply minutes_by_project; [apply projects_spec|].
    intros e He. apply projects_spec. exists e. split; [exact He | reflexivity].
Qed.

Lemma week_summary_adds_up_witness :
  let es := [ WorkEntry.mk (Datetime.mk 2024 1 8 9 0 0 0) "X-1" "Alpha" "a" 60;
              WorkEntry.mk (Datetime.mk 2024 1 9 9 0 0 0) "Y-1" "Beta" "" 60;
              WorkEntry.mk (Datetime.mk 2024 1 10 9 0 0 0) "X-2" "Alpha" "a" 60 ] in
  let s := AppState.mk None None None None es [] in
  let self := DataManager.mk (Disk.mk None None None) (Some s) in
  let today := Date.ymd2ord 2024 1 10 in
  DataManager.app_state self = Some s /\
  AppState.get_current_week_entries today s = Returns es /\
  exists w,
    DataManager.get_current_week_summary (fun l => l) today self = Returns w /\
    DataManager.total_time w = 180 /\
    Spec.summed_times (DataManager.projects w) = DataManager.total_time w.
Proof.
  intros es s self today.
  split; [reflexivity|]. split; [reflexivity|].
  destruct (week_summary_adds_up (fun l => l) today self s es eq_refl eq_refl)
    as [w [Hw [Ht [_ [_ [_ Hsum]]]]]].
  exists w. split; [exact Hw|]. split; [rewrite Ht; reflexivity | exact Hsum].
Defined.

(** ** The daily breakdown of the report *)

Lemma mapM_all {A B} (f : A -> outcome B) (h : A -> B) (l : list A) :
  Forall (fun a => f a = Returns (h a)) l ->
  mapM f l = Returns (map h l).
Proof.
  induction 1 as [|a l Ha _ IH]; simpl; [reflexivity|].
  rewrite Ha. cbn [bind]. rewrite IH. reflexivity.
Qed.

Lemma fold_set_add (xs : list WorkEntry.t) (s0 : list string) :
  fold_left (fun s entry => ReportGenerator.set_add (WorkEntry.ticket entry) s) xs s0 =
  Dict.seen_from (map WorkEntry.ticket xs) s0.
Proof.
  revert s0. induction xs as [|x xs IH]; intros s0; [reflexivity|].
  cbn [fold_left map]. rewrite IH. reflexivity.
Qed.

Lemma day_project_line_correct set_order (p : string) (xs : list WorkEntry.t) :
  Spec.size xs < 2 ^ 1000 ->
  ReportGenerator.day_project_line set_order (p, xs) =
  Returns (Spec.day_line set_order p xs).
Proof.
  intros Hs. unfold ReportGenerator.day_project_line, Spec.day_line. cbn [fst snd].
  rewrite total_duration_minutes.
  rewrite hours_returns by (pose proof (minutes_le_size xs); lia).
  cbn [bind]. rewrite fold_set_add. reflexivity.
Qed.

Lemma day_section_correct set_order (es : list WorkEntry.t) (d : Date.t) :
  Spec.size es < 2 ^ 1000 ->
  In d (Spec.distinct (map (fun e => Datetime.date (WorkEntry.timestamp e)) es)) ->
  ReportGenerator.day_section set_order
    (map (fun k => (k, filter (fun x => key_eqb (Datetime.date (WorkEntry.timestamp x)) k) es))
         (Spec.distinct (map (fun e => Datetime.date (WorkEntry.timestamp e)) es))) d =
  Returns (Spec.day_block set_order d (Spec.on_day d es)).
Proof.
  intros Hs Hin. unfold ReportGenerator.day_section. cbv zeta.
  rewrite (get_of_map
             (fun k => filter (fun x => key_eqb (Datetime.date (WorkEntry.timestamp x)) k) es)).
  apply existsb_key_In in Hin. rewrite Hin.
  change (filter (fun x => key_eqb (Datetime.date (WorkEntry.timestamp x)) d) es)
    with (Spec.on_day d es).
  assert (Hd : Spec.size (Spec.on_day d es) < 2 ^ 1000).
  { unfold Spec.on_day.
    pose proof (size_filter
                  (fun e => Z.eqb (Datetime.date (WorkEntry.timestamp e)) d) es). lia. }
  rewrite total_duration_minutes.
  rewrite hours_returns by (pose proof (minutes_le_size (Spec.on_day d es)); lia).
  cbn [bind]. rewrite appended_as_map.
  rewrite (mapM_map _ _
             (fun p => Spec.day_line set_order p (Spec.of_project p (Spec.on_day d es)))).
  2:{ apply Forall_forall. intros p _. apply day_project_line_correct.
      pose proof (size_filter (fun e => String.eqb (WorkEntry.project e) p)
                    (Spec.on_day d es)).
      unfold Spec.of_project. lia. }
  cbn [bind]. unfold Spec.day_block. reflexivity.
Qed.

Lemma daily_breakdown_correct set_order (es : list WorkEntry.t) :
  Spec.size es < 2 ^ 1000 ->
  ReportGenerator._create_daily_breakdown set_order es =
  Returns (Spec.daily set_order es).
Proof.
  intros Hs. unfold ReportGenerator._create_daily_breakdown. cbv zeta.
  rewrite appended_as_map.
  assert (Hk : forall (g : Date.t -> list WorkEntry.t) ks,
             Dict.keys (map (fun k => (k, g k)) ks) = ks).
  { intros g ks. unfold Dict.keys. rewrite map_map. apply map_id. }
  rewrite Hk. fold (Spec.days es).
  rewrite (mapM_all _ (fun d => Spec.day_block set_order d (Spec.on_day d es))).
  - reflexivity.
  - apply Forall_forall. intros d Hd. apply day_section_correct; [exact Hs|].
    unfold Spec.days, ReportGenerator.sorted_dates in Hd.
    eapply Permutation_in; [apply sort_by_perm | exact Hd].
Qed.

Lemma days_spec (es : list WorkEntry.t) :
  StronglySorted Z.lt (Spec.days es) /\
  (forall d, In d (Spec.days es) <->
             exists e, In e es /\ Datetime.date (WorkEntry.timestamp e) = d).
Proof.
  unfold Spec.days, ReportGenerator.sorted_dates.
  set (l := Spec.distinct _).
  destruct (distinct_spec (map (fun e => Datetime.date (WorkEntry.timestamp e)) es))
    as [H1 H2]. fold l in H1, H2.
  split.
  - assert (Htot : forall a b : Z, (a <=? b) = true \/ (b <=? a) = true).
    { intros a b. destruct (Z.leb_spec a b); [left; reflexivity|].
      right. apply Z.leb_le. lia. }
    assert (Htr : forall a b c : Z,
               (a <=? b) = true -> (b <=? c) = true -> (a <=? c) = true).
    { intros a b c Hab Hbc. apply Z.leb_le in Hab, Hbc. apply Z.leb_le. lia. }
    pose proof (sort_by_sorted Z.leb Htot Htr l) as Hs.
    assert (Hnd : NoDup (ReportGenerator.sort_by Z.leb l)).
    { eapply Permutation_NoDup; [|exact H1]. symmetry. apply sort_by_perm. }
    induction Hs as [|x l' Hs IH Hx]; [constructor|].
    inversion Hnd as [|? ? Hn Hnd']; subst.
    constructor; [apply IH; exact Hnd'|].
    rewrite Forall_forall in *. intros y Hy. specialize (Hx y Hy).
    apply Z.leb_le in Hx.
    assert (x <> y) by (intros ->; contradiction). lia.
  - intros d. split.
    + intros Hd. apply (Permutation_in _ (sort_by_perm Z.leb l)) in Hd.
      apply H2, in_map_iff in Hd. destruct Hd as [e [He Hin]].
      exists e. split; assumption.
    + intros [e [Hin He]].
      apply (Permutation_in _ (Permutation_sym (sort_by_perm Z.leb l))).
      apply H2, in_map_iff. exists e. split; assumption.
Qed.

(** X12. The daily breakdown of a report, for entries whose durations
    add up, in size, to less than 2^1000 minutes: after its heading it
    has one part for every day that has an entry, the days in strictly
    ascending order; the part of a day gives the name of the weekday, the
    date, the hours of the entries of that day to one decimal place, and
    for each project of that day, in the order in which the day meets
    them, one line with the hours of the project on that day and its
    tickets of that day. *)
Theorem daily_breakdown_by_day :
  forall set_order (es : list WorkEntry.t),
    Spec.size es < 2 ^ 1000 ->
    ReportGenerator._create_daily_breakdown set_order es =
      Returns (Spec.daily set_order es) /\
    StronglySorted Z.lt (Spec.days es) /\
    (forall d, In d (Spec.days es) <->
               exists e, In e es /\ Datetime.date (WorkEntry.timestamp e) = d).
Proof.
  intros set_order es Hs. split; [apply daily_breakdown_correct; exact Hs|].
  apply days_spec.
Qed.

Lemma daily_breakdown_by_day_witness :
  let es := [ WorkEntry.mk (Datetime.mk 2024 1 9 9 0 0 0) "Y-1" "Beta" "" 120;
              WorkEntry.mk (Datetime.mk 2024 1 8 9 0 0 0) "X-1" "Alpha" "a" 60;
              WorkEntry.mk (Datetime.mk 2024 1 8 14 0 0 0) "X-2" "Alpha" "b" 30 ] in
  Spec.size es < 2 ^ 1000 /\
  ReportGenerator._create_daily_breakdown (fun l => l) es =
    Returns (ReportGenerator.cat
               [ "## Daily Breakdown"; ReportGenerator.nl; ReportGenerator.nl;
                 "### Monday 01/08"; ReportGenerator.nl;
                 "**Total:** 1.5 hours"; ReportGenerator.nl; ReportGenerator.nl;
                 "- **Alpha** (1.5h): X-1, X-2"; ReportGenerator.nl;
                 ReportGenerator.nl;
                 "### Tuesday 01/09"; ReportGenerator.nl;
                 "**Total:** 2.0 hours"; ReportGenerator.nl; ReportGenerator.nl;
                 "- **Beta** (2.0h): Y-1"; ReportGenerator.nl;
                 ReportGenerator.nl ]).
Proof.
  intros es.
  assert (Hs : Spec.size es < 2 ^ 1000) by (vm_compute; reflexivity).
  split; [exact Hs|].
  destruct (daily_breakdown_by_day (fun l => l) es Hs) as [H _].
  rewrite H. vm_compute. reflexivity.
Defined.

(** ** The report of a week *)

Lemma report_content_exact set_order (today : Date.t) (es : list WorkEntry.t)
    (ws we : Date.t) :
  Spec.size es < 2 ^ 1000 ->
  ReportGenerator._create_report_content set_order today es (Some ws) (Some we) =
  Returns (Spec.heading ws we ++ Spec.summary es ++ Spec.sections es ++
           Spec.daily set_order es ++ ReportGenerator.nl ++ "---" ++
           ReportGenerator.nl)%string.
Proof.
  intros Hs. unfold ReportGenerator._create_report_content.
  cbn [bind fst snd]. cbv zeta.
  rewrite total_duration_minutes.
  rewrite hours_returns by (pose proof (minutes_le_size es); lia).
  cbn [bind]. rewrite group_entries_by_project_as_map.
  rewrite (mapM_map _ _ (fun p => Spec.project_section p (Spec.of_project p es))).
  2:{ apply Forall_forall. intros p _. cbn [fst snd].
      apply project_section_correct.
      pose proof (size_filter (fun e => String.eqb (WorkEntry.project e) p) es).
      unfold Spec.of_project. lia. }
  cbn [bind]. rewrite daily_breakdown_correct by exact Hs.
  cbn [bind]. rewrite length_map.
  unfold Spec.heading, Spec.summary, Spec.sections.
  rewrite !append_assoc. reflexivity.
Qed.

Lemma week_entries_in_range (today offset : Z) (s : AppState.t) :
  1 <= today <= Date.MAXORDINAL ->
  1 <= today - Date.weekday today + 7 * offset ->
  today - Date.weekday today + 7 * offset + 6 <= Date.MAXORDINAL ->
  (if offset =? 0
   then AppState.get_current_week_entries today s
   else AppState.get_week_entries_with_offset today offset s) =
  Returns (AppState.entries_between
             (today - Date.weekday today + 7 * offset)
             (today - Date.weekday today + 7 * offset + 6) s).
Proof.
  intros Ht Hlo Hhi. pose proof (weekday_bound today) as Hw.
  pose proof (monday_positive today ltac:(lia)) as Hm.
  unfold Date.MAXORDINAL in *.
  destruct (Z.eqb_spec offset 0) as [->|Hne].
  - unfold AppState.get_current_week_entries, Date.sub.
    rewrite timedelta_small by lia. cbn [bind].
    rewrite add_in_range by (unfold Date.MAXORDINAL; lia). cbn [bind].
    rewrite timedelta_small by lia. cbn [bind].
    rewrite add_in_range by (unfold Date.MAXORDINAL; lia). cbn [bind].
    do 2 f_equal; lia.
  - unfold AppState.get_week_entries_with_offset, Date.sub.
    rewrite timedelta_small by lia. cbn [bind].
    rewrite add_in_range by (unfold Date.MAXORDINAL; lia). cbn [bind].
    rewrite timedelta_small by lia. cbn [bind].
    rewrite add_in_range by (unfold Date.MAXORDINAL; lia). cbn [bind].
    rewrite timedelta_small by lia. cbn [bind].
    rewrite add_in_range by (unfold Date.MAXORDINAL; lia). cbn [bind].
    do 2 f_equal; lia.
Qed.

Lemma empty_report_content (ws we : Date.t) (files : ReportGenerator.reports)
    (today : Date.t) (output_dir : string) :
  ReportGenerator._generate_empty_report today output_dir files (Some ws) (Some we) =
  Returns (Dict.set (ReportGenerator.report_name ws we) (Spec.empty_report ws we) files,
           ReportGenerator.path_of output_dir (ReportGenerator.report_name ws we)).
Proof.
  unfold ReportGenerator._generate_empty_report. cbn [bind fst snd]. cbv zeta.
  unfold Spec.empty_report, Spec.heading, Spec.lines.
  cbn [map ReportGenerator.cat fold_right].
  rewrite !append_assoc. reflexivity.
Qed.

Lemma weekly_report_result set_order (today : Date.t) (output_dir : string)
    (files : ReportGenerator.reports) (s : AppState.t) (offset : Z) :
  1 <= today <= Date.MAXORDINAL ->
  1 <= today - Date.weekday today + 7 * offset ->
  today - Date.weekday today + 7 * offset + 6 <= Date.MAXORDINAL ->
  Spec.size (AppState.work_entries s) < 2 ^ 1000 ->
  let start := today - Date.weekday today + 7 * offset in
  let es := AppState.entries_between start (start + 6) s in
  let name := ReportGenerator.report_name start (start + 6) in
  ReportGenerator.generate_weekly_report set_order today output_dir files s offset =
  Returns
    (Dict.set name
       (match es with
        | [] => Spec.empty_report start (start + 6)
        | _ => (Spec.heading start (start + 6) ++ Spec.summary es ++
                Spec.sections es ++ Spec.daily set_order es ++
                ReportGenerator.nl ++ "---" ++ ReportGenerator.nl)%string
        end) files,
     ReportGenerator.path_of output_dir name).
Proof.
  intros Ht Hlo Hhi Hs start es name. pose proof (weekday_bound today) as Hw.
  pose proof (monday_positive today ltac:(lia)) as Hm.
  unfold ReportGenerator.generate_weekly_report.
  rewrite week_entries_in_range by assumption. cbn [bind].
  fold start. fold es.
  unfold Date.sub.
  rewrite timedelta_small by lia. cbn [bind].
  rewrite add_in_range by lia. cbn [bind].
  rewrite timedelta_small by (unfold Date.MAXORDINAL in *; lia). cbn [bind].
  replace (today + - Date.weekday today + 7 * offset) with start
    by (unfold start; lia).
  rewrite add_in_range by (unfold start, Date.MAXORDINAL in *; lia). cbn [bind].
  rewrite timedelta_small by lia. cbn [bind].
  rewrite add_in_range by (unfold start, Date.MAXORDINAL in *; lia). cbn [bind].
  assert (Hes : Spec.size es < 2 ^ 1000).
  { eapply Z.le_lt_trans; [|exact Hs]. apply size_filter. }
  destruct es as [|e es'] eqn:E.
  - apply empty_report_content.
  - rewrite report_content_exact by exact Hes. cbn [bind]. reflexivity.
Qed.

(** X13. The report of a week, for a week of the years 1000 to 9999
    and entries whose durations add up, in size, to less than 2^1000
    minutes.
    [generate_weekly_report] with an offset writes the file named after
    the Monday and the Sunday of the week that lies so many weeks from
    the current one, and returns its path in the output directory. The
    file holds, for a week without entries, the heading and the sentence
    that no activities were recorded; otherwise the heading, the
    executive summary, the project sections and the daily breakdown of
    exactly the entries dated in that week. Every other file of the
    directory stays as it was. *)
Theorem weekly_report_is_filed_under_its_week :
  forall set_order (today : Date.t) (output_dir : string)
         (files : ReportGenerator.reports) (s : AppState.t) (offset : Z),
    1 <= today <= Date.MAXORDINAL ->
    Date.ymd2ord 1000 1 1 <= today - Date.weekday today + 7 * offset ->
    today - Date.weekday today + 7 * offset + 6 <= Date.MAXORDINAL ->
    Spec.size (AppState.work_entries s) < 2 ^ 1000 ->
    let start := today - Date.weekday today + 7 * offset in
    let es := AppState.entries_between start (start + 6) s in
    let name := ReportGenerator.report_name start (start + 6) in
    exists files',
      ReportGenerator.generate_weekly_report set_order today output_dir files s offset =
        Returns (files', ReportGenerator.path_of output_dir name) /\
      (es = [] -> Dict.get name files' = Some (Spec.empty_report start (start + 6))) /\
      (es <> [] ->
       Dict.get name files' =
       Some (Spec.heading start (start + 6) ++ Spec.summary es ++
             Spec.sections es ++ Spec.daily set_order es ++
             ReportGenerator.nl ++ "---" ++ ReportGenerator.nl)%string) /\
      (forall other, other <> name -> Dict.get other files' = Dict.get other files) /\
      (forall e, In e es <->
                 In e (AppState.work_entries s) /\
                 start <= Datetime.date (WorkEntry.timestamp e) <= start + 6).
Proof.
  intros set_order today output_dir files s offset Ht Hlo Hhi Hs start es name.
  change (Date.ymd2ord 1000 1 1) with 364878 in Hlo.
  eexists. split; [apply weekly_report_result; try assumption; lia|].
  fold start. fold es. fold name.
  split; [|split; [|split]].
  - intros E. rewrite get_set_same, E. reflexivity.
  - intros E. rewrite get_set_same. destruct es; [contradiction | reflexivity].
  - intros other Hne. apply get_set_other. exact Hne.
  - intros e. unfold es, AppState.entries_between.
    rewrite filter_In, andb_true_iff, !Z.leb_le. tauto.
Qed.

Lemma weekly_report_is_filed_under_its_week_witness :
  let e := WorkEntry.mk (Datetime.mk 2024 1 3 8 0 0 0) "X-1" "Alpha" "" 60 in
  let s := AppState.mk None None None None [e] [] in
  let today := Date.ymd2ord 2024 1 10 in
  let files := [("notes.txt", "kept")] in
  exists files',
    ReportGenerator.generate_weekly_report (fun l => l) today "reports" files s (-1) =
      Returns (files', "reports/weekly_report_20240101-20240107.md") /\
    Dict.get "notes.txt" files' = Some "kept".
Proof.
  intros e s today files.
  destruct (weekly_report_is_filed_under_its_week (fun l => l) today "reports" files
              s (-1))
    as [files' [H [_ [_ [Hother _]]]]];
    [vm_compute; split; discriminate | vm_compute; discriminate
    | vm_compute; discriminate | vm_compute; reflexivity |].
  exists files'. split; [exact H|].
  rewrite Hother; [reflexivity | vm_compute; discriminate].
Defined.

(** X14. In a week of the years 1000 to 9999, [get_report_path]
    without a date string, or with an empty one, gives the path under
    which [generate_weekly_report] files the report of the current week,
    and after that call the file is there. *)
Theorem report_path_is_where_the_report_goes :
  forall set_order (today : Date.t) (output_dir : string)
         (files : ReportGenerator.reports) (s : AppState.t) (date_str : option string),
    1 <= today <= Date.MAXORDINAL ->
    Date.ymd2ord 1000 1 1 <= today - Date.weekday today ->
    today - Date.weekday today + 6 <= Date.MAXORDINAL ->
    Spec.size (AppState.work_entries s) < 2 ^ 1000 ->
    date_str = None \/ date_str = Some "" ->
    exists files' path,
      ReportGenerator.generate_weekly_report set_order today output_dir files s 0 =
        Returns (files', path) /\
      ReportGenerator.get_report_path today output_dir date_str = Returns path /\
      Dict.get (ReportGenerator.report_name (today - Date.weekday today)
                  (today - Date.weekday today + 6)) files' <> None.
Proof.
  intros set_order today output_dir files s date_str Ht _ Hhi Hs Hd.
  pose proof (monday_positive today ltac:(lia)) as Hm.
  pose proof (weekly_report_result set_order today output_dir files s 0 Ht
                ltac:(lia) ltac:(lia) Hs) as H.
  cbv zeta in H. replace (today - Date.weekday today + 7 * 0)
    with (today - Date.weekday today) in H by lia.
  eexists. eexists. split; [exact H|]. split.
  - assert (Hp : ReportGenerator.get_report_path today output_dir date_str =
                 (week <- ReportGenerator.current_week today ;;
                  Returns (ReportGenerator.path_of output_dir
                             (ReportGenerator.report_name (fst week) (snd week))))).
    { destruct Hd as [-> | ->]; reflexivity. }
    rewrite Hp, current_week_in_range by lia. reflexivity.
  - rewrite get_set_same. discriminate.
Qed.

Lemma report_path_is_where_the_report_goes_witness :
  let s := AppState.mk None None None None [] [] in
  let today := Date.ymd2ord 2024 1 10 in
  exists files',
    ReportGenerator.generate_weekly_report (fun l => l) today "reports" [] s 0 =
      Returns (files', "reports/weekly_report_20240108-20240114.md") /\
    ReportGenerator.get_report_path today "reports" (Some "") =
      Returns "reports/weekly_report_20240108-20240114.md".
Proof.
  intros s today.
  destruct (report_path_is_where_the_report_goes (fun l => l) today "reports" [] s
              (Some ""))
    as [files' [path [H1 [H2 _]]]];
    [vm_compute; split; discriminate | vm_compute; discriminate
    | vm_compute; discriminate | vm_compute; reflexivity | right; reflexivity |].
  exists files'.
  assert (Hp : path = "reports/weekly_report_20240108-20240114.md").
  { vm_compute in H2. injection H2 as <-. reflexivity. }
  rewrite <- Hp. split; assumption.
Defined.

(** ** The weeks that have a report *)

Lemma all_from_spec (p : Z -> bool) (fuel : nat) (k : Z) :
  Spec.all_from fuel k p = true ->
  forall i, k <= i < k + Z.of_nat fuel -> p i = true.
Proof.
  revert k. induction fuel as [|fuel IH]; intros k H i Hi; [lia|].
  cbn [Spec.all_from] in H. apply andb_true_iff in H. destruct H as [Hk Hr].
  destruct (Z.eq_dec i k) as [->|Hne]; [exact Hk|].
  apply (IH (k + 1) Hr). lia.
Qed.

(** Every day of the cycle of 400 years is right: by running through
    them. *)
Lemma cycle_ok : Spec.all_from (Z.to_nat 146097) 0 Spec.cycle_day_ok = true.
Proof. vm_compute. reflexivity. Qed.

Lemma ord2ymd_period (q r : Z) :
  0 <= r < 146097 ->
  Date.ord2ymd (146097 * q + r + 1) =
  let '(y, m, d) := Date.ord2ymd (r + 1) in (y + 400 * q, m, d).
Proof.
  intros Hr. unfold Date.ord2ymd. cbv zeta.
  replace (146097 * q + r + 1 - 1) with (r + q * 146097) by lia.
  replace (r + 1 - 1) with r by lia.
  rewrite Z.div_add, Z.mod_add by lia.
  rewrite (Z.div_small r 146097), (Z.mod_small r 146097) by lia.
  destruct (_ || _).
  - f_equal. f_equal. lia.
  - destruct (_ <? _); (f_equal; f_equal; lia).
Qed.

Lemma is_leap_period (y q : Z) : Date.is_leap (y + 400 * q) = Date.is_leap y.
Proof.
  unfold Date.is_leap.
  replace ((y + 400 * q) mod 4) with (y mod 4)
    by (replace (y + 400 * q) with (y + (100 * q) * 4) by lia;
        rewrite Z.mod_add by lia; reflexivity).
  replace ((y + 400 * q) mod 100) with (y mod 100)
    by (replace (y + 400 * q) with (y + (4 * q) * 100) by lia;
        rewrite Z.mod_add by lia; reflexivity).
  replace ((y + 400 * q) mod 400) with (y mod 400)
    by (replace (y + 400 * q) with (y + q * 400) by lia;
        rewrite Z.mod_add by lia; reflexivity).
  reflexivity.
Qed.

Lemma days_before_year_period (y q : Z) :
  Date.days_before_year (y + 400 * q) = Date.days_before_year y + 146097 * q.
Proof.
  unfold Date.days_before_year. cbv zeta.
  replace ((y + 400 * q - 1) / 4) with ((y - 1) / 4 + 100 * q)
    by (replace (y + 400 * q - 1) with (y - 1 + (100 * q) * 4) by lia;
        rewrite Z.div_add by lia; reflexivity).
  replace ((y + 400 * q - 1) / 100) with ((y - 1) / 100 + 4 * q)
    by (replace (y + 400 * q - 1) with (y - 1 + (4 * q) * 100) by lia;
        rewrite Z.div_add by lia; reflexivity).
  replace ((y + 400 * q - 1) / 400) with ((y - 1) / 400 + q)
    by (replace (y + 400 * q - 1) with (y - 1 + q * 400) by lia;
        rewrite Z.div_add by lia; reflexivity).
  lia.
Qed.

Lemma days_before_month_nonneg (y m : Z) :
  1 <= m <= 12 -> 0 <= Date.days_before_month y m.
Proof.
  intros Hm.
  assert (C : m = 1 \/ m = 2 \/ m = 3 \/ m = 4 \/ m = 5 \/ m = 6 \/ m = 7 \/
              m = 8 \/ m = 9 \/ m = 10 \/ m = 11 \/ m = 12) by lia.
  unfold Date.days_before_month.
  repeat (destruct C as [-> | C];
          [destruct (Date.is_leap y); vm_compute; discriminate|]).
  subst. destruct (Date.is_leap y); vm_compute; discriminate.
Qed.

(** The date that an ordinal stands for exists, and has this ordinal. *)
Lemma ord2ymd_valid (n : Z) :
  1 <= n <= Date.MAXORDINAL ->
  exists y m d,
    Date.ord2ymd n = (y, m, d) /\
    Datetime.valid_date y m d = true /\
    Date.ymd2ord y m d = n.
Proof.
  intros Hn. unfold Date.MAXORDINAL in Hn.
  pose proof (Z.div_mod (n - 1) 146097 ltac:(lia)) as Hdm.
  pose proof (Z.mod_pos_bound (n - 1) 146097 ltac:(lia)) as Hr.
  set (q := (n - 1) / 146097) in *. set (r := (n - 1) mod 146097) in *.
  assert (Hq : 0 <= q <= 24).
  { split; [apply Z.div_pos; lia|].
    assert ((n - 1) / 146097 < 25) by (apply Z.div_lt_upper_bound; lia). lia. }
  assert (Hp : Date.ord2ymd n = Date.ord2ymd (146097 * q + r + 1))
    by (f_equal; lia).
  rewrite Hp, ord2ymd_period by exact Hr. clear Hp.
  pose proof (all_from_spec _ _ _ cycle_ok r ltac:(lia)) as Hc.
  unfold Spec.cycle_day_ok in Hc.
  destruct (Date.ord2ymd (r + 1)) as [[y0 m] d].
  repeat (apply andb_true_iff in Hc; destruct Hc as [Hc ?]).
  repeat match goal with
         | H : (_ <=? _) = true |- _ => apply Z.leb_le in H
         | H : (_ =? _) = true |- _ => apply Z.eqb_eq in H
         end.
  assert (Hord : Date.ymd2ord (y0 + 400 * q) m d = n).
  { unfold Date.ymd2ord in *. unfold Date.days_before_month in *.
    rewrite is_leap_period, days_before_year_period. lia. }
  exists (y0 + 400 * q), m, d. split; [reflexivity|]. split; [|exact Hord].
  assert (Hy : y0 + 400 * q <= 9999).
  { destruct (Z.eq_dec (y0 + 400 * q) 10000) as [E|E]; [|lia].
    rewrite E in Hord. unfold Date.ymd2ord in Hord.
    pose proof (days_before_month_nonneg 10000 m ltac:(lia)).
    change (Date.days_before_year 10000) with 3652059 in Hord. lia. }
  unfold Datetime.valid_date, Date.days_in_month in *.
  rewrite is_leap_period.
  repeat (apply andb_true_iff; split); apply Z.leb_le; lia.
Qed.


Lemma number_digits (w : nat) (lo hi n : Z) (rest : string) :
  0 <= n < 10 ^ Z.of_nat w ->
  Datetime.number w lo hi (Fmt.digits w n ++ rest) =
  if (lo <=? n) && (n <=? hi) then [(n, rest)] else [].
Proof.
  intros Hn. unfold Datetime.number. rewrite read_fixed by exact Hn. reflexivity.
Qed.

Lemma read_month_digits (m : Z) (rest : string) :
  1 <= m <= 12 ->
  exists tl, Datetime.read_month (Fmt.digits 2 m ++ rest) = (m, rest) :: tl.
Proof.
  intros Hm. unfold Datetime.read_month.
  rewrite !number_digits by (change (10 ^ Z.of_nat 2) with 100; lia).
  destruct (Z.leb_spec 10 m).
  - replace (m <=? 12) with true by (symmetry; apply Z.leb_le; lia).
    eexists. reflexivity.
  - replace (1 <=? m) with true by (symmetry; apply Z.leb_le; lia).
    replace (m <=? 9) with true by (symmetry; apply Z.leb_le; lia).
    eexists. reflexivity.
Qed.

Lemma read_day_digits (d : Z) (rest : string) :
  1 <= d <= 31 ->
  exists tl, Datetime.read_day (Fmt.digits 2 d ++ rest) = (d, rest) :: tl.
Proof.
  intros Hd. unfold Datetime.read_day.
  rewrite !number_digits by (change (10 ^ Z.of_nat 2) with 100; lia).
  destruct (Z.leb_spec 30 d).
  - replace (d <=? 31) with true by (symmetry; apply Z.leb_le; lia).
    eexists. reflexivity.
  - cbn [andb app]. destruct (Z.leb_spec 10 d).
    + replace (d <=? 29) with true by (symmetry; apply Z.leb_le; lia).
      eexists. reflexivity.
    + replace (1 <=? d) with true by (symmetry; apply Z.leb_le; lia).
      replace (d <=? 9) with true by (symmetry; apply Z.leb_le; lia).
      eexists. reflexivity.
Qed.

(** Reading the date that [%Y%m%d] wrote gives the date back. *)
Lemma strptime_strftime (n : Date.t) :
  1 <= n <= Date.MAXORDINAL ->
  Datetime.strptime_Ymd (ReportGenerator.strftime_Ymd n) = Returns n.
Proof.
  intros Hn. destruct (ord2ymd_valid n Hn) as [y [m [d [Ho [Hv Hy]]]]].
  unfold ReportGenerator.strftime_Ymd. rewrite Ho.
  pose proof Hv as Hb. unfold Datetime.valid_date in Hb.
  repeat (apply andb_true_iff in Hb; destruct Hb as [Hb ?]).
  repeat match goal with
         | H : (_ <=? _) = true |- _ => apply Z.leb_le in H
         end.
  pose proof (days_in_month_le y m) as Hdim.
  unfold Datetime.strptime_Ymd.
  rewrite read_fixed by (change (10 ^ Z.of_nat 4) with 10000; lia).
  destruct (read_month_digits m (Fmt.digits 2 d) ltac:(lia)) as [tl Hm].
  rewrite Hm. cbn [flat_map fst snd].
  destruct (read_day_digits d "" ltac:(lia)) as [tl' Hd].
  rewrite append_empty_r in Hd. rewrite Hd. cbn [map app fst snd].
  rewrite Hv, Hy. reflexivity.
Qed.

Lemma strptime_Ymd_outcome (s : string) :
  (exists d, Datetime.strptime_Ymd s = Returns d) \/
  Datetime.strptime_Ymd s = Raises ValueError.
Proof.
  unfold Datetime.strptime_Ymd.
  destruct (Fmt.read_digits 4 0 s) as [[y s1]|]; [|right; reflexivity].
  destruct (flat_map _ _) as [|[[m d] rest] tl]; [right; reflexivity|].
  destruct rest; [|right; reflexivity].
  destruct (Datetime.valid_date y m d); [left; eexists|right]; reflexivity.
Qed.

(** *** The name of a report *)

Lemma digit_not_dash (x : Z) : Ascii.eqb (Fmt.digit (x mod 10)) "-" = false.
Proof.
  pose proof (Z.mod_pos_bound x 10 ltac:(lia)) as Hd.
  generalize dependent (x mod 10). intros d Hd.
  assert (C : d = 0 \/ d = 1 \/ d = 2 \/ d = 3 \/ d = 4 \/ d = 5 \/ d = 6 \/
              d = 7 \/ d = 8 \/ d = 9) by lia.
  repeat (destruct C as [-> | C]; [reflexivity|]). subst. reflexivity.
Qed.

Lemma split_digits (w : nat) (n : Z) (rest p : string) (ps : list string) :
  Py.split "-" rest = p :: ps ->
  Py.split "-" (Fmt.digits w n ++ rest) = (Fmt.digits w n ++ p)%string :: ps.
Proof.
  intros Hr. induction w as [|w IH]; [exact Hr|].
  cbn [Fmt.digits String.append Py.split].
  rewrite digit_not_dash, IH. reflexivity.
Qed.

Lemma split_Ymd (n : Date.t) (rest p : string) (ps : list string) :
  Py.split "-" rest = p :: ps ->
  Py.split "-" (ReportGenerator.strftime_Ymd n ++ rest) =
  (ReportGenerator.strftime_Ymd n ++ p)%string :: ps.
Proof.
  intros Hr. unfold ReportGenerator.strftime_Ymd.
  destruct (Date.ord2ymd n) as [[y m] d].
  rewrite !append_assoc.
  rewrite (split_digits 4 y _ (Fmt.digits 2 m ++ Fmt.digits 2 d ++ p) ps);
    [reflexivity|].
  rewrite (split_digits 2 m _ (Fmt.digits 2 d ++ p) ps); [reflexivity|].
  apply split_digits. exact Hr.
Qed.

Lemma length_app (a b : string) :
  String.length (a ++ b) = (String.length a + String.length b)%nat.
Proof. induction a as [|c a IH]; simpl; congruence. Qed.

Lemma length_digits (w : nat) (n : Z) : String.length (Fmt.digits w n) = w.
Proof. induction w as [|w IH]; simpl; congruence. Qed.

Lemma length_Ymd (n : Date.t) : String.length (ReportGenerator.strftime_Ymd n) = 8%nat.
Proof.
  unfold ReportGenerator.strftime_Ymd. destruct (Date.ord2ymd n) as [[y m] d].
  rewrite !length_app, !length_digits. reflexivity.
Qed.

Lemma substring_app (a b : string) : String.substring 0 (String.length a) (a ++ b) = a.
Proof.
  induction a as [|c a IH]; simpl.
  - destruct b; reflexivity.
  - rewrite IH. reflexivity.
Qed.

Lemma slice_from_app (a b : string) : Py.slice_from (String.length a) (a ++ b) = b.
Proof. induction a as [|c a IH]; simpl; [reflexivity | exact IH]. Qed.

Lemma report_name_parts (ws we : Date.t) :
  ReportGenerator.report_name ws we =
  (("weekly_report_" ++ ReportGenerator.strftime_Ymd ws ++ "-" ++
    ReportGenerator.strftime_Ymd we) ++ ".md")%string.
Proof.
  unfold ReportGenerator.report_name. rewrite !append_assoc. reflexivity.
Qed.

Lemma length_report_stem (ws we : Date.t) :
  String.length ("weekly_report_" ++ ReportGenerator.strftime_Ymd ws ++ "-" ++
                 ReportGenerator.strftime_Ymd we) = 31%nat.
Proof. rewrite !length_app, !length_Ymd. reflexivity. Qed.

Lemma stem_report_name (ws we : Date.t) :
  ReportGenerator.stem (ReportGenerator.report_name ws we) =
  ("weekly_report_" ++ ReportGenerator.strftime_Ymd ws ++ "-" ++
   ReportGenerator.strftime_Ymd we)%string.
Proof.
  rewrite report_name_parts. unfold ReportGenerator.stem.
  rewrite length_app. change (String.length ".md") with 3%nat.
  rewrite Nat.add_sub. apply substring_app.
Qed.

(** The name of the report of a week tells the week. *)
Lemma week_of_report_name (output_dir : string) (ws we : Date.t) :
  1 <= ws <= Date.MAXORDINAL -> 1 <= we <= Date.MAXORDINAL ->
  ReportGenerator.week_of_file output_dir (ReportGenerator.report_name ws we) =
  Returns
    (Some (ReportGenerator.mk_week
             (ReportGenerator.strftime_mdY ws ++ " - " ++ ReportGenerator.strftime_mdY we)
             (ReportGenerator.path_of output_dir (ReportGenerator.report_name ws we))
             ws we)).
Proof.
  intros Hs He. unfold ReportGenerator.week_of_file. cbv zeta.
  rewrite stem_report_name.
  set (D1 := ReportGenerator.strftime_Ymd ws).
  set (D2 := ReportGenerator.strftime_Ymd we).
  assert (Hp : String.prefix "weekly_report_" ("weekly_report_" ++ D1 ++ "-" ++ D2) = true).
  { apply prefix_spec. eexists. reflexivity. }
  rewrite Hp.
  change (Py.slice_from 14 ("weekly_report_" ++ D1 ++ "-" ++ D2))
    with (D1 ++ "-" ++ D2)%string.
  cbv iota.
  assert (Hc : Py.contains "-" (D1 ++ "-" ++ D2) = true).
  { apply contains_spec. exists D1, D2. reflexivity. }
  rewrite Hc.
  assert (Hl : String.length (D1 ++ "-" ++ D2) = 17%nat).
  { unfold D1, D2. rewrite !length_app, !length_Ymd. reflexivity. }
  rewrite Hl. cbn [Nat.eqb andb].
  assert (Hsp : Py.split "-" (D1 ++ "-" ++ D2) = [D1; D2]).
  { unfold D1. rewrite (split_Ymd ws _ "" [D2]).
    - rewrite append_empty_r. reflexivity.
    - change (Py.split "-" ("-" ++ D2)) with ("" :: Py.split "-" D2).
      f_equal. rewrite <- (append_empty_r D2) at 1.
      unfold D2. rewrite (split_Ymd we "" "" []); [|reflexivity].
      rewrite append_empty_r. reflexivity. }
  rewrite Hsp. unfold D1, D2.
  rewrite !strptime_strftime by assumption. cbn [bind]. reflexivity.
Qed.

Lemma week_of_file_returns (output_dir name : string) :
  exists o, ReportGenerator.week_of_file output_dir name = Returns o.
Proof.
  unfold ReportGenerator.week_of_file. cbv zeta.
  destruct (String.prefix _ _); [|eexists; reflexivity].
  destruct (_ && _); [|eexists; reflexivity].
  destruct (Py.split _ _) as [|a [|b [|c l]]]; try (eexists; reflexivity).
  destruct (strptime_Ymd_outcome a) as [[d1 H1] | H1]; rewrite H1; cbn [bind];
    [|eexists; reflexivity].
  destruct (strptime_Ymd_outcome b) as [[d2 H2] | H2]; rewrite H2; cbn [bind];
    eexists; reflexivity.
Qed.

Lemma report_name_is_globbed (ws we : Date.t) (files : ReportGenerator.reports) :
  In (ReportGenerator.report_name ws we) (Dict.keys files) ->
  In (ReportGenerator.report_name ws we) (ReportGenerator.glob_reports files).
Proof.
  intros Hin. unfold ReportGenerator.glob_reports. apply filter_In.
  split; [exact Hin|].
  assert (Hlen : String.length (ReportGenerator.report_name ws we) = 34%nat).
  { rewrite report_name_parts, length_app, length_report_stem. reflexivity. }
  rewrite Hlen. cbn [Nat.leb]. rewrite andb_true_r.
  apply andb_true_iff. split.
  - apply prefix_spec. eexists. unfold ReportGenerator.report_name. reflexivity.
  - unfold Py.endswith. rewrite Hlen. cbn [String.length Nat.leb Nat.sub andb].
    rewrite report_name_parts, <- length_report_stem with (ws := ws) (we := we).
    rewrite slice_from_app. reflexivity.
Qed.

Lemma mapM_In {A B} (f : A -> outcome B) (l : list A) (bs : list B) :
  mapM f l = Returns bs ->
  (forall a, In a l -> exists b, f a = Returns b /\ In b bs) /\
  (forall b, In b bs -> exists a, In a l /\ f a = Returns b).
Proof.
  revert bs. induction l as [|a l IH]; intros bs H.
  - cbn [mapM] in H. injection H as <-. split; intros x [].
  - cbn [mapM] in H.
    destruct (f a) as [b| |] eqn:Ea; cbn [bind] in H; try discriminate H.
    destruct (mapM f l) as [bs'| |]; cbn [bind] in H; try discriminate H.
    injection H as <-. destruct (IH bs' eq_refl) as [H1 H2]. split.
    + intros x [Hx|Hx].
      * subst x. exists b. split; [exact Ea | left; reflexivity].
      * destruct (H1 x Hx) as [b' [Hb Hin]]. exists b'.
        split; [exact Hb | right; exact Hin].
    + intros x [Hx|Hx].
      * subst x. exists a. split; [left; reflexivity | exact Ea].
      * destruct (H2 x Hx) as [a' [Ha Hf]]. exists a'.
        split; [right; exact Ha | exact Hf].
Qed.

Lemma somes_In {A} (l : list (option A)) (a : A) :
  In a (ReportGenerator.somes l) <-> In (Some a) l.
Proof.
  induction l as [|[x|] l IH]; simpl; [tauto| |].
  - rewrite IH. split; intros [H|H]; auto; left; congruence.
  - rewrite IH. split; [auto | intros [H|H]; [discriminate | exact H]].
Qed.

Lemma listed_report (output_dir : string) (files : ReportGenerator.reports)
    (ws we : Date.t) (weeks : list ReportGenerator.week) :
  1 <= ws <= Date.MAXORDINAL -> 1 <= we <= Date.MAXORDINAL ->
  In (ReportGenerator.report_name ws we) (Dict.keys files) ->
  ReportGenerator.get_available_weeks output_dir files = Returns weeks ->
  In (ReportGenerator.mk_week
        (ReportGenerator.strftime_mdY ws ++ " - " ++ ReportGenerator.strftime_mdY we)
        (ReportGenerator.path_of output_dir (ReportGenerator.report_name ws we))
        ws we)
     weeks.
Proof.
  intros Hws Hwe Hin H. unfold ReportGenerator.get_available_weeks in H.
  destruct (mapM (ReportGenerator.week_of_file output_dir)
              (ReportGenerator.glob_reports files)) as [found| |] eqn:Hf;
    cbn [bind] in H; try discriminate H.
  injection H as <-.
  destruct (mapM_In _ _ _ Hf) as [H1 _].
  eapply Permutation_in; [apply Permutation_sym, sort_by_perm|].
  apply somes_In.
  destruct (H1 _ (report_name_is_globbed ws we files Hin)) as [o [Ho Hino]].
  rewrite week_of_report_name in Ho by assumption. injection Ho as <-. exact Hino.
Qed.

Lemma available_weeks_returns (output_dir : string) (files : ReportGenerator.reports) :
  exists found,
    mapM (ReportGenerator.week_of_file output_dir) (ReportGenerator.glob_reports files) =
      Returns found /\
    ReportGenerator.get_available_weeks output_dir files =
      Returns (ReportGenerator.sort_by
                 (fun a b => ReportGenerator.start_date b <=? ReportGenerator.start_date a)
                 (ReportGenerator.somes found)).
Proof.
  destruct (mapM_returns (ReportGenerator.week_of_file output_dir)
              (ReportGenerator.glob_reports files)) as [found Hf].
  { intros name _. apply week_of_file_returns. }
  exists found. split; [exact Hf|].
  unfold ReportGenerator.get_available_weeks. rewrite Hf. reflexivity.
Qed.

(** X15. [get_available_weeks] always returns a list, whatever the
    files of the directory are called. The weeks of the list are in
    descending order of their first day; each of them is the week that
    the name of some file of the directory tells; and every report
    that is in the directory under the name that [generate_weekly_report]
    gives to a week of the years 1000 to 9999 is listed with exactly the
    first and the last day of that week, its path, and the two days
    written as month/day/year. *)
Theorem available_weeks_lists_written_reports :
  forall (output_dir : string) (files : ReportGenerator.reports),
    exists weeks,
      ReportGenerator.get_available_weeks output_dir files = Returns weeks /\
      StronglySorted
        (fun a b => ReportGenerator.start_date b <= ReportGenerator.start_date a)
        weeks /\
      (forall w,
         In w weeks ->
         exists name,
           In name (Dict.keys files) /\
           ReportGenerator.week_of_file output_dir name = Returns (Some w)) /\
      (forall ws we,
         Date.ymd2ord 1000 1 1 <= ws <= Date.MAXORDINAL ->
         Date.ymd2ord 1000 1 1 <= we <= Date.MAXORDINAL ->
         In (ReportGenerator.report_name ws we) (Dict.keys files) ->
         In (ReportGenerator.mk_week
               (ReportGenerator.strftime_mdY ws ++ " - " ++
                ReportGenerator.strftime_mdY we)
               (ReportGenerator.path_of output_dir (ReportGenerator.report_name ws we))
               ws we)
            weeks).
Proof.
  intros output_dir files.
  destruct (available_weeks_returns output_dir files) as [found [Hf Hw]].
  eexists. split; [exact Hw|].
  destruct (mapM_In _ _ _ Hf) as [_ H2].
  set (le := fun a b : ReportGenerator.week =>
               ReportGenerator.start_date b <=? ReportGenerator.start_date a).
  split; [|split].
  - assert (Hs : StronglySorted (fun a b => le a b = true)
                   (ReportGenerator.sort_by le (ReportGenerator.somes found))).
    { apply sort_by_sorted.
      - intros a b. unfold le.
        destruct (Z.leb_spec (ReportGenerator.start_date b) (ReportGenerator.start_date a));
          [left; reflexivity|]. right. apply Z.leb_le. lia.
      - intros a b c Hab Hbc. unfold le in *. apply Z.leb_le in Hab, Hbc.
        apply Z.leb_le. lia. }
    induction Hs as [|x l Hs IH Hx]; constructor; [exact IH|].
    rewrite Forall_forall in Hx |- *. intros y Hy. specialize (Hx y Hy).
    apply Z.leb_le in Hx. exact Hx.
  - intros w Hin. apply (Permutation_in _ (sort_by_perm le _)) in Hin.
    apply somes_In in Hin. destruct (H2 _ Hin) as [name [Hn Hname]].
    exists name. split; [|exact Hname].
    unfold ReportGenerator.glob_reports in Hn. apply filter_In in Hn. tauto.
  - intros ws we Hws Hwe Hin.
    change (Date.ymd2ord 1000 1 1) with 364878 in Hws, Hwe.
    apply (listed_report output_dir files ws we); [lia | lia | exact Hin | exact Hw].
Qed.

Lemma available_weeks_lists_written_reports_witness :
  let files := [ ("notes.txt", "kept");
                 ("weekly_report_20240108-20240114.md", "this week");
                 ("weekly_report_2024-01.md", "by hand") ] in
  exists weeks,
    ReportGenerator.get_available_weeks "reports" files = Returns weeks /\
    In (ReportGenerator.mk_week "01/08/2024 - 01/14/2024"
          "reports/weekly_report_20240108-20240114.md"
          (Date.ymd2ord 2024 1 8) (Date.ymd2ord 2024 1 14))
       weeks.
Proof.
  intros files.
  destruct (available_weeks_lists_written_reports "reports" files)
    as [weeks [H [_ [_ Hin]]]].
  exists weeks. split; [exact H|].
  apply (Hin (Date.ymd2ord 2024 1 8) (Date.ymd2ord 2024 1 14)).
  - vm_compute. split; discriminate.
  - vm_compute. split; discriminate.
  - right. left. reflexivity.
Defined.

(** X16. A report that [generate_weekly_report] has written is found
    again: for a week of the years 1000 to 9999 and entries whose
    durations add up, in size, to less than 2^1000 minutes,
    [get_available_weeks] on the directory after the call lists the week
    of the report, from its Monday to its Sunday, with the path that the
    call returned. *)
Theorem written_report_is_found_again :
  forall set_order (today : Date.t) (output_dir : string)
         (files : ReportGenerator.reports) (s : AppState.t) (offset : Z),
    1 <= today <= Date.MAXORDINAL ->
    Date.ymd2ord 1000 1 1 <= today - Date.weekday today + 7 * offset ->
    today - Date.weekday today + 7 * offset + 6 <= Date.MAXORDINAL ->
    Spec.size (AppState.work_entries s) < 2 ^ 1000 ->
    let start := today - Date.weekday today + 7 * offset in
    exists files' path weeks w,
      ReportGenerator.generate_weekly_report set_order today output_dir files s offset =
        Returns (files', path) /\
      ReportGenerator.get_available_weeks output_dir files' = Returns weeks /\
      In w weeks /\
      ReportGenerator.file_path w = path /\
      ReportGenerator.start_date w = start /\
      ReportGenerator.end_date w = start + 6 /\
      Date.weekday (ReportGenerator.start_date w) = 0.
Proof.
  intros set_order today output_dir files s offset Ht Hlo Hhi Hs start.
  change (Date.ymd2ord 1000 1 1) with 364878 in Hlo.
  pose proof (weekly_report_result set_order today output_dir files s offset Ht
                ltac:(lia) Hhi Hs) as Hg.
  cbv zeta in Hg. fold start in Hg.
  match type of Hg with
  | _ = Returns (?f, _) => set (files' := f) in Hg
  end.
  destruct (available_weeks_returns output_dir files') as [found [_ Hw]].
  do 4 eexists. split; [exact Hg|]. split; [exact Hw|]. split.
  - apply (listed_report output_dir files' start (start + 6));
      [unfold start; lia | unfold start; lia | | exact Hw].
    apply get_In_keys. unfold files'. rewrite get_set_same. discriminate.
  - cbn [ReportGenerator.file_path ReportGenerator.start_date ReportGenerator.end_date].
    split; [reflexivity|]. split; [reflexivity|]. split; [reflexivity|].
    unfold start. rewrite weekday_add_weeks.
    destruct (week_start_is_monday today) as [Hm _]. exact Hm.
Qed.

Lemma written_report_is_found_again_witness :
  let e := WorkEntry.mk (Datetime.mk 2024 1 3 8 0 0 0) "X-1" "Alpha" "" 60 in
  let s := AppState.mk None None None None [e] [] in
  let today := Date.ymd2ord 2024 1 10 in
  exists files' weeks w,
    ReportGenerator.generate_last_week_report (fun l => l) today "reports" [] s =
      Returns (files', "reports/weekly_report_20240101-20240107.md") /\
    ReportGenerator.get_available_weeks "reports" files' = Returns weeks /\
    In w weeks /\
    ReportGenerator.file_path w = "reports/weekly_report_20240101-20240107.md" /\
    ReportGenerator.start_date w = Date.ymd2ord 2024 1 1.
Proof.
  intros e s today.
  destruct (written_report_is_found_again (fun l => l) today "reports" [] s (-1))
    as [files' [path [weeks [w [Hg [Hw [Hin [Hp [Hs _]]]]]]]]];
    [vm_compute; split; discriminate | vm_compute; discriminate
    | vm_compute; discriminate | vm_compute; reflexivity |].
  assert (Epath : path = "reports/weekly_report_20240101-20240107.md").
  { vm_compute in Hg. injection Hg as _ <-. reflexivity. }
  exists files', weeks, w. rewrite <- Epath.
  split; [exact Hg|]. split; [exact Hw|]. split; [exact Hin|].
  split; [exact Hp|]. rewrite Hs. reflexivity.
Defined.

(** ** Entries read from older files *)


